(** * TAPR scraper: download orchestration and file reconciliation

    A shallow embedding of [Scraping_App/TEA_Scraper.GUI.py].  The helper
    functions [district_type_scraper], [wait_for_downloads], [file_renamer],
    [convert_dat_to_csv] and the master function [tea_scraper] are written
    as computations in a state-and-exception monad over a [world] that holds
    the download directory, a logical clock, the console, the open browser
    sessions and a log of the external calls.  The web site, the district
    type page and pandas are a [site] record of functions.

    Conventions of the model:
    - paths are POSIX; [directory_path] holds one level of sub-directories
      (the [raw_data{year}] folders) whose entries are regular files; a
      folder is addressed by its path and a file by its folder and name;
    - time passes only in [time.sleep]; a download started by the Continue
      button lands in the session's download folder once the clock has
      reached its arrival time;
    - the iteration order of a Python set is the order of [elements]. *)

From Stdlib Require Import ZArith Lia Ascii String.
From stdpp Require Import gmap strings list fin_maps pretty.

Open Scope Z_scope.
Open Scope string_scope.

(** ** Strings *)

(** [s.endswith(suffix)] *)
Fixpoint endswith (s suffix : string) : bool :=
  String.eqb s suffix ||
  match s with
  | EmptyString => false
  | String _ s' => endswith s' suffix
  end.

(** [sub in s] *)
Fixpoint contains (sub s : string) : bool :=
  String.prefix sub s ||
  match s with
  | EmptyString => false
  | String _ s' => contains sub s'
  end.

(** [s.startswith(p)] *)
Definition startswith (s p : string) : bool := String.prefix p s.

(** [s.replace(old, new)] for a non-empty [old]: occurrences are replaced
    from left to right and do not overlap; [skip] counts the characters of
    a match that are still to be dropped. *)
Fixpoint replace_from (old new : string) (skip : nat) (s : string) : string :=
  match s with
  | EmptyString => EmptyString
  | String c s' =>
      match skip with
      | S k => replace_from old new k s'
      | O =>
          if String.prefix old s
          then new ++ replace_from old new (Nat.pred (String.length old)) s'
          else String c (replace_from old new O s')
      end
  end.

Definition replace (old new s : string) : string := replace_from old new O s.

(** [sep.join(l)] *)
Fixpoint join (sep : string) (l : list string) : string :=
  match l with
  | [] => ""
  | [x] => x
  | x :: l' => x ++ sep ++ join sep l'
  end.

(** [os.path.join(a, b)] of [posixpath] *)
Definition path_join (a b : string) : string :=
  if startswith b "/" then b
  else if String.eqb a "" || endswith a "/" then a ++ b
  else a ++ "/" ++ b.


(** [f"{year}"] for an [int] *)
Definition str_int (n : Z) : string := pretty n.

(** ** Levels and file names *)

(** The dictionary [valid_levels] of [tea_scraper], in insertion order. *)
Definition valid_levels : list (string * string) :=
  [("C", "Campus"); ("D", "District"); ("R", "Region"); ("S", "State")].

(** The dictionary literal indexed by [level] that gives [file_prefix]. *)
Definition file_prefixes : list (string * string) :=
  [("C", "CAMP"); ("D", "DIST"); ("R", "REGN"); ("S", "STATE")].

(** [d[k]] / [k in d] on a dictionary kept as an association list *)
Fixpoint dict_get (d : list (string * string)) (k : string) : option string :=
  match d with
  | [] => None
  | (k', v) :: d' => if String.eqb k k' then Some v else dict_get d' k
  end.

Definition dict_keys (d : list (string * string)) : list string := d.*1.

(** The list [expected_files] that [wait_for_downloads] builds (lines 87-94). *)
Definition expected_file (year : Z) (var : string) : string :=
  if (year <? 2021)%Z
  then (if negb (String.eqb var "REF") then "DIST" ++ var ++ ".dat" else "DREF.dat")
  else (if negb (String.eqb var "REF") then "DIST" ++ var ++ ".csv" else "DREF.csv").

Definition expected_files (variables : list string) (year : Z) : list string :=
  expected_file year <$> variables.

(** The list [file_patterns] of the variable loop (lines 289-294). *)
Definition file_patterns (file_prefix level var : string) (year : Z) : list string :=
  [ file_prefix ++ var ++ "_" ++ str_int year ++ ".csv";
    file_prefix ++ var ++ "_" ++ str_int year ++ ".dat";
    level ++ var ++ "_" ++ str_int year ++ ".dat";
    level ++ var ++ "_" ++ str_int year ++ ".csv" ].

(** The list [old_patterns] of [file_renamer] for one extension (lines 140-143). *)
Definition old_patterns (prefix level var ext : string) : list string :=
  [ prefix ++ var ++ ext; level ++ var ++ ext ].

(** The name a match is renamed to (lines 149-152). *)
Definition new_pattern (prefix level var : string) (year : Z) (ext : string) : string :=
  if String.eqb var "REF"
  then level ++ var ++ "_" ++ str_int year ++ ext
  else prefix ++ var ++ "_" ++ str_int year ++ ext.


(** ** Exceptions *)

Inductive exn :=
  | ValueError (msg : string)
  | NameError (name : string)
  | KeyError (key : string)
  | UnboundLocalError (name : string)
  | FileNotFoundError
  | FileExistsError
  | NotADirectoryError
  | NoSuchElementException
  | WebDriverException
  | RequestException
  | PandasError (msg : string).

(** [str(e)] as it is formatted into the messages *)
Definition str_exn (e : exn) : string :=
  match e with
  | ValueError msg => msg
  | NameError name => "name '" ++ name ++ "' is not defined"
  | KeyError key => "'" ++ key ++ "'"
  | UnboundLocalError name => "local variable '" ++ name ++ "' referenced before assignment"
  | FileNotFoundError => "No such file or directory"
  | FileExistsError => "File exists"
  | NotADirectoryError => "Not a directory"
  | NoSuchElementException => "no such element"
  | WebDriverException => "unknown error"
  | RequestException => "request failed"
  | PandasError msg => msg
  end.

(** The exception classes that an [except] clause of the module can name:
    [NoSuchElementException] is imported on line 13,
    [requests.exceptions.RequestException] is reached through the imported
    [requests], [Exception] is a builtin.  No other selenium class is
    imported; in particular the name [WebDriverException] is not bound. *)
Definition exception_classes : list (string * (exn → bool)) :=
  [ ("NoSuchElementException",
      λ e, match e with NoSuchElementException => true | _ => false end);
    ("requests.exceptions.RequestException",
      λ e, match e with RequestException => true | _ => false end);
    ("Exception", λ _, true) ].

Fixpoint resolve_class (classes : list (string * (exn → bool))) (name : string)
  : option (exn → bool) :=
  match classes with
  | [] => None
  | (n, c) :: classes' => if String.eqb name n then Some c else resolve_class classes' name
  end.

(** ** The world *)

(** An entry of [directory_path]: a plain file, or a folder of plain files. *)
Inductive node :=
  | File (content : string)
  | Dir (entries : gmap string string).

(** A download under way: it lands in folder [into] under [fname] once the
    clock has reached [arrives]. *)
Record download := Download {
  arrives : Z;
  into : string;
  fname : string;
  body : string }.

(** A browser session: the page it shows, the elements clicked on that page
    (latest first) and its download folder. *)
Record session := Session {
  page : string;
  clicked : list string;
  download_dir : string }.

Inductive line :=
  | Print (s : string)
  | StWrite (s : string).

(** External calls, in the order they are made. *)
Inductive call :=
  | Launch (sid : nat)
  | Get (sid : nat) (url : string)
  | FindElement (sid : nat) (xpath : string)
  | Click (sid : nat) (xpath : string)
  | Quit (sid : nat)
  | HttpGet (url : string)
  | ReadExcel (url : string)
  | Rename (directory src dst : string).

Record world := World {
  root : option (gmap string node);   (* folders and files of directory_path by path, if it is a directory *)
  now : Z;                            (* time.time() *)
  console : list line;                (* print and st.write, oldest first *)
  calls : list call;                  (* oldest first *)
  browsers : gmap nat session;        (* sessions that are open *)
  next_sid : nat;
  driver : option nat;                (* the local variable driver of tea_scraper *)
  inflight : list download }.

Definition set_root (r : option (gmap string node)) (w : world) : world :=
  World r (now w) (console w) (calls w) (browsers w) (next_sid w) (driver w) (inflight w).
Definition set_now (t : Z) (w : world) : world :=
  World (root w) t (console w) (calls w) (browsers w) (next_sid w) (driver w) (inflight w).
Definition set_console (c : list line) (w : world) : world :=
  World (root w) (now w) c (calls w) (browsers w) (next_sid w) (driver w) (inflight w).
Definition set_calls (c : list call) (w : world) : world :=
  World (root w) (now w) (console w) c (browsers w) (next_sid w) (driver w) (inflight w).
Definition set_browsers (b : gmap nat session) (w : world) : world :=
  World (root w) (now w) (console w) (calls w) b (next_sid w) (driver w) (inflight w).
Definition set_next_sid (n : nat) (w : world) : world :=
  World (root w) (now w) (console w) (calls w) (browsers w) n (driver w) (inflight w).
Definition set_driver (d : option nat) (w : world) : world :=
  World (root w) (now w) (console w) (calls w) (browsers w) (next_sid w) d (inflight w).
Definition set_inflight (l : list download) (w : world) : world :=
  World (root w) (now w) (console w) (calls w) (browsers w) (next_sid w) (driver w) l.

(** What lies outside the program. *)
Record site := Site {
  chrome_fails : nat → bool;          (* webdriver.Chrome raises for this session number *)
  load_fails : string → bool;         (* driver.get(url) raises *)
  page_source : string → string;      (* driver.page_source of the page at url *)
  has_element : string → string → bool;   (* the page at url has an element for xpath *)
  submit : string → list string → option (Z * string * string);
      (* clicking Continue on url after these clicks starts a download:
         seconds until it is complete, file name, content *)
  http_get : string → option (Z * list string);
      (* requests.get(url): status code and the href of each anchor of the
         page in document order; None for a transport error *)
  read_excel : string → option string;    (* sheet 2 of the workbook at url, as text *)
  read_dat : string → string + string }.  (* pd.read_csv on a content: error or table *)

(** ** The monad: state, exceptions, and running out of loop fuel *)

Inductive res (A : Type) :=
  | Ok (a : A)
  | Raise (e : exn)
  | OutOfFuel.
Arguments Ok {A} a.
Arguments Raise {A} e.
Arguments OutOfFuel {A}.

Definition M (A : Type) : Type := world → res A * world.

Definition ret {A} (a : A) : M A := λ w, (Ok a, w).

Definition bind {A B} (m : M A) (k : A → M B) : M B :=
  λ w, match m w with
       | (Ok a, w') => k a w'
       | (Raise e, w') => (Raise e, w')
       | (OutOfFuel, w') => (OutOfFuel, w')
       end.

Definition raise {A} (e : exn) : M A := λ w, (Raise e, w).

Notation "x <- m ;; k" := (bind m (λ x, k))
  (at level 100, m at next level, k at level 200, right associativity,
   format "'[v' x  <-  m  ;;  '/' k ']'").
Notation "m ;;; k" := (bind m (λ _, k))
  (at level 100, k at level 200, right associativity,
   format "'[v' m  ;;;  '/' k ']'").

(** [try: body except cls as e: handler].  The class expression is only
    evaluated when the body has raised. *)
Definition try_except {A} (body : M A) (cls : string) (handler : exn → M A) : M A :=
  λ w, match body w with
       | (Raise e, w') =>
           match resolve_class exception_classes cls with
           | None => (Raise (NameError cls), w')
           | Some is_cls => if is_cls e then handler e w' else (Raise e, w')
           end
       | r => r
       end.

(** [for x in l: body] without [break] *)
Fixpoint for_each {A} (l : list A) (body : A → M unit) : M unit :=
  match l with
  | [] => ret tt
  | x :: l' => body x ;;; for_each l' body
  end.

(** [for x in l: body] where the body says whether it ended in [break] *)
Fixpoint for_break {A} (l : list A) (body : A → M bool) : M unit :=
  match l with
  | [] => ret tt
  | x :: l' => stop <- body x ;; if stop : bool then ret tt else for_break l' body
  end.

(** ** Primitive operations *)

Section Primitives.
Context (env : site).

Definition st_write (s : string) : M unit :=
  λ w, (Ok tt, set_console (console w ++ [StWrite s]) w).

Definition print (s : string) : M unit :=
  λ w, (Ok tt, set_console (console w ++ [Print s]) w).

Definition record (c : call) : M unit :=
  λ w, (Ok tt, set_calls (calls w ++ [c]) w).

(** [time.time()] *)
Definition time_time : M Z := λ w, (Ok (now w), w).

(** A download that is complete is moved into its folder. *)
Definition land (r : gmap string node) (d : download) : gmap string node :=
  match r !! into d with
  | Some (Dir entries) => <[into d := Dir (<[fname d := body d]> entries)]> r
  | _ => r
  end.

Definition arrived (t : Z) (d : download) : bool := (arrives d <=? t)%Z.

Definition settle (w : world) : world :=
  set_inflight (filter (λ d, arrived (now w) d = false) (inflight w))
    (set_root ((λ r, foldl land r (filter (λ d, arrived (now w) d = true) (inflight w))) <$> root w) w).

(** [time.sleep(n)] *)
Definition time_sleep (n : Z) : M unit :=
  λ w, (Ok tt, settle (set_now (now w + n)%Z w)).

(** [os.path.isdir(directory_path)] *)
Definition os_path_isdir_root : M bool :=
  λ w, (Ok (bool_decide (is_Some (root w))), w).

(** The folder [name] of [directory_path], when there is one. *)
Definition folder (w : world) (name : string) : option (gmap string string) :=
  match root w with
  | Some r => match r !! name with Some (Dir entries) => Some entries | _ => None end
  | None => None
  end.

(** [os.makedirs(path, exist_ok=True)] for the folder [name] of [directory_path] *)
Definition os_makedirs (name : string) : M unit :=
  λ w, match root w with
       | None => (Ok tt, set_root (Some {[ name := Dir ∅ ]}) w)
       | Some r =>
           match r !! name with
           | None => (Ok tt, set_root (Some (<[name := Dir ∅]> r)) w)
           | Some (Dir _) => (Ok tt, w)
           | Some (File _) => (Raise FileExistsError, w)
           end
       end.

(** [os.path.exists(directory)] for the folder [name] *)
Definition os_path_exists_dir (name : string) : M bool :=
  λ w, (Ok (match root w with
            | Some r => bool_decide (is_Some (r !! name))
            | None => false
            end), w).

(** [os.listdir(directory)] *)
Definition os_listdir (name : string) : M (list string) :=
  λ w, match root w with
       | Some r =>
           match r !! name with
           | Some (Dir entries) => (Ok (elements (dom entries)), w)
           | Some (File _) => (Raise NotADirectoryError, w)
           | None => (Raise FileNotFoundError, w)
           end
       | None => (Raise FileNotFoundError, w)
       end.

(** [os.path.isfile(os.path.join(directory, file))]; the entries of a folder
    are plain files, so [os.path.exists] of such a path is the same test. *)
Definition is_file (w : world) (name file : string) : bool :=
  match folder w name with
  | Some entries => bool_decide (is_Some (entries !! file))
  | None => false
  end.

Definition os_path_isfile (name file : string) : M bool :=
  λ w, (Ok (is_file w name file), w).

Definition os_path_exists (name file : string) : M bool :=
  λ w, (Ok (is_file w name file), w).

(** [os.rename(src, dst)] inside the folder [name]; an existing [dst] is
    replaced. *)
Definition os_rename (name src dst : string) : M unit :=
  λ w, match root w, folder w name with
       | Some r, Some entries =>
           match entries !! src with
           | Some content =>
               (Ok tt,
                set_calls (calls w ++ [Rename name src dst])
                  (set_root (Some (<[name := Dir (<[dst := content]> (delete src entries))]> r)) w))
           | None => (Raise FileNotFoundError, w)
           end
       | _, _ => (Raise FileNotFoundError, w)
       end.

(** Reading a file of the folder [name]. *)
Definition read_file (name file : string) : M string :=
  λ w, match folder w name with
       | Some entries =>
           match entries !! file with
           | Some content => (Ok content, w)
           | None => (Raise FileNotFoundError, w)
           end
       | None => (Raise FileNotFoundError, w)
       end.

(** Writing a file of the folder [name], as [df.to_csv(path)] does. *)
Definition write_file (name file content : string) : M unit :=
  λ w, match root w, folder w name with
       | Some r, Some entries =>
           (Ok tt, set_root (Some (<[name := Dir (<[file := content]> entries)]> r)) w)
       | _, _ => (Raise FileNotFoundError, w)
       end.

(** [driver = webdriver.Chrome(options=chrome_options)]; the assignment
    happens only if the call returns. *)
Definition webdriver_Chrome (download_directory : string) : M unit :=
  λ w, if chrome_fails env (next_sid w) then (Raise WebDriverException, w)
       else
         let sid := next_sid w in
         (Ok tt,
          set_driver (Some sid)
            (set_next_sid (S sid)
               (set_browsers (<[sid := Session "" [] download_directory]> (browsers w))
                  (set_calls (calls w ++ [Launch sid]) w)))).

(** Reading the local variable [driver]. *)
Definition get_driver : M nat :=
  λ w, match driver w with
       | Some sid => (Ok sid, w)
       | None => (Raise (UnboundLocalError "driver"), w)
       end.

(** The session behind a driver; a driver that was quit has none. *)
Definition the_session (sid : nat) : M session :=
  λ w, match browsers w !! sid with
       | Some s => (Ok s, w)
       | None => (Raise WebDriverException, w)
       end.

(** [driver.get(url)] *)
Definition driver_get (sid : nat) (url : string) : M unit :=
  s <- the_session sid ;;
  record (Get sid url) ;;;
  if load_fails env url then raise WebDriverException
  else λ w, (Ok tt, set_browsers (<[sid := Session url [] (download_dir s)]> (browsers w)) w).

(** [driver.page_source] *)
Definition driver_page_source (sid : nat) : M string :=
  s <- the_session sid ;;
  ret (page_source env (page s)).

(** [driver.find_element(By.XPATH, xpath)]; the element is kept as its xpath. *)
Definition find_element (sid : nat) (xpath : string) : M string :=
  s <- the_session sid ;;
  record (FindElement sid xpath) ;;;
  if has_element env (page s) xpath then ret xpath else raise NoSuchElementException.

(** The xpath of the Continue button (line 309). *)
Definition continue_xpath : string := "//input[@type='submit' and @value='Continue']".

(** [element.click()].  A click on the Continue button submits the form and
    may start a download into the session's download folder. *)
Definition click (sid : nat) (element : string) : M unit :=
  s <- the_session sid ;;
  record (Click sid element) ;;;
  λ w,
    let s' := Session (page s) (element :: clicked s) (download_dir s) in
    let w' := set_browsers (<[sid := s']> (browsers w)) w in
    if String.eqb element continue_xpath then
      match submit env (page s) (clicked s) with
      | Some (delay, name, content) =>
          (Ok tt, set_inflight (inflight w' ++ [Download (now w' + delay) (download_dir s) name content]) w')
      | None => (Ok tt, w')
      end
    else (Ok tt, w').

(** [driver.quit()] *)
Definition driver_quit (sid : nat) : M unit :=
  record (Quit sid) ;;;
  λ w, (Ok tt, set_browsers (delete sid (browsers w)) w).

End Primitives.

(** ** The program *)

Section Program.
Context (env : site).

Definition newline : string := String (ascii_of_nat 10) "".

(** [requests.get(url)] *)
Definition requests_get (url : string) : M (Z * list string) :=
  record (HttpGet url) ;;;
  match http_get env url with
  | Some response => ret response
  | None => raise RequestException
  end.

(** [pd.read_excel(url, sheet_name=2)] *)
Definition pd_read_excel (url : string) : M string :=
  record (ReadExcel url) ;;;
  match read_excel env url with
  | Some df => ret df
  | None => raise (PandasError "cannot read the workbook")
  end.

(** [pd.read_csv(path, delimiter=None, engine='python')] *)
Definition pd_read_csv (directory file_name : string) : M string :=
  content <- read_file directory file_name ;;
  match read_dat env content with
  | inl msg => raise (PandasError msg)
  | inr df => ret df
  end.

(** [re.search(r".xlsx$", s)]: a character that is not a newline, then
    [xlsx], at the end of [s] or just before its final newline. *)
Fixpoint search_xlsx (s : string) : bool :=
  match s with
  | EmptyString => false
  | String c s' =>
      negb (Ascii.eqb c (ascii_of_nat 10))
        && (String.eqb s' "xlsx" || String.eqb s' ("xlsx" ++ newline))
      || search_xlsx s'
  end.

(** The loop over the anchors of the district type page (lines 50-55): the
    first link to a workbook is read and returned. *)
Fixpoint first_workbook (links : list string) : M (option (option string)) :=
  match links with
  | [] => ret None
  | file_url :: links' =>
      if negb (String.eqb file_url "") && search_xlsx file_url then
        let full_url :=
          if startswith file_url "/" then "https://tea.texas.gov" ++ file_url else file_url in
        print ("Found Excel file: " ++ full_url) ;;;
        df <- pd_read_excel full_url ;;
        ret (Some (Some df))
      else first_workbook links'
  end.

Definition district_type_scraper (year : Z) : M (option string) :=
  let school_year := str_int (year - 1) ++ "-" ++ str_int (year - 2000) in
  let url := "https://tea.texas.gov/reports-and-data/school-data/district-type-data-search/district-type-"
             ++ school_year in
  try_except
    (response <- requests_get url ;;
     let '(status_code, links) := response in
     if negb (status_code =? 200)%Z then
       print ("Warning: Could not access " ++ url ++ " (Status Code: " ++ str_int status_code ++ ")") ;;;
       ret None
     else
       found <- first_workbook links ;;
       match found with
       | Some df => ret df
       | None =>
           print ("Warning: No Excel file found on " ++ url) ;;;
           ret None
       end)
    "requests.exceptions.RequestException"
    (λ e,
       print ("Error fetching district type data for " ++ str_int year ++ ": " ++ str_exn e) ;;;
       ret None).

(** The default of the parameter [timeout] of [wait_for_downloads]. *)
Definition default_timeout : Z := 200.

(** The test of line 101. *)
Definition all_downloaded (expected_files downloaded_files : list string) : bool :=
  forallb (λ file, bool_decide (file ∈ downloaded_files) && negb (endswith file ".crdownload"))
    expected_files.

(** The [while] loop of [wait_for_downloads] (lines 97-112), with the number
    of iterations it may still take. *)
Fixpoint wait_loop (fuel : nat) (start_time timeout : Z) (expected_files : list string)
    (year : Z) (directory : string) (check : Z) : M bool :=
  match fuel with
  | O => λ w, (OutOfFuel, w)
  | S fuel' =>
      t <- time_time ;;
      if (t - start_time <? timeout)%Z then
        downloaded_files <- os_listdir directory ;;
        if all_downloaded expected_files downloaded_files then
          st_write ("All downloads for " ++ str_int year ++ " completed successfully." ++ newline) ;;;
          ret true
        else
          (if (check =? 1)%Z then st_write "Waiting for all files to download..." else ret tt) ;;;
          time_sleep 5 ;;;
          wait_loop fuel' start_time timeout expected_files year directory (check + 1)%Z
      else ret false
  end.

Definition wait_for_downloads (variables : list string) (year : Z) (directory : string)
    (timeout : Z) : M bool :=
  start_time <- time_time ;;
  let expected_files := expected_files variables year in
  wait_loop (S (Z.to_nat timeout)) start_time timeout expected_files year directory 1.

Definition file_renamer (directory : string) (year : Z) (prefix var level : string) : M unit :=
  for_each [".csv"; ".dat"] (λ ext,
    for_break (old_patterns prefix level var ext) (λ old_pattern,
      found <- os_path_exists directory old_pattern ;;
      if found : bool then
        os_rename directory old_pattern (new_pattern prefix level var year ext) ;;;
        ret true
      else ret false)).

Definition convert_dat_to_csv (directory : string) : M unit :=
  found <- os_path_exists_dir directory ;;
  if negb found then
    st_write ("Directory '" ++ directory ++ "' does not exist.")
  else
    file_names <- os_listdir directory ;;
    for_each file_names (λ file_name,
      if endswith file_name ".dat" then
        let csv_file_name := replace ".dat" ".csv" file_name in
        let csv_file_path := path_join directory csv_file_name in
        try_except
          (df <- pd_read_csv directory file_name ;;
           write_file directory csv_file_name df ;;;
           st_write ("Converted: " ++ file_name ++ " -> " ++ csv_file_path))
          "Exception"
          (λ e, st_write ("Error converting " ++ file_name ++ ": " ++ str_exn e))
      else ret tt).

Definition level_xpath (level : string) : string :=
  "//input[@type='radio' and @name='sumlev' and @value='" ++ level ++ "']".

Definition setpick_xpath (var : string) : string :=
  "//input[@type='radio' and @name='setpick' and @value='" ++ var ++ "']".

(** [any(os.path.isfile(os.path.join(full_dir_path, file)) for file in file_patterns)] *)
Definition any_isfile (directory : string) (names : list string) : M bool :=
  λ w, (Ok (existsb (is_file w directory) names), w).

(** What that test answers for a variable: is one of its four names a file
    of the folder? *)
Definition already_present (w : world) (directory file_prefix level var : string) (year : Z)
  : bool :=
  existsb (is_file w directory) (file_patterns file_prefix level var year).

(** The body of the loop over [variables] (lines 287-316); it returns the
    list [unavailable] as the iteration leaves it. *)
Definition download_variable (full_dir_path file_prefix level : string) (year : Z)
    (unavailable : list string) (var : string) : M (list string) :=
  st_write ("Checking for " ++ file_prefix ++ var ++ " data...") ;;;
  present <- any_isfile full_dir_path (file_patterns file_prefix level var year) ;;
  if present : bool then
    st_write (var ++ "_" ++ str_int year ++ " already exists") ;;;
    ret (unavailable ++ [var])%list
  else
    try_except
      (d <- get_driver ;;
       select_data <- find_element env d (setpick_xpath var) ;;
       click env d select_data ;;;
       time_sleep 1 ;;;
       download <- find_element env d continue_xpath ;;
       click env d download ;;;
       st_write ("Downloaded " ++ (if String.eqb var "REF" then level else file_prefix)
                 ++ var ++ " for " ++ str_int year) ;;;
       ret unavailable)
      "NoSuchElementException"
      (λ _,
         st_write (var ++ " not found for " ++ str_int year) ;;;
         ret (unavailable ++ [var])%list).

Fixpoint download_variables (full_dir_path file_prefix level : string) (year : Z)
    (unavailable : list string) (variables : list string) : M (list string) :=
  match variables with
  | [] => ret unavailable
  | var :: variables' =>
      unavailable' <- download_variable full_dir_path file_prefix level year unavailable var ;;
      download_variables full_dir_path file_prefix level year unavailable' variables'
  end.

(** The [try] statement of lines 263-280; [false] stands for [continue]. *)
Definition open_year_page (full_dir_path level : string) (year : Z) : M bool :=
  let url := "https://rptsvr1.tea.texas.gov/perfreport/tapr/" ++ str_int year
             ++ "/download/DownloadData.html" in
  try_except
    (webdriver_Chrome env full_dir_path ;;;
     d <- get_driver ;;
     driver_get env d url ;;;
     not_found <-
       (source <- driver_page_source env d ;;
        if contains "Page Not Found" source then ret true
        else
          source' <- driver_page_source env d ;;
          ret (contains "404" source')) ;;
     if not_found : bool then
       st_write ("Year " ++ str_int year ++ " does not exist. Skipping...") ;;;
       driver_quit d ;;;
       ret false
     else
       level_select <- find_element env d (level_xpath level) ;;
       click env d level_select ;;;
       ret true)
    "WebDriverException"
    (λ e,
       print ("Failed to access " ++ str_int year ++ ". Error: " ++ str_exn e) ;;;
       d <- get_driver ;;
       driver_quit d ;;;
       ret false).

(** Lines 327-344; [false] stands for [continue]. *)
Definition district_type_step (full_dir_path level : string) (dist_type : bool) (year : Z)
  : M bool :=
  if String.eqb level "D" && dist_type then
    st_write ("Downloading District Type Data for " ++ str_int year ++ "...") ;;;
    let file := "district_type" ++ str_int year ++ ".csv" in
    present <- os_path_isfile full_dir_path file ;;
    if present : bool then
      st_write ("District Type Data for " ++ str_int year ++ " already exists") ;;;
      st_write "" ;;;
      ret false
    else
      df <- district_type_scraper year ;;
      match df with
      | None =>
          st_write ("Failed to retrieve District Type Data for " ++ str_int year ++ ". Skipping...") ;;;
          ret false
      | Some df =>
          write_file full_dir_path file df ;;;
          st_write ("Downloaded District Type Data for " ++ str_int year) ;;;
          st_write "" ;;;
          ret true
      end
  else ret true.

(** The body of the loop over [years] (lines 236-347). *)
Definition process_year (directory_path_name : string) (variables : list string)
    (level level_name file_prefix : string) (dist_type : bool) (year : Z) : M unit :=
  let dir_name := "raw_data" ++ str_int year in
  let full_dir_path := path_join directory_path_name dir_name in
  os_makedirs full_dir_path ;;;
  loaded <- open_year_page full_dir_path level year ;;
  if negb loaded then ret tt
  else
    st_write ("Downloading " ++ level_name ++ " Level TAPR Data for " ++ str_int year ++ "...") ;;;
    unavailable <- download_variables full_dir_path file_prefix level year [] variables ;;
    let available_vars : gset string := list_to_set variables ∖ list_to_set unavailable in
    downloaded <- wait_for_downloads (elements available_vars) year full_dir_path default_timeout ;;
    (if downloaded : bool then
       for_each (elements available_vars) (λ a_var,
         file_renamer full_dir_path year file_prefix a_var level)
     else ret tt) ;;;
    d <- get_driver ;;
    driver_quit d ;;;
    go_on <- district_type_step full_dir_path level dist_type year ;;
    if go_on : bool then convert_dat_to_csv full_dir_path else ret tt.

Definition tea_scraper (directory_path : string) (years : list Z) (variables : list string)
    (level : string) (dist_type : bool) : M unit :=
  is_dir <- os_path_isdir_root ;;
  if negb is_dir then
    print ("Error: " ++ directory_path ++ " is not a valid directory.")
  else
    print ("Processing directory: " ++ directory_path) ;;;
    let directory_path_name := directory_path in
    match dict_get valid_levels level with
    | None =>
        raise (ValueError ("Invalid level. Must be one of: " ++ join ", " (dict_keys valid_levels)))
    | Some level_name =>
        match dict_get file_prefixes level with
        | None => raise (KeyError level)
        | Some file_prefix =>
            for_each years
              (process_year directory_path_name variables level level_name file_prefix dist_type) ;;;
            st_write "All Data Downloaded!"
        end
    end.

End Program.

(** ** The names as the specification words them *)

(** The expected name of a variable when the level token is used for REF
    and the prefix of the requested level for every other variable. *)
Definition claimed_expected_file (file_prefix level : string) (year : Z) (var : string)
  : string :=
  (if String.eqb var "REF" then level else file_prefix) ++ var
  ++ (if (year <? 2021)%Z then ".dat" else ".csv").

(** ** Calls that do not select or download a data set *)

(** Launching, navigating, finding and clicking the radio button of the
    level, quitting, and the requests of the district type page. *)
Definition benign (level : string) (c : call) : Prop :=
  match c with
  | Launch _ | Get _ _ | Quit _ | HttpGet _ | ReadExcel _ => True
  | FindElement _ xpath | Click _ xpath => xpath = level_xpath level
  | Rename _ _ _ => False
  end.

(** A file of a folder, on the content of [directory_path]. *)
Definition has_file (r : gmap string node) (directory file : string) : Prop :=
  ∃ entries, r !! directory = Some (Dir entries) ∧ is_Some (entries !! file).

(** [w'] comes after [w]: the calls made in between all satisfy [ok] and
    no file has disappeared. *)
Definition extends (ok : call → Prop) (w w' : world) : Prop :=
  (∃ cs, calls w' = (calls w ++ cs)%list ∧ Forall ok cs)
  ∧ (∀ directory file, is_file w directory file = true → is_file w' directory file = true).

(** A precondition that survives such steps. *)
Definition stable (ok : call → Prop) (P : world → Prop) : Prop :=
  ∀ w w', P w → extends ok w w' → P w'.

(** A computation that, started where [P] holds, only makes calls in [ok],
    loses no file, and returns a value in [Q] if it returns. *)
Definition triple (ok : call → Prop) (P : world → Prop) {A} (m : M A) (Q : A → Prop) : Prop :=
  ∀ w r w', P w → m w = (r, w') →
    extends ok w w' ∧ match r with Ok a => Q a | _ => True end.

(** Every requested variable of every requested year has one of its names
    in the folder of the year. *)
Definition all_present (directory_path file_prefix level : string)
    (years : list Z) (variables : list string) (w : world) : Prop :=
  ∀ year var, year ∈ years → var ∈ variables →
    already_present w (path_join directory_path ("raw_data" ++ str_int year))
      file_prefix level var year = true.

(** The calls that select a data set or ask for its download: finding or
    clicking the radio button of a variable or the Continue button. *)
Definition selects (c : call) : Prop :=
  match c with
  | FindElement _ xpath | Click _ xpath =>
      xpath = continue_xpath ∨ ∃ var, xpath = setpick_xpath var
  | _ => False
  end.

(** What the loop over the variables writes when every variable is found
    in the folder. *)
Definition present_lines (file_prefix : string) (year : Z) (variables : list string)
  : list line :=
  variables ≫= λ var,
    [ StWrite ("Checking for " ++ file_prefix ++ var ++ " data...");
      StWrite (var ++ "_" ++ str_int year ++ " already exists") ].

(** ** Scenarios *)

(** The portal: every page loads and has every control; choosing GRAD and
    pressing Continue downloads [{prefix}GRAD.csv] within three seconds. *)
Definition portal (prefix : string) : site :=
  {| chrome_fails := λ _, false;
     load_fails := λ _, false;
     page_source := λ _, "<html><body>TAPR Data Download</body></html>";
     has_element := λ _ _, true;
     submit := λ _ clicks,
       match clicks with
       | xpath :: _ =>
           if String.eqb xpath (setpick_xpath "GRAD")
           then Some (3, prefix ++ "GRAD.csv", "DISTRICT,GRAD") else None
       | [] => None
       end;
     http_get := λ _, Some (200, ["/sites/default/files/district-type.xlsx"]);
     read_excel := λ _, Some "District,Type";
     read_dat := λ content, inr content |}.

(** The portal for a legacy year, while the district type page is down:
    GRAD is delivered as [DISTGRAD.dat] and the district type page answers
    with status 404. *)
Definition legacy_portal : site :=
  {| chrome_fails := λ _, false;
     load_fails := λ _, false;
     page_source := λ _, "<html><body>TAPR Data Download</body></html>";
     has_element := λ _ _, true;
     submit := λ _ clicks,
       match clicks with
       | xpath :: _ =>
           if String.eqb xpath (setpick_xpath "GRAD")
           then Some (3, "DISTGRAD.dat", "DISTRICT|GRAD") else None
       | [] => None
       end;
     http_get := λ _, Some (404, []);
     read_excel := λ _, None;
     read_dat := λ content, inr content |}.

(** A year whose page loads but has no radio button for the level. *)
Definition portal_without_level : site :=
  {| chrome_fails := λ _, false;
     load_fails := λ _, false;
     page_source := λ _, "<html><body>TAPR Data Download</body></html>";
     has_element := λ _ _, false;
     submit := λ _ _, None;
     http_get := λ _, None;
     read_excel := λ _, None;
     read_dat := λ content, inr content |}.

(** A fresh process started at time 0 over the given content of
    [directory_path]. *)
Definition on_disk (r : gmap string node) : world :=
  World (Some r) 0 [] [] ∅ 0 None [].

(** The same, when [directory_path] is not a directory. *)
Definition no_directory : world := World None 0 [] [] ∅ 0 None [].

Definition empty_disk : world := on_disk ∅.

(** Both the tabular and the legacy file of GRAD sit in the folder of 2021
    under the names the site gave them. *)
Definition two_eras : world :=
  on_disk {[ "/data/raw_data2021" :=
               Dir {[ "DISTGRAD.csv" := "DISTRICT,GRAD"; "DISTGRAD.dat" := "DISTRICT|GRAD" ]} ]}.

(** A second run for 2019: the legacy file of GRAD carries its year and
    the district type file is there, but the legacy file was not converted. *)
Definition second_run_2019 : world :=
  on_disk {[ "/data/raw_data2019" :=
               Dir {[ "DISTGRAD_2019.dat" := "DISTRICT|GRAD";
                      "district_type2019.csv" := "District,Type" ]} ]}.

(** A download of GRAD for 2021 that was never renamed. *)
Definition left_behind : world :=
  on_disk {[ "/data/raw_data2021" := Dir {[ "DISTGRAD.csv" := "DISTRICT,GRAD" ]} ]}.

(** Everything asked for 2021 is there under its final name. *)
Definition complete_2021 : world :=
  on_disk {[ "/data/raw_data2021" := Dir {[ "DISTGRAD_2021.csv" := "DISTRICT,GRAD" ]} ]}.

(** The names of the files of a folder. *)
Definition file_names (w : world) (directory : string) : option (list string) :=
  (λ entries, elements (dom entries)) <$> folder w directory.

(** The line written when the watcher succeeds. *)
Definition completed (year : Z) : line :=
  StWrite ("All downloads for " ++ str_int year ++ " completed successfully." ++ newline).

(** ** Further notions used by the properties *)

(** The line written once while the watcher waits. *)
Definition waiting : line := StWrite "Waiting for all files to download...".

(** What one pass of the inner loop of [file_renamer] makes of the entries
    of the folder: the first candidate that exists moves to the new name. *)
Definition rename_step (prefix level var : string) (year : Z) (ext : string)
    (entries : gmap string string) : gmap string string :=
  match entries !! (prefix ++ var ++ ext) with
  | Some content =>
      <[new_pattern prefix level var year ext := content]> (delete (prefix ++ var ++ ext) entries)
  | None =>
      match entries !! (level ++ var ++ ext) with
      | Some content =>
          <[new_pattern prefix level var year ext := content]>
            (delete (level ++ var ++ ext) entries)
      | None => entries
      end
  end.

(** The two passes of [file_renamer], in the order of line 139. *)
Definition renamed (prefix level var : string) (year : Z) (entries : gmap string string)
  : gmap string string :=
  rename_step prefix level var year ".dat" (rename_step prefix level var year ".csv" entries).

(** The address of the district type page of a year (lines 37-38). *)
Definition district_type_url (year : Z) : string :=
  "https://tea.texas.gov/reports-and-data/school-data/district-type-data-search/district-type-"
  ++ str_int (year - 1) ++ "-" ++ str_int (year - 2000).

(** The address a link of that page stands for (line 53). *)
Definition workbook_url (file_url : string) : string :=
  if startswith file_url "/" then "https://tea.texas.gov" ++ file_url else file_url.

(** The newline character. *)
Definition newline_char : ascii := ascii_of_nat 10.

(** The address of the download page of a year (line 237). *)
Definition tapr_url (year : Z) : string :=
  "https://rptsvr1.tea.texas.gov/perfreport/tapr/" ++ str_int year
  ++ "/download/DownloadData.html".

(** The folder of a year (lines 240-241). *)
Definition year_folder (directory_path : string) (year : Z) : string :=
  path_join directory_path ("raw_data" ++ str_int year).

(** A computation keeps an invariant of the world, however it ends. *)
Definition keeps (I : world → Prop) {A} (m : M A) : Prop :=
  ∀ w r w', I w → m w = (r, w') → I w'.

(** An invariant that the elementary changes of the world respect: writing
    to the console, making a call in [allowed], letting time pass, changing
    the directory or the downloads under way, and updating an open session
    in [mine]. *)
Record closed (allowed : call → Prop) (mine : nat → Prop) (I : world → Prop) : Prop := {
  closed_console : ∀ w c, I w → I (set_console c w);
  closed_calls : ∀ w c, allowed c → I w → I (set_calls (calls w ++ [c]) w);
  closed_now : ∀ w t, I w → I (set_now t w);
  closed_root : ∀ w r, I w → I (set_root r w);
  closed_inflight : ∀ w l, I w → I (set_inflight l w);
  closed_session : ∀ w sid s,
    mine sid → is_Some (browsers w !! sid) → I w →
    I (set_browsers (<[sid := s]> (browsers w)) w) }.

(** The calls a run of [tea_scraper] may make, given its arguments. *)
Definition footprint (directory_path : string) (years : list Z) (variables : list string)
    (level file_prefix : string) (dist_type : bool) (c : call) : Prop :=
  match c with
  | Launch _ | Quit _ => True
  | Get _ url => ∃ year, year ∈ years ∧ url = tapr_url year
  | FindElement _ xpath | Click _ xpath =>
      xpath = level_xpath level ∨ xpath = continue_xpath
      ∨ ∃ var, var ∈ variables ∧ xpath = setpick_xpath var
  | HttpGet url =>
      level = "D" ∧ dist_type = true ∧ ∃ year, year ∈ years ∧ url = district_type_url year
  | ReadExcel _ => level = "D" ∧ dist_type = true
  | Rename directory src dst =>
      ∃ year var ext,
        year ∈ years ∧ var ∈ variables ∧ ext ∈ [".csv"; ".dat"]
        ∧ directory = year_folder directory_path year
        ∧ src ∈ old_patterns file_prefix level var ext
        ∧ dst = new_pattern file_prefix level var year ext
  end.

(** The calls made since the world had the calls [before] are all in
    [allowed]. *)
Definition calls_since (before : list call) (allowed : call → Prop) (w : world) : Prop :=
  ∃ cs, calls w = (before ++ cs)%list ∧ Forall allowed cs.

(** The session [sid] is the one of the variable [driver]; apart from it
    the open sessions are [others], and [sid] was the last one launched. *)
Definition session_of_year (others : gmap nat session) (sid : nat) (w : world) : Prop :=
  driver w = Some sid ∧ delete sid (browsers w) = others ∧ next_sid w = S sid.

(** The open sessions are [others]. *)
Definition sessions_are (others : gmap nat session) (w : world) : Prop :=
  browsers w = others.

(** Session numbers are given out in order: every open session has a
    number below the next one. *)
Definition sessions_numbered (w : world) : Prop :=
  ∀ sid, is_Some (browsers w !! sid) → (sid < next_sid w)%nat.

(** The open sessions are [others] and the next session number is [n]. *)
Definition sessions_settled (others : gmap nat session) (n : nat) (w : world) : Prop :=
  sessions_are others w ∧ next_sid w = n.

(** ** The level choice of the page *)

(** The dictionary [LEVEL_MAPPING] of lines 352-357: the names the dropdown
    shows, each with the code handed to [tea_scraper] (line 390). *)
Definition LEVEL_MAPPING : list (string * string) :=
  [("Campus", "C"); ("District", "D"); ("Region", "R"); ("State", "S")].

(** ** A download that is still running *)

(** The folder of 2021 while GRAD is being downloaded again: the file of an
    earlier run that was never renamed, and beside it the partial file the
    browser is still writing. *)
Definition still_downloading : world :=
  on_disk {[ "/data/raw_data2021" :=
               Dir {[ "DISTGRAD.csv" := "DISTRICT,GRAD";
                      "DISTGRAD.csv.crdownload" := "DISTRICT,GR" ]} ]}.

(** ** What a conversion pass leaves in the folder *)

(** [df] is what pandas reads in a legacy file of [entries] whose name
    becomes [name] when [.dat] is replaced by [.csv] (line 176). *)
Definition conversion_of (env : site) (entries : gmap string string) (name df : string)
  : Prop :=
  ∃ file_name content,
    entries !! file_name = Some content
    ∧ endswith file_name ".dat" = true
    ∧ name = replace ".dat" ".csv" file_name
    ∧ read_dat env content = inr df.

(** The world [w] with [entries'] in the folder [directory] of the directory
    [r] and [lines] more on the console. *)
Definition folder_rewritten (r : gmap string node) (directory : string)
    (entries' : gmap string string) (lines : list line) (w : world) : world :=
  set_console (console w ++ lines) (set_root (Some (<[directory := Dir entries']> r)) w).

(** * Properties *)

(** ** The monad *)

Lemma bind_inv {A B} (m : M A) (k : A → M B) w r w' :
  bind m k w = (r, w') →
  (∃ a w1, m w = (Ok a, w1) ∧ k a w1 = (r, w'))
  ∨ (∃ e, m w = (Raise e, w') ∧ r = Raise e)
  ∨ (m w = (OutOfFuel, w') ∧ r = OutOfFuel).
Proof.
  unfold bind. destruct (m w) as [[a|e|] w1]; intros H.
  - left. eauto.
  - right. left. inversion H. eauto.
  - right. right. by inversion H.
Qed.

(** ** Names *)


Lemma append_assoc (a b c : string) : (a ++ b) ++ c = a ++ (b ++ c).
Proof.
  induction a as [|x a IH]; [done|].
  change (String x ((a ++ b) ++ c) = String x (a ++ (b ++ c))). by f_equal.
Qed.

Lemma length_append (a b : string) :
  String.length (a ++ b) = (String.length a + String.length b)%nat.
Proof.
  induction a as [|x a IH]; [done|].
  change (S (String.length (a ++ b)) = S (String.length a + String.length b)). by f_equal.
Qed.

Lemma endswith_suffix (s suffix : string) :
  endswith s suffix = true → ∃ p, s = p ++ suffix.
Proof.
  induction s as [|c s IH]; intros H.
  - change (String.eqb "" suffix || false = true) in H.
    rewrite orb_false_r in H. apply String.eqb_eq in H. by exists "".
  - change (String.eqb (String c s) suffix || endswith s suffix = true) in H.
    apply orb_true_iff in H as [H|H].
    + apply String.eqb_eq in H. by exists "".
    + destruct (IH H) as [p ->]. by exists (String c p).
Qed.

(** Two ways of writing a string as a stem and an ending agree on the
    character that sits [k] places into the ending counted from its end. *)
Lemma endings_agree (p q e e' : string) (k : nat) :
  p ++ e = q ++ e' →
  (k < String.length e)%nat → (k < String.length e')%nat →
  String.get (String.length e - S k) e = String.get (String.length e' - S k) e'.
Proof.
  intros Heq Hk Hk'.
  rewrite (append_correct2 p e), (append_correct2 q e'), Heq.
  f_equal. apply (f_equal String.length) in Heq. rewrite !length_append in Heq. lia.
Qed.

Lemma endswith_app (p suffix : string) : endswith (p ++ suffix) suffix = true.
Proof.
  induction p as [|c p IH].
  - change ("" ++ suffix) with suffix. destruct suffix; simpl; [done|].
    by rewrite Ascii.eqb_refl, String.eqb_refl.
  - change (String.eqb (String c p ++ suffix) suffix || endswith (p ++ suffix) suffix = true).
    rewrite IH. apply orb_true_r.
Qed.

(** The era of the expected names: the legacy extension before 2021, the
    tabular one from 2021 on. *)
Lemma expected_file_era (year : Z) (var : string) :
  endswith (expected_file year var) (if (year <? 2021)%Z then ".dat" else ".csv") = true.
Proof.
  unfold expected_file.
  destruct (year <? 2021)%Z; destruct (negb (String.eqb var "REF")); try reflexivity.
  - rewrite <- append_assoc. apply endswith_app.
  - rewrite <- append_assoc. apply endswith_app.
Qed.

Example expected_files_2020 :
  expected_files ["GRAD"; "REF"] 2020 = ["DISTGRAD.dat"; "DREF.dat"].
Proof. reflexivity. Qed.

Example expected_files_2021 :
  expected_files ["GRAD"; "REF"] 2021 = ["DISTGRAD.csv"; "DREF.csv"].
Proof. reflexivity. Qed.

Example file_patterns_grad :
  file_patterns "DIST" "D" "GRAD" 2021 =
  ["DISTGRAD_2021.csv"; "DISTGRAD_2021.dat"; "DGRAD_2021.dat"; "DGRAD_2021.csv"].
Proof. reflexivity. Qed.

Example new_pattern_ref : new_pattern "DIST" "D" "REF" 2019 ".dat" = "DREF_2019.dat".
Proof. reflexivity. Qed.

Example replace_every_dat : replace ".dat" ".csv" "my.data.dat" = "my.csva.csv".
Proof. reflexivity. Qed.

(** No expected name ends in [.crdownload]: the second half of the test of
    line 101 is true of every name of [expected_files]. *)
Lemma expected_file_no_marker (year : Z) (var : string) :
  endswith (expected_file year var) ".crdownload" = false.
Proof.
  apply not_true_is_false. intros [p Hp]%endswith_suffix.
  assert (∃ q e, expected_file year var = q ++ e ∧ (e = ".dat" ∨ e = ".csv"))
    as (q & e & Hq & He).
  { unfold expected_file.
    destruct (year <? 2021)%Z; destruct (negb (String.eqb var "REF")).
    - exists ("DIST" ++ var), ".dat". rewrite append_assoc. auto.
    - exists "DREF", ".dat". auto.
    - exists ("DIST" ++ var), ".csv". rewrite append_assoc. auto.
    - exists "DREF", ".csv". auto. }
  rewrite Hq in Hp.
  destruct He as [-> | ->].
  - assert (String.get 10 ".crdownload" = String.get 3 ".dat") as H; [|discriminate H].
    apply (endings_agree p q ".crdownload" ".dat" 0); [done | simpl; lia | simpl; lia].
  - assert (String.get 10 ".crdownload" = String.get 3 ".csv") as H; [|discriminate H].
    apply (endings_agree p q ".crdownload" ".csv" 0); [done | simpl; lia | simpl; lia].
Qed.

(** At the district level the watcher expects the names the specification
    describes. *)
Lemma expected_files_district (variables : list string) (year : Z) :
  expected_files variables year = claimed_expected_file "DIST" "D" year <$> variables.
Proof.
  unfold expected_files. apply list_fmap_ext. intros _ var _.
  unfold expected_file, claimed_expected_file.
  destruct (year <? 2021)%Z; destruct (String.eqb_spec var "REF") as [->|]; reflexivity.
Qed.

(** C1, evaluated on the code.  The watcher builds its names from the
    literals DIST and DREF whatever level was requested: for a campus request
    of 2021 it waits for DISTGRAD.csv and DREF.csv where the specification
    has CAMPGRAD.csv and CREF.csv.  In a campus run the download CAMPGRAD.csv
    is therefore never seen: the watcher gives up after the timeout and the
    file keeps the name of the site. *)
Theorem wait_for_downloads_names_ignore_level :
  expected_files ["GRAD"; "REF"] 2021 = ["DISTGRAD.csv"; "DREF.csv"]
  ∧ claimed_expected_file "CAMP" "C" 2021 <$> ["GRAD"; "REF"] = ["CAMPGRAD.csv"; "CREF.csv"]
  ∧ (let run := tea_scraper (portal "CAMP") "/data" [2021] ["GRAD"] "C" false empty_disk in
     run.1 = Ok tt
     ∧ now run.2 = 201
     ∧ file_names run.2 "/data/raw_data2021" = Some ["CAMPGRAD.csv"]
     ∧ StWrite "Waiting for all files to download..." ∈ console run.2
     ∧ ∀ src dst, Rename "/data/raw_data2021" src dst ∉ calls run.2).
Proof.
  split; [reflexivity | split; [reflexivity |]].
  cbv zeta. repeat split; try (vm_compute; reflexivity).
  - assert (console (tea_scraper (portal "CAMP") "/data" [2021] ["GRAD"] "C" false empty_disk).2
            !! 4%nat = Some (StWrite "Waiting for all files to download...")) as H
      by (vm_compute; reflexivity).
    eapply list_elem_of_lookup_2, H.
  - intros src dst Hin.
    assert (Forall (λ c, match c with Rename _ _ _ => False | _ => True end)
              (calls (tea_scraper (portal "CAMP") "/data" [2021] ["GRAD"] "C" false empty_disk).2))
      as H by (vm_compute; repeat constructor).
    rewrite Forall_forall in H. exact (H _ Hin).
Qed.

(** ** [file_renamer] *)

(** C2, evaluated on the code.  The [break] of line 155 leaves the loop over
    the two candidate names only; the loop over the extensions goes on.  With
    DISTGRAD.csv and DISTGRAD.dat both in the folder, one call renames both. *)
Theorem file_renamer_renames_both_extensions :
  let run := file_renamer "/data/raw_data2021" 2021 "DIST" "GRAD" "D" two_eras in
  run.1 = Ok tt
  ∧ calls run.2 = [ Rename "/data/raw_data2021" "DISTGRAD.csv" "DISTGRAD_2021.csv";
                    Rename "/data/raw_data2021" "DISTGRAD.dat" "DISTGRAD_2021.dat" ]
  ∧ file_names run.2 "/data/raw_data2021" = Some ["DISTGRAD_2021.csv"; "DISTGRAD_2021.dat"].
Proof. cbv zeta. repeat split; vm_compute; reflexivity. Qed.

Lemma os_rename_found (directory src dst : string) (w : world) :
  is_file w directory src = true →
  ∃ w', os_rename directory src dst w = (Ok tt, w')
        ∧ calls w' = (calls w ++ [Rename directory src dst])%list.
Proof.
  unfold is_file, os_rename. destruct (root w) as [r|] eqn:Hr.
  - destruct (folder w directory) as [entries|]; [|done].
    intros [content Hsrc]%bool_decide_eq_true. rewrite Hsrc. eauto.
  - unfold folder. by rewrite Hr.
Qed.

(** The loop over the two candidate names of one extension renames the
    first candidate that exists and no other. *)
Lemma rename_first_candidate (directory : string) (year : Z) (prefix var level ext : string)
    (w : world) :
  ∃ w' cs,
    for_break (old_patterns prefix level var ext) (λ old_pattern,
      found <- os_path_exists directory old_pattern ;;
      if found : bool then
        os_rename directory old_pattern (new_pattern prefix level var year ext) ;;;
        ret true
      else ret false) w = (Ok tt, w')
    ∧ calls w' = (calls w ++ cs)%list
    ∧ (cs = [] ∨ ∃ src, src ∈ old_patterns prefix level var ext
                       ∧ cs = [Rename directory src (new_pattern prefix level var year ext)]).
Proof.
  unfold old_patterns. simpl. unfold bind at 1. unfold bind at 1. unfold os_path_exists at 1.
  destruct (is_file w directory (prefix ++ var ++ ext)) eqn:Hfirst.
  - destruct (os_rename_found directory _ (new_pattern prefix level var year ext) w Hfirst)
      as (w' & Hrename & Hcalls).
    unfold bind at 1. rewrite Hrename. exists w', [Rename directory (prefix ++ var ++ ext)
                                                      (new_pattern prefix level var year ext)].
    split; [done|]. split; [done|]. right. eexists. split; [by left | done].
  - unfold ret at 1. unfold bind at 1. unfold bind at 1. unfold os_path_exists at 1.
    destruct (is_file w directory (level ++ var ++ ext)) eqn:Hsecond.
    + destruct (os_rename_found directory _ (new_pattern prefix level var year ext) w Hsecond)
        as (w' & Hrename & Hcalls).
      unfold bind at 1. rewrite Hrename. exists w', [Rename directory (level ++ var ++ ext)
                                                        (new_pattern prefix level var year ext)].
      split; [done|]. split; [done|]. right. eexists. split; [by right; left | done].
    + exists w, []. split; [done|]. split; [by rewrite app_nil_r | by left].
Qed.

(** X7.  What [file_renamer] does in general: it returns, having renamed at
    most one file per extension -- so up to two files in all -- each from a
    candidate name of that extension to the new name of that extension. *)
Theorem file_renamer_one_per_extension (directory : string) (year : Z)
    (prefix var level : string) (w : world) :
  ∃ w' csv dat,
    file_renamer directory year prefix var level w = (Ok tt, w')
    ∧ calls w' = (calls w ++ csv ++ dat)%list
    ∧ (csv = [] ∨ ∃ src, src ∈ old_patterns prefix level var ".csv"
                        ∧ csv = [Rename directory src (new_pattern prefix level var year ".csv")])
    ∧ (dat = [] ∨ ∃ src, src ∈ old_patterns prefix level var ".dat"
                        ∧ dat = [Rename directory src (new_pattern prefix level var year ".dat")]).
Proof.
  unfold file_renamer. cbn [for_each].
  destruct (rename_first_candidate directory year prefix var level ".csv" w)
    as (w1 & csv & Hcsv & Hcalls1 & Hone1).
  destruct (rename_first_candidate directory year prefix var level ".dat" w1)
    as (w2 & dat & Hdat & Hcalls2 & Hone2).
  exists w2, csv, dat. split; [|split; [|done]].
  - unfold bind at 1. rewrite Hcsv. unfold bind at 1. by rewrite Hdat.
  - by rewrite Hcalls2, Hcalls1, app_assoc.
Qed.

(** ** The loop over the years *)

(** Outside the district level, or without the district type data, the
    step before the conversion always lets the iteration go on. *)
Lemma district_type_step_elsewhere (env : site) (full_dir_path level : string)
    (dist_type : bool) (year : Z) :
  String.eqb level "D" && dist_type = false →
  district_type_step env full_dir_path level dist_type year = ret true.
Proof. intros H. unfold district_type_step. by rewrite H. Qed.

(** C3, evaluated on the code.  At the district level the [continue] of
    line 334 ends the iteration when the district type file is already there,
    so line 347 is not reached: the legacy file of 2019 stays unconverted.
    The same run without the district type data converts it.  The [continue]
    of line 340 does the same on a first run over an empty directory when the
    district type page is down: GRAD is downloaded and renamed, and left
    unconverted. *)
Theorem conversion_skipped_when_district_type_exists :
  let run := tea_scraper (portal "DIST") "/data" [2019] ["GRAD"] "D" true second_run_2019 in
  let run' := tea_scraper (portal "DIST") "/data" [2019] ["GRAD"] "D" false second_run_2019 in
  let first := tea_scraper legacy_portal "/data" [2019] ["GRAD"] "D" true empty_disk in
  run.1 = Ok tt
  ∧ is_file run.2 "/data/raw_data2019" "DISTGRAD_2019.csv" = false
  ∧ last (console run.2) = Some (StWrite "All Data Downloaded!")
  ∧ console run.2 !! 6%nat = Some (StWrite "District Type Data for 2019 already exists")
  ∧ run'.1 = Ok tt
  ∧ is_file run'.2 "/data/raw_data2019" "DISTGRAD_2019.csv" = true
  ∧ console run'.2 !! 5%nat =
      Some (StWrite "Converted: DISTGRAD_2019.dat -> /data/raw_data2019/DISTGRAD_2019.csv")
  ∧ first.1 = Ok tt
  ∧ file_names first.2 "/data/raw_data2019" = Some ["DISTGRAD_2019.dat"]
  ∧ console first.2 =
      [ Print "Processing directory: /data";
        StWrite "Downloading District Level TAPR Data for 2019...";
        StWrite "Checking for DISTGRAD data...";
        StWrite "Downloaded DISTGRAD for 2019";
        StWrite "Waiting for all files to download...";
        completed 2019;
        StWrite "Downloading District Type Data for 2019...";
        Print ("Warning: Could not access https://tea.texas.gov/reports-and-data/school-data/"
               ++ "district-type-data-search/district-type-2018-19 (Status Code: 404)");
        StWrite "Failed to retrieve District Type Data for 2019. Skipping...";
        StWrite "All Data Downloaded!" ].
Proof. cbv zeta. repeat split; vm_compute; reflexivity. Qed.

(** C4, evaluated on the code.  The page of the year has no radio button
    for the level, so [find_element] raises [NoSuchElementException] inside
    the [try] of line 263.  Its [except] clause names [WebDriverException],
    which the module never imports: a [NameError] leaves [tea_scraper], and
    no message about the year is written. *)
Theorem name_error_escapes_tea_scraper :
  let run := tea_scraper portal_without_level "/data" [2021] ["GRAD"] "D" true empty_disk in
  resolve_class exception_classes "WebDriverException" = None
  ∧ run.1 = Raise (NameError "WebDriverException")
  ∧ console run.2 = [Print "Processing directory: /data"].
Proof. cbv zeta. repeat split; vm_compute; reflexivity. Qed.

(** C7, evaluated on the code.  In the same situation the handler that
    holds [driver.quit()] is never entered: the session opened for 2021 is
    still open when the run ends, and 2022 is not begun. *)
Theorem session_left_open_on_missing_level :
  let run := tea_scraper portal_without_level "/data" [2021; 2022] ["GRAD"] "D" true empty_disk in
  run.1 = Raise (NameError "WebDriverException")
  ∧ calls run.2 =
      [ Launch 0;
        Get 0 "https://rptsvr1.tea.texas.gov/perfreport/tapr/2021/download/DownloadData.html";
        FindElement 0 (level_xpath "D") ]
  ∧ is_Some (browsers run.2 !! 0%nat).
Proof.
  cbv zeta. repeat split; try (vm_compute; reflexivity).
  vm_compute. eauto.
Qed.

(** ** The checks before the loop *)

Lemma dict_get_valid_levels (level : string) :
  is_Some (dict_get valid_levels level) ↔ level ∈ ["C"; "D"; "R"; "S"].
Proof.
  unfold valid_levels. simpl. split.
  - intros [v Hv]. rewrite !elem_of_cons.
    destruct (String.eqb_spec level "C"); [by auto|].
    destruct (String.eqb_spec level "D"); [by auto|].
    destruct (String.eqb_spec level "R"); [by auto|].
    destruct (String.eqb_spec level "S"); [by auto 6|]. discriminate.
  - intros H. repeat (apply elem_of_cons in H as [->|H]; [by eexists|]).
    by apply elem_of_nil in H.
Qed.

(** C10.  When [directory_path] is not a directory the call prints one line
    and returns, leaving everything else as it was; when it is a directory
    and the level is not one of C, D, R, S the call raises [ValueError]
    after printing one line, again with nothing else touched and no year
    begun. *)
Theorem tea_scraper_checks (env : site) (directory_path : string) (years : list Z)
    (variables : list string) (level : string) (dist_type : bool) (w : world) :
  (root w = None →
     tea_scraper env directory_path years variables level dist_type w =
     (Ok tt,
      set_console (console w ++ [Print ("Error: " ++ directory_path ++ " is not a valid directory.")]) w))
  ∧ (is_Some (root w) → level ∉ ["C"; "D"; "R"; "S"] →
     tea_scraper env directory_path years variables level dist_type w =
     (Raise (ValueError "Invalid level. Must be one of: C, D, R, S"),
      set_console (console w ++ [Print ("Processing directory: " ++ directory_path)]) w)).
Proof.
  split.
  - intros Hroot. unfold tea_scraper, bind, os_path_isdir_root, print. rewrite Hroot.
    rewrite bool_decide_eq_false_2; [reflexivity | by intros [? ?]].
  - intros Hroot Hlevel. unfold tea_scraper, bind, os_path_isdir_root, print.
    rewrite bool_decide_eq_true_2 by done. cbn [negb].
    destruct (dict_get valid_levels level) eqn:Hget.
    + exfalso. apply Hlevel, dict_get_valid_levels. by eexists.
    + reflexivity.
Qed.

Lemma tea_scraper_checks_witness :
  tea_scraper (portal "DIST") "/nowhere" [2021] ["GRAD"] "D" true no_directory =
    (Ok tt,
     set_console (console no_directory ++ [Print ("Error: " ++ "/nowhere" ++ " is not a valid directory.")])
       no_directory)
  ∧ tea_scraper (portal "DIST") "/data" [2021] ["GRAD"] "X" true empty_disk =
    (Raise (ValueError "Invalid level. Must be one of: C, D, R, S"),
     set_console (console empty_disk ++ [Print ("Processing directory: " ++ "/data")]) empty_disk).
Proof.
  split.
  - apply (tea_scraper_checks (portal "DIST") "/nowhere" [2021] ["GRAD"] "D" true no_directory).
    reflexivity.
  - apply (tea_scraper_checks (portal "DIST") "/data" [2021] ["GRAD"] "X" true empty_disk).
    + simpl. eauto.
    + intros H. repeat (apply elem_of_cons in H as [H|H]; [discriminate H|]).
      by apply elem_of_nil in H.
Defined.

(** ** [wait_for_downloads] *)

Lemma os_listdir_folder (directory : string) (w : world) (entries : gmap string string) :
  folder w directory = Some entries →
  os_listdir directory w = (Ok (elements (dom entries)), w).
Proof.
  unfold folder, os_listdir. destruct (root w) as [r|]; [|done].
  destruct (r !! directory) as [[content|entries']|]; try done. by intros [= ->].
Qed.

Lemma os_listdir_inv (directory : string) (w w' : world) (names : list string) :
  os_listdir directory w = (Ok names, w') →
  w' = w ∧ ∃ entries, folder w directory = Some entries ∧ names = elements (dom entries).
Proof.
  unfold folder, os_listdir. destruct (root w) as [r|]; [|done].
  destruct (r !! directory) as [[content|entries']|]; try done.
  intros [= <- <-]. eauto.
Qed.

Lemma is_file_listed (w : world) (directory file : string) (entries : gmap string string) :
  folder w directory = Some entries →
  is_file w directory file = bool_decide (file ∈ elements (dom entries)).
Proof.
  intros H. unfold is_file. rewrite H. apply bool_decide_ext.
  by rewrite elem_of_elements, elem_of_dom.
Qed.

Lemma all_downloaded_spec (expected downloaded : list string) :
  all_downloaded expected downloaded = true ↔
  ∀ file, file ∈ expected → file ∈ downloaded ∧ endswith file ".crdownload" = false.
Proof.
  unfold all_downloaded. rewrite forallb_forall. split.
  - intros H file Hin. apply list_elem_of_In, H in Hin.
    apply andb_true_iff in Hin as [Hin Hend].
    apply bool_decide_eq_true in Hin. by apply negb_true_iff in Hend.
  - intros H file Hin. apply list_elem_of_In, H in Hin as [Hin Hend].
    apply andb_true_iff. split; [by apply bool_decide_eq_true | by apply negb_true_iff].
Qed.

(** A poll that finds everything returns at once: nothing but the console
    changes. *)
Lemma wait_loop_first_poll (fuel : nat) (start_time timeout : Z) (expected : list string)
    (year : Z) (directory : string) (check : Z) (w : world) (entries : gmap string string) :
  now w - start_time < timeout →
  folder w directory = Some entries →
  all_downloaded expected (elements (dom entries)) = true →
  wait_loop (S fuel) start_time timeout expected year directory check w =
  (Ok true, set_console (console w ++ [completed year]) w).
Proof.
  intros Htime Hdir Hall. simpl. unfold bind at 1. unfold time_time.
  rewrite (proj2 (Z.ltb_lt _ _) Htime).
  unfold bind at 1. rewrite (os_listdir_folder _ _ _ Hdir), Hall. reflexivity.
Qed.

(** The watcher answers [True] only from a poll that found everything. *)
Lemma wait_loop_true (fuel : nat) (start_time timeout : Z) (expected : list string)
    (year : Z) (directory : string) (check : Z) (w w' : world) :
  wait_loop fuel start_time timeout expected year directory check w = (Ok true, w') →
  ∀ file, file ∈ expected →
    is_file w' directory file = true ∧ endswith file ".crdownload" = false.
Proof.
  revert check w. induction fuel as [|fuel IH]; intros check w; [done|].
  simpl. unfold bind at 1. unfold time_time.
  destruct (now w - start_time <? timeout)%Z; [|done].
  unfold bind at 1. destruct (os_listdir directory w) as [[names|e|] w1] eqn:Hls; try done.
  apply os_listdir_inv in Hls as [-> (entries & Hdir & ->)].
  destruct (all_downloaded expected (elements (dom entries))) eqn:Hall.
  - intros [= <-] file Hin.
    destruct (proj1 (all_downloaded_spec _ _) Hall file Hin) as [Hfile Hend].
    split; [|done]. change (is_file w directory file = true).
    rewrite (is_file_listed _ _ _ _ Hdir). by apply bool_decide_eq_true.
  - unfold bind at 1.
    destruct (check =? 1)%Z; (unfold bind at 1; simpl; apply IH).
Qed.

(** The loop never needs more iterations than it was given. *)
Lemma wait_loop_fuel (fuel : nat) (start_time timeout : Z) (expected : list string)
    (year : Z) (directory : string) (check : Z) (w : world) :
  (Z.to_nat (timeout - (now w - start_time)) < fuel)%nat →
  (wait_loop fuel start_time timeout expected year directory check w).1 ≠ OutOfFuel.
Proof.
  revert check w. induction fuel as [|fuel IH]; intros check w Hfuel; [lia|].
  simpl. unfold bind at 1. unfold time_time.
  destruct (Z.ltb_spec (now w - start_time) timeout) as [Hlt|Hge]; [|done].
  unfold bind at 1. destruct (os_listdir directory w) as [[names|e|] w1] eqn:Hls; try done.
  - apply os_listdir_inv in Hls as [-> _].
    destruct (all_downloaded expected names); [done|].
    unfold bind at 1.
    destruct (check =? 1)%Z; (unfold bind at 1; simpl; apply IH; simpl; lia).
  - unfold os_listdir in Hls. destruct (root w) as [r|]; [|done].
    by destruct (r !! directory) as [[?|?]|].
Qed.

Theorem wait_for_downloads_terminates (variables : list string) (year : Z)
    (directory : string) (timeout : Z) (w : world) :
  (wait_for_downloads variables year directory timeout w).1 ≠ OutOfFuel.
Proof.
  unfold wait_for_downloads. unfold bind, time_time.
  apply wait_loop_fuel. lia.
Qed.

(** Without time to wait the loop body is never entered. *)
Lemma wait_for_downloads_no_time (variables : list string) (year : Z) (directory : string)
    (timeout : Z) (w : world) :
  (timeout ≤ 0)%Z →
  wait_for_downloads variables year directory timeout w = (Ok false, w).
Proof.
  intros Htimeout. unfold wait_for_downloads. unfold bind, time_time. simpl.
  unfold bind, time_time. by rewrite (proj2 (Z.ltb_ge _ _)) by lia.
Qed.

(** A folder that does not exist makes the first poll raise. *)
Lemma wait_for_downloads_no_folder (variables : list string) (year : Z) (directory : string)
    (timeout : Z) (w : world) (r : gmap string node) :
  0 < timeout →
  root w = Some r → r !! directory = None →
  wait_for_downloads variables year directory timeout w = (Raise FileNotFoundError, w).
Proof.
  intros Htimeout Hroot Hdir. unfold wait_for_downloads. unfold bind, time_time. simpl.
  unfold bind, time_time. rewrite (proj2 (Z.ltb_lt _ _)) by lia.
  unfold os_listdir. by rewrite Hroot, Hdir.
Qed.

(** X24.  What does hold of the answer [True]: whatever the timeout, the
    watcher returns [True] only in a state where every expected file is in the
    folder.  And when the timeout is positive and the expected files are all
    there at the call, the first poll returns [True]: the clock has not moved
    and only the success line was written. *)
Theorem wait_for_downloads_true (variables : list string) (year : Z) (directory : string)
    (timeout : Z) (w : world) :
  (∀ w', wait_for_downloads variables year directory timeout w = (Ok true, w') →
     ∀ file, file ∈ expected_files variables year → is_file w' directory file = true)
  ∧ (0 < timeout →
     is_Some (folder w directory) →
     (∀ file, file ∈ expected_files variables year → is_file w directory file = true) →
     wait_for_downloads variables year directory timeout w =
     (Ok true, set_console (console w ++ [completed year]) w)).
Proof.
  split.
  - intros w' Hrun file Hin. revert Hrun. unfold wait_for_downloads. unfold bind, time_time.
    intros Hrun. by destruct (wait_loop_true _ _ _ _ _ _ _ _ _ Hrun file Hin).
  - intros Htimeout [entries Hdir] Hall.
    unfold wait_for_downloads. unfold bind, time_time.
    apply wait_loop_first_poll with (entries := entries); [lia | done |].
    apply all_downloaded_spec. intros file Hin. pose proof (Hall file Hin) as Hfile.
    split.
    + rewrite (is_file_listed _ _ _ _ Hdir) in Hfile. by apply bool_decide_eq_true in Hfile.
    + apply list_elem_of_fmap in Hin as (var & -> & _). apply expected_file_no_marker.
Qed.

(** C5.  The watcher answers [True] while a download is still running.  In
    the folder lies the file of an earlier run under the name the site gave
    it, and beside it the partial file of the download in progress, with the
    marker extension.  The test of line 101 looks for the marker on the
    expected names only, never on the files of the listing, so the first
    poll finds [DISTGRAD.csv], writes the success line and returns [True]
    with the clock unchanged. *)
Theorem wait_for_downloads_true_while_downloading :
  expected_files ["GRAD"] 2021 = ["DISTGRAD.csv"]
  ∧ is_file still_downloading "/data/raw_data2021" ("DISTGRAD.csv" ++ ".crdownload") = true
  ∧ wait_for_downloads ["GRAD"] 2021 "/data/raw_data2021" default_timeout still_downloading
    = (Ok true, set_console (console still_downloading ++ [completed 2021]) still_downloading).
Proof.
  split; [reflexivity|]. split; [vm_compute; reflexivity|].
  unfold wait_for_downloads. unfold bind, time_time.
  apply wait_loop_first_poll
    with (entries := {[ "DISTGRAD.csv" := "DISTRICT,GRAD";
                        "DISTGRAD.csv.crdownload" := "DISTRICT,GR" ]}).
  - unfold default_timeout. simpl. lia.
  - vm_compute. reflexivity.
  - vm_compute. reflexivity.
Qed.

(** C8.  With nothing to wait for, a folder that exists and a positive
    timeout (200 unless the caller says otherwise), the first test of the
    loop succeeds: the result is [True], the clock reads what it read at the
    call, and [time.sleep] was not reached -- only the success line was
    written. *)
Theorem wait_for_downloads_nothing_expected (year : Z) (directory : string) (timeout : Z)
    (w : world) :
  0 < timeout →
  is_Some (folder w directory) →
  wait_for_downloads [] year directory timeout w =
    (Ok true, set_console (console w ++ [completed year]) w)
  ∧ now (wait_for_downloads [] year directory timeout w).2 = now w
  ∧ inflight (wait_for_downloads [] year directory timeout w).2 = inflight w.
Proof.
  intros Htimeout [entries Hdir].
  assert (wait_for_downloads [] year directory timeout w =
          (Ok true, set_console (console w ++ [completed year]) w)) as ->; [|done].
  unfold wait_for_downloads. unfold bind, time_time.
  apply wait_loop_first_poll with (entries := entries); [lia | done | done].
Qed.

Lemma wait_for_downloads_true_witness :
  wait_for_downloads ["GRAD"] 2021 "/data/raw_data2021" default_timeout left_behind =
  (Ok true, set_console (console left_behind ++ [completed 2021]) left_behind).
Proof.
  apply (wait_for_downloads_true ["GRAD"] 2021 "/data/raw_data2021"
           default_timeout left_behind).
  - reflexivity.
  - vm_compute. eauto.
  - intros file Hin. apply list_elem_of_singleton in Hin as ->. vm_compute. done.
Defined.

(** The claim of C8 as it stands, at a folder that is not there and at a
    timeout of zero: the first listing raises, as the docstring announces,
    and without time to wait the loop is never entered. *)
Lemma wait_for_downloads_nothing_expected_not_always :
  (wait_for_downloads [] 2021 "/data/raw_data2021" default_timeout empty_disk).1
  = Raise FileNotFoundError
  ∧ (wait_for_downloads [] 2021 "/data/raw_data2021" 0 left_behind).1 = Ok false.
Proof. split; vm_compute; reflexivity. Qed.

Lemma wait_for_downloads_nothing_expected_witness :
  wait_for_downloads [] 2021 "/data/raw_data2021" default_timeout left_behind =
    (Ok true, set_console (console left_behind ++ [completed 2021]) left_behind)
  ∧ now (wait_for_downloads [] 2021 "/data/raw_data2021" default_timeout
           left_behind).2 = now left_behind
  ∧ inflight (wait_for_downloads [] 2021 "/data/raw_data2021" default_timeout
                left_behind).2 = inflight left_behind.
Proof.
  apply (wait_for_downloads_nothing_expected 2021 "/data/raw_data2021"
           default_timeout left_behind).
  - reflexivity.
  - vm_compute. eauto.
Defined.

(** ** Files only accumulate *)

Lemma is_file_has_file (w : world) (directory file : string) :
  is_file w directory file = true ↔ ∃ r, root w = Some r ∧ has_file r directory file.
Proof.
  unfold is_file, folder, has_file. split.
  - destruct (root w) as [r|]; [|done].
    destruct (r !! directory) as [[?|entries]|] eqn:Hdir; try done.
    intros H%bool_decide_eq_true. exists r. split; [done|]. by exists entries.
  - intros (r & -> & entries & -> & H). by apply bool_decide_eq_true.
Qed.

Lemma is_file_same_root (w w' : world) (directory file : string) :
  root w' = root w → is_file w' directory file = is_file w directory file.
Proof. unfold is_file, folder. by intros ->. Qed.

Lemma has_file_insert_folder (r : gmap string node) (name file content : string)
    (entries : gmap string string) (directory f : string) :
  r !! name = Some (Dir entries) →
  has_file r directory f →
  has_file (<[name := Dir (<[file := content]> entries)]> r) directory f.
Proof.
  intros Hname (entries' & Hdir & Hf). unfold has_file.
  destruct (decide (name = directory)) as [->|Hne].
  - rewrite lookup_insert_eq. eexists. split; [done|].
    rewrite Hdir in Hname. injection Hname as ->.
    rewrite lookup_insert. case_decide; [by eexists | done].
  - rewrite lookup_insert_ne by done. eauto.
Qed.

Lemma has_file_new_folder (r : gmap string node) (name directory f : string) :
  r !! name = None →
  has_file r directory f →
  has_file (<[name := Dir ∅]> r) directory f.
Proof.
  intros Hname (entries & Hdir & Hf). unfold has_file.
  rewrite lookup_insert_ne; [eauto | congruence].
Qed.

Lemma has_file_land (r : gmap string node) (d : download) (directory f : string) :
  has_file r directory f → has_file (land r d) directory f.
Proof.
  intros H. unfold land. destruct (r !! into d) as [[?|entries]|] eqn:Hinto; try done.
  by apply has_file_insert_folder.
Qed.

Lemma has_file_foldl_land (l : list download) (r : gmap string node) (directory f : string) :
  has_file r directory f → has_file (foldl land r l) directory f.
Proof.
  revert r. induction l as [|d l IH]; intros r H; [done|].
  simpl. by apply IH, has_file_land.
Qed.

(** ** Steps of the world *)

Section Frame.
Context (ok : call → Prop).

Lemma extends_refl (w : world) : extends ok w w.
Proof. split; [|done]. exists []. by rewrite app_nil_r. Qed.

Lemma extends_trans (w1 w2 w3 : world) :
  extends ok w1 w2 → extends ok w2 w3 → extends ok w1 w3.
Proof.
  intros [(cs & Hcs & Hok) Hfiles] [(cs' & Hcs' & Hok') Hfiles']. split.
  - exists (cs ++ cs')%list. rewrite Hcs', Hcs, app_assoc. split; [done|].
    by apply Forall_app.
  - eauto.
Qed.

(** A step that touches neither the calls nor the directory. *)
Lemma extends_quiet (w w' : world) :
  calls w' = calls w → root w' = root w → extends ok w w'.
Proof.
  intros Hcalls Hroot. split.
  - exists []. by rewrite app_nil_r.
  - intros directory file. by rewrite (is_file_same_root _ _ _ _ Hroot).
Qed.

(** A step that makes one call. *)
Lemma extends_call (w w' : world) (c : call) :
  ok c → calls w' = (calls w ++ [c])%list → root w' = root w → extends ok w w'.
Proof.
  intros Hc Hcalls Hroot. split.
  - exists [c]. split; [done|]. by constructor.
  - intros directory file. by rewrite (is_file_same_root _ _ _ _ Hroot).
Qed.

(** A step that only adds files. *)
Lemma extends_files (w w' : world) (r r' : gmap string node) :
  calls w' = calls w → root w = Some r → root w' = Some r' →
  (∀ directory file, has_file r directory file → has_file r' directory file) →
  extends ok w w'.
Proof.
  intros Hcalls Hr Hr' Hgrow. split.
  - exists []. by rewrite app_nil_r.
  - intros directory file. rewrite !is_file_has_file.
    intros (r0 & Hr0 & Hfile). rewrite Hr in Hr0. injection Hr0 as <-. eauto.
Qed.

Lemma extends_settle (w : world) : extends ok w (settle w).
Proof.
  destruct (root w) as [r|] eqn:Hr.
  - eapply extends_files; [done | done | unfold settle; simpl; by rewrite Hr |].
    intros directory file. apply has_file_foldl_land.
  - apply extends_quiet; [done|]. unfold settle. simpl. by rewrite Hr.
Qed.

(** *** Rules *)

Lemma triple_ret {A} (P : world → Prop) (a : A) (Q : A → Prop) :
  Q a → triple ok P (ret a) Q.
Proof. intros HQ w r w' _ [= <- <-]. split; [apply extends_refl | done]. Qed.

Lemma triple_raise {A} (P : world → Prop) (e : exn) (Q : A → Prop) :
  triple ok P (raise e) Q.
Proof. intros w r w' _ [= <- <-]. split; [apply extends_refl | done]. Qed.

Lemma triple_bind {A B} (P : world → Prop) (m : M A) (k : A → M B)
    (Q : A → Prop) (R : B → Prop) :
  stable ok P →
  triple ok P m Q →
  (∀ a, Q a → triple ok P (k a) R) →
  triple ok P (bind m k) R.
Proof.
  intros HP Hm Hk w r w' Hw Hrun.
  apply bind_inv in Hrun as [(a & w1 & Hm1 & Hk1) | [(e & Hm1 & ->) | [Hm1 ->]]].
  - destruct (Hm _ _ _ Hw Hm1) as [Hext HQ].
    destruct (Hk a HQ _ _ _ (HP _ _ Hw Hext) Hk1) as [Hext' HR].
    split; [by eapply extends_trans | done].
  - split; [|done]. by destruct (Hm _ _ _ Hw Hm1).
  - split; [|done]. by destruct (Hm _ _ _ Hw Hm1).
Qed.

Lemma triple_try_except {A} (P : world → Prop) (body : M A) (cls : string)
    (handler : exn → M A) (Q : A → Prop) :
  stable ok P →
  triple ok P body Q →
  (∀ e, triple ok P (handler e) Q) →
  triple ok P (try_except body cls handler) Q.
Proof.
  intros HP Hbody Hhandler w r w' Hw. unfold try_except.
  destruct (body w) as [[a|e|] w1] eqn:Hrun; destruct (Hbody _ _ _ Hw Hrun) as [Hext HQ].
  - by intros [= <- <-].
  - destruct (resolve_class exception_classes cls) as [is_cls|].
    + destruct (is_cls e).
      * intros Hh. destruct (Hhandler e _ _ _ (HP _ _ Hw Hext) Hh) as [Hext' HQ'].
        split; [by eapply extends_trans | done].
      * by intros [= <- <-].
    + by intros [= <- <-].
  - by intros [= <- <-].
Qed.

Lemma triple_for_each {A} (P : world → Prop) (l : list A) (body : A → M unit) :
  stable ok P →
  (∀ x, x ∈ l → triple ok P (body x) (λ _, True)) →
  triple ok P (for_each l body) (λ _, True).
Proof.
  intros HP. induction l as [|x l IH]; intros Hbody; simpl.
  - by apply triple_ret.
  - eapply triple_bind; [done | apply Hbody; by left |].
    intros _ _. apply IH. intros y Hy. apply Hbody. by right.
Qed.

(** *** Primitive operations *)

(** A state transformer that always returns. *)
Lemma triple_total {A} (P : world → Prop) (m : M A) (Q : A → Prop) :
  (∀ w, extends ok w (m w).2 ∧ match (m w).1 with Ok a => Q a | _ => True end) →
  triple ok P m Q.
Proof. intros H w r w' _ Hrun. specialize (H w). by rewrite Hrun in H. Qed.

Lemma triple_st_write (P : world → Prop) (s : string) :
  triple ok P (st_write s) (λ _, True).
Proof. apply triple_total. intros w. split; [by apply extends_quiet | done]. Qed.

Lemma triple_print (P : world → Prop) (s : string) :
  triple ok P (print s) (λ _, True).
Proof. apply triple_total. intros w. split; [by apply extends_quiet | done]. Qed.

Lemma triple_record (P : world → Prop) (c : call) :
  ok c → triple ok P (record c) (λ _, True).
Proof.
  intros Hc. apply triple_total. intros w. split; [by eapply extends_call | done].
Qed.

Lemma triple_time_time (P : world → Prop) :
  triple ok P time_time (λ _, True).
Proof. apply triple_total. intros w. split; [apply extends_refl | done]. Qed.

Lemma triple_time_sleep (P : world → Prop) (n : Z) :
  triple ok P (time_sleep n) (λ _, True).
Proof.
  apply triple_total. intros w. split; [|done]. simpl.
  eapply extends_trans; [|apply extends_settle]. by apply extends_quiet.
Qed.

Lemma triple_os_makedirs (P : world → Prop) (name : string) :
  triple ok P (os_makedirs name) (λ _, True).
Proof.
  apply triple_total. intros w. unfold os_makedirs.
  destruct (root w) as [r|] eqn:Hr.
  - destruct (r !! name) as [[?|?]|] eqn:Hname; simpl;
      (split; [|done]); try apply extends_refl.
    eapply extends_files; [done | done | done |].
    intros directory file. by apply has_file_new_folder.
  - split; [|done]. split.
    + exists []. by rewrite app_nil_r.
    + intros directory file. unfold is_file at 1, folder. by rewrite Hr.
Qed.

Lemma triple_os_path_exists_dir (P : world → Prop) (name : string) :
  triple ok P (os_path_exists_dir name) (λ _, True).
Proof. apply triple_total. intros w. split; [apply extends_refl | done]. Qed.

Lemma triple_os_listdir (P : world → Prop) (name : string) :
  triple ok P (os_listdir name) (λ _, True).
Proof.
  apply triple_total. intros w. unfold os_listdir.
  destruct (root w) as [r|]; [destruct (r !! name) as [[?|?]|]|];
    (split; [apply extends_refl | done]).
Qed.

Lemma triple_os_path_isfile (P : world → Prop) (name file : string) :
  triple ok P (os_path_isfile name file) (λ _, True).
Proof. apply triple_total. intros w. split; [apply extends_refl | done]. Qed.

Lemma triple_read_file (P : world → Prop) (name file : string) :
  triple ok P (read_file name file) (λ _, True).
Proof.
  apply triple_total. intros w. unfold read_file.
  destruct (folder w name) as [entries|]; [destruct (entries !! file)|];
    (split; [apply extends_refl | done]).
Qed.

Lemma triple_write_file (P : world → Prop) (name file content : string) :
  triple ok P (write_file name file content) (λ _, True).
Proof.
  apply triple_total. intros w. unfold write_file.
  destruct (root w) as [r|] eqn:Hr; [|split; [apply extends_refl | done]].
  destruct (folder w name) as [entries|] eqn:Hdir; [|split; [apply extends_refl | done]].
  split; [|done]. eapply extends_files; [done | done | done |].
  intros directory f. apply has_file_insert_folder.
  unfold folder in Hdir. rewrite Hr in Hdir.
  destruct (r !! name) as [[?|?]|]; congruence.
Qed.

Lemma triple_os_path_isdir_root (P : world → Prop) :
  triple ok P os_path_isdir_root (λ _, True).
Proof. apply triple_total. intros w. split; [apply extends_refl | done]. Qed.

Lemma triple_get_driver (P : world → Prop) :
  triple ok P get_driver (λ _, True).
Proof.
  apply triple_total. intros w. unfold get_driver.
  destruct (driver w); (split; [apply extends_refl | done]).
Qed.

Lemma triple_the_session (P : world → Prop) (sid : nat) :
  triple ok P (the_session sid) (λ _, True).
Proof.
  apply triple_total. intros w. unfold the_session.
  destruct (browsers w !! sid); (split; [apply extends_refl | done]).
Qed.

Lemma triple_driver_quit (P : world → Prop) (sid : nat) :
  stable ok P → ok (Quit sid) → triple ok P (driver_quit sid) (λ _, True).
Proof.
  intros HP Hc. unfold driver_quit.
  eapply triple_bind; [done | by apply triple_record |].
  intros _ _. apply triple_total. intros w. split; [by apply extends_quiet | done].
Qed.

End Frame.

Create HintDb triple.
#[export] Hint Resolve triple_st_write triple_print triple_time_time triple_time_sleep
  triple_os_makedirs triple_os_path_exists_dir triple_os_listdir triple_os_path_isfile
  triple_read_file triple_write_file triple_get_driver triple_the_session
  triple_os_path_isdir_root : triple.

(** One step through a computation: split a [bind], a conditional, a [try]
    or a loop, or close the goal with a rule that is known. *)
Ltac triple_step :=
  lazymatch goal with
  | |- triple _ _ (bind _ _) _ =>
      eapply triple_bind with (Q := λ _, True); [eassumption | | intros ? _]
  | |- triple _ _ (ret _) _ => by apply triple_ret
  | |- triple _ _ (raise _) _ => apply triple_raise
  | |- triple _ _ (try_except _ _ _) _ => apply triple_try_except; [eassumption | | intros ?]
  | |- triple _ _ (for_each _ _) _ => apply triple_for_each; [eassumption | intros ? _]
  | |- triple _ _ (if ?b then _ else _) _ => destruct b
  | |- triple _ _ (match ?x with _ => _ end) _ => destruct x
  | |- triple _ _ (let '(_, _) := ?x in _) _ => destruct x
  | |- _ => solve [eauto with triple]
  end.

Section Calls.
Context (env : site) (ok : call → Prop) (P : world → Prop).
Context (HP : stable ok P).
Context (ok_launch : ∀ sid, ok (Launch sid)).
Context (ok_get : ∀ sid url, ok (Get sid url)).
Context (ok_quit : ∀ sid, ok (Quit sid)).
Context (ok_http : ∀ url, ok (HttpGet url)).
Context (ok_excel : ∀ url, ok (ReadExcel url)).

Lemma triple_webdriver_Chrome (download_directory : string) :
  triple ok P (webdriver_Chrome env download_directory) (λ _, True).
Proof.
  apply triple_total. intros w. unfold webdriver_Chrome.
  destruct (chrome_fails env (next_sid w)); (split; [|done]).
  - apply extends_refl.
  - by eapply extends_call.
Qed.

Lemma triple_driver_get (sid : nat) (url : string) :
  triple ok P (driver_get env sid url) (λ _, True).
Proof.
  unfold driver_get. triple_step; [triple_step|].
  triple_step; [by apply triple_record|]. triple_step; [triple_step|].
  apply triple_total. intros w. split; [by apply extends_quiet | done].
Qed.

Lemma triple_driver_page_source (sid : nat) :
  triple ok P (driver_page_source env sid) (λ _, True).
Proof. unfold driver_page_source. repeat triple_step. Qed.

Lemma triple_find_element (sid : nat) (xpath : string) :
  ok (FindElement sid xpath) →
  triple ok P (find_element env sid xpath) (λ element, element = xpath).
Proof.
  intros Hok. unfold find_element. triple_step; [triple_step|].
  triple_step; [by apply triple_record|]. repeat triple_step.
Qed.

(** [element = driver.find_element(...)] followed by a use of the element *)
Lemma triple_bind_find_element {B} (sid : nat) (xpath : string) (k : string → M B)
    (R : B → Prop) :
  ok (FindElement sid xpath) →
  triple ok P (k xpath) R →
  triple ok P (bind (find_element env sid xpath) k) R.
Proof.
  intros Hok Hk. eapply triple_bind; [done | by apply triple_find_element |].
  by intros element ->.
Qed.

Lemma triple_click (sid : nat) (element : string) :
  ok (Click sid element) →
  triple ok P (click env sid element) (λ _, True).
Proof.
  intros Hok. unfold click. triple_step; [triple_step|].
  triple_step; [by apply triple_record|].
  apply triple_total. intros w.
  destruct (String.eqb element continue_xpath);
    [destruct (submit env (page a) (clicked a)) as [[[delay name] content]|]|];
    (split; [by apply extends_quiet | done]).
Qed.

Lemma triple_quit (sid : nat) : triple ok P (driver_quit sid) (λ _, True).
Proof. by apply triple_driver_quit. Qed.

Lemma triple_requests_get (url : string) :
  triple ok P (requests_get env url) (λ _, True).
Proof. unfold requests_get. triple_step; [by apply triple_record|]. repeat triple_step. Qed.

Lemma triple_pd_read_excel (url : string) :
  triple ok P (pd_read_excel env url) (λ _, True).
Proof. unfold pd_read_excel. triple_step; [by apply triple_record|]. repeat triple_step. Qed.

Lemma triple_pd_read_csv (directory file_name : string) :
  triple ok P (pd_read_csv env directory file_name) (λ _, True).
Proof. unfold pd_read_csv. repeat triple_step. Qed.

Lemma triple_first_workbook (links : list string) :
  triple ok P (first_workbook env links) (λ _, True).
Proof.
  induction links as [|file_url links IH]; simpl; [by apply triple_ret|].
  destruct (negb (String.eqb file_url "") && search_xlsx file_url); [|done].
  triple_step; [triple_step|]. triple_step; [apply triple_pd_read_excel|]. triple_step.
Qed.

Lemma triple_district_type_scraper (year : Z) :
  triple ok P (district_type_scraper env year) (λ _, True).
Proof.
  unfold district_type_scraper. triple_step; [|repeat triple_step].
  triple_step; [apply triple_requests_get|].
  destruct a as [status_code links]. triple_step; [repeat triple_step|].
  triple_step; [apply triple_first_workbook|]. repeat triple_step.
Qed.

Lemma triple_wait_loop (fuel : nat) (start_time timeout : Z) (expected : list string)
    (year : Z) (directory : string) (check : Z) :
  triple ok P (wait_loop fuel start_time timeout expected year directory check) (λ _, True).
Proof.
  revert check. induction fuel as [|fuel IH]; intros check; simpl.
  - apply triple_total. intros w. split; [apply extends_refl | done].
  - triple_step; [triple_step|]. triple_step; [|triple_step].
    triple_step; [triple_step|]. triple_step; [repeat triple_step|].
    triple_step; [repeat triple_step|]. triple_step; [triple_step|]. apply IH.
Qed.

Lemma triple_wait_for_downloads (variables : list string) (year : Z) (directory : string)
    (timeout : Z) :
  triple ok P (wait_for_downloads variables year directory timeout) (λ _, True).
Proof. unfold wait_for_downloads. triple_step; [triple_step|]. apply triple_wait_loop. Qed.

Lemma triple_convert_dat_to_csv (directory : string) :
  triple ok P (convert_dat_to_csv env directory) (λ _, True).
Proof.
  unfold convert_dat_to_csv. triple_step; [triple_step|]. triple_step; [triple_step|].
  triple_step; [triple_step|]. triple_step. triple_step; [|triple_step].
  triple_step; [|triple_step].
  triple_step; [apply triple_pd_read_csv|]. repeat triple_step.
Qed.

Lemma triple_district_type_step (full_dir_path level : string) (dist_type : bool) (year : Z) :
  triple ok P (district_type_step env full_dir_path level dist_type year) (λ _, True).
Proof.
  unfold district_type_step. triple_step; [|triple_step].
  triple_step; [triple_step|]. triple_step; [triple_step|].
  triple_step; [repeat triple_step|].
  triple_step; [apply triple_district_type_scraper|]. repeat triple_step.
Qed.

Lemma triple_open_year_page (full_dir_path level : string) (year : Z) :
  (∀ sid, ok (FindElement sid (level_xpath level))) →
  (∀ sid, ok (Click sid (level_xpath level))) →
  triple ok P (open_year_page env full_dir_path level year) (λ _, True).
Proof.
  intros Hfind Hclick. unfold open_year_page. triple_step.
  - triple_step; [apply triple_webdriver_Chrome|].
    triple_step; [triple_step|]. triple_step; [apply triple_driver_get|].
    triple_step.
    + triple_step; [apply triple_driver_page_source|]. triple_step; [triple_step|].
      triple_step; [apply triple_driver_page_source|]. triple_step.
    + triple_step.
      * triple_step; [triple_step|]. triple_step; [apply triple_quit|]. triple_step.
      * apply triple_bind_find_element; [done|].
        triple_step; [by apply triple_click|]. triple_step.
  - triple_step; [triple_step|]. triple_step; [triple_step|].
    triple_step; [apply triple_quit|]. triple_step.
Qed.

End Calls.

(** ** A run over a directory that has everything *)

Lemma level_xpath_selects_nothing (level : string) (c : call) :
  benign level c → ¬ selects c.
Proof.
  destruct c as [sid|sid url|sid xpath|sid xpath|sid|url|url|d src dst]; simpl; try tauto.
  all: intros -> [H|[var H]]; unfold level_xpath, continue_xpath, setpick_xpath in H;
    simpl in H; discriminate H.
Qed.

Lemma already_present_same_root (w w' : world) (directory file_prefix level var : string)
    (year : Z) :
  root w' = root w →
  already_present w' directory file_prefix level var year
  = already_present w directory file_prefix level var year.
Proof.
  intros Hroot. unfold already_present, file_patterns. simpl.
  by rewrite !(is_file_same_root w w' _ _ Hroot).
Qed.

Lemma already_present_extends (ok : call → Prop) (w w' : world)
    (directory file_prefix level var : string) (year : Z) :
  extends ok w w' →
  already_present w directory file_prefix level var year = true →
  already_present w' directory file_prefix level var year = true.
Proof.
  intros [_ Hfiles]. unfold already_present. rewrite !existsb_exists.
  intros (file & Hin & Hfile). eauto.
Qed.

Lemma all_present_stable (ok : call → Prop) (directory_path file_prefix level : string)
    (years : list Z) (variables : list string) :
  stable ok (all_present directory_path file_prefix level years variables).
Proof.
  intros w w' Hw Hext year var Hyear Hvar.
  eapply already_present_extends; [done|]. by apply Hw.
Qed.

Section Rerun.
Context (env : site).

(** A variable whose file is there: two lines are written and the variable
    joins [unavailable]; nothing else happens. *)
Lemma download_variable_present (full_dir_path file_prefix level : string) (year : Z)
    (unavailable : list string) (var : string) (w : world) :
  already_present w full_dir_path file_prefix level var year = true →
  download_variable env full_dir_path file_prefix level year unavailable var w =
  (Ok (unavailable ++ [var])%list,
   set_console (console w ++ present_lines file_prefix year [var]) w).
Proof.
  intros Hpresent. unfold download_variable, bind, st_write, any_isfile.
  change (existsb _ _) with
    (already_present
       (set_console (console w ++ [StWrite ("Checking for " ++ file_prefix ++ var ++ " data...")]) w)
       full_dir_path file_prefix level var year).
  rewrite (already_present_same_root w) by done. rewrite Hpresent.
  unfold ret, set_console. simpl. by rewrite <- app_assoc.
Qed.

Lemma download_variables_present (full_dir_path file_prefix level : string) (year : Z)
    (variables : list string) (unavailable : list string) (w : world) :
  (∀ var, var ∈ variables →
     already_present w full_dir_path file_prefix level var year = true) →
  download_variables env full_dir_path file_prefix level year unavailable variables w =
  (Ok (unavailable ++ variables)%list,
   set_console (console w ++ present_lines file_prefix year variables) w).
Proof.
  revert unavailable w. induction variables as [|var variables IH]; intros unavailable w Hall.
  - simpl. unfold ret, present_lines. simpl. rewrite !app_nil_r. by destruct w.
  - simpl. unfold bind at 1.
    rewrite download_variable_present by (apply Hall; by left).
    rewrite IH.
    + rewrite <- app_assoc. simpl. unfold set_console. simpl.
      rewrite <- !app_assoc. reflexivity.
    + intros var' Hvar'. rewrite (already_present_same_root w) by done.
      apply Hall. by right.
Qed.

Context (directory_path level file_prefix : string).
Context (years : list Z) (variables : list string).

Local Abbreviation ok := (benign level).
Local Abbreviation P := (all_present directory_path file_prefix level years variables).

Lemma triple_download_variables_present (year : Z) :
  year ∈ years →
  triple ok P
    (download_variables env (path_join directory_path ("raw_data" ++ str_int year))
       file_prefix level year [] variables)
    (λ unavailable, unavailable = variables).
Proof.
  intros Hyear w r w' Hw. rewrite download_variables_present.
  - intros [= <- <-]. split; [by apply extends_quiet | done].
  - intros var Hvar. by apply Hw.
Qed.

Lemma triple_process_year (level_name : string) (dist_type : bool) (year : Z) :
  year ∈ years →
  triple ok P
    (process_year env directory_path variables level level_name file_prefix dist_type year)
    (λ _, True).
Proof.
  intros Hyear. pose proof (all_present_stable ok directory_path file_prefix level years variables) as HP.
  unfold process_year.
  triple_step; [triple_step|].
  triple_step; [by apply triple_open_year_page|].
  triple_step; [triple_step|].
  triple_step; [triple_step|].
  eapply triple_bind; [done | by apply triple_download_variables_present |].
  intros unavailable ->.
  rewrite difference_diag_L, elements_empty.
  triple_step; [by apply triple_wait_for_downloads|].
  triple_step; [triple_step; simpl; triple_step|].
  triple_step; [triple_step|].
  triple_step; [by apply triple_quit|].
  triple_step; [by apply triple_district_type_step|].
  triple_step; [by apply triple_convert_dat_to_csv | triple_step].
Qed.

Lemma triple_tea_scraper (dist_type : bool) :
  dict_get file_prefixes level = Some file_prefix →
  triple ok P (tea_scraper env directory_path years variables level dist_type) (λ _, True).
Proof.
  intros Hprefix. pose proof (all_present_stable ok directory_path file_prefix level years variables) as HP.
  unfold tea_scraper. rewrite Hprefix.
  triple_step; [triple_step|]. triple_step; [triple_step|].
  triple_step; [triple_step|]. triple_step; [|triple_step].
  triple_step; [|triple_step].
  apply triple_for_each; [done|]. intros year Hyear. by apply triple_process_year.
Qed.

End Rerun.

(** C6, as amended.  When every requested variable of every requested year
    already has one of its four names in the folder of the year, a run
    makes no call that selects a data set: no radio button of a variable and
    no Continue button is looked up or clicked, and nothing is renamed.  The
    calls it does make are benign -- for each year it still launches a
    browser, navigates to the page of the year and clicks the radio button
    of the level, and it may query the district type page.  In the loop over
    the variables every variable takes the branch of line 297: the loop
    writes its two lines per variable, returns all of them in [unavailable],
    and the set handed to the watcher is empty. *)
Theorem rerun_selects_nothing (env : site) (directory_path : string) (years : list Z)
    (variables : list string) (level file_prefix : string) (dist_type : bool) (w : world) :
  dict_get file_prefixes level = Some file_prefix →
  all_present directory_path file_prefix level years variables w →
  (∃ cs,
     calls (tea_scraper env directory_path years variables level dist_type w).2
       = (calls w ++ cs)%list
     ∧ Forall (benign level) cs
     ∧ Forall (λ c, ¬ selects c) cs)
  ∧ (∀ year w1, year ∈ years →
       all_present directory_path file_prefix level years variables w1 →
       download_variables env (path_join directory_path ("raw_data" ++ str_int year))
         file_prefix level year [] variables w1
       = (Ok variables, set_console (console w1 ++ present_lines file_prefix year variables) w1)
       ∧ elements (list_to_set variables ∖ list_to_set variables : gset string) = []).
Proof.
  intros Hprefix Hall. split.
  - destruct (tea_scraper env directory_path years variables level dist_type w)
      as [r w'] eqn:Hrun.
    destruct (triple_tea_scraper env directory_path level file_prefix years variables
                dist_type Hprefix w r w' Hall Hrun) as [[(cs & Hcs & Hok) _] _].
    exists cs. split; [done|]. split; [done|].
    eapply Forall_impl; [exact Hok|]. apply level_xpath_selects_nothing.
  - intros year w1 Hyear Hall1. split.
    + apply (download_variables_present env _ file_prefix level year variables [] w1).
      intros var Hvar. by apply Hall1.
    + by rewrite difference_diag_L, elements_empty.
Qed.

(** C6 as it is stated fails: with the file of GRAD for 2021 in place, the
    run still navigates to the page of 2021 and clicks the radio button of
    the level there. *)
Lemma rerun_still_opens_the_page :
  let run := tea_scraper (portal "DIST") "/data" [2021] ["GRAD"] "D" false complete_2021 in
  already_present complete_2021 "/data/raw_data2021" "DIST" "D" "GRAD" 2021 = true
  ∧ run.1 = Ok tt
  ∧ calls run.2 =
      [ Launch 0;
        Get 0 "https://rptsvr1.tea.texas.gov/perfreport/tapr/2021/download/DownloadData.html";
        FindElement 0 (level_xpath "D");
        Click 0 (level_xpath "D");
        Quit 0 ].
Proof. cbv zeta. repeat split; vm_compute; reflexivity. Qed.

Lemma rerun_selects_nothing_witness :
  ∃ cs,
    calls (tea_scraper (portal "DIST") "/data" [2021] ["GRAD"] "D" false complete_2021).2
      = (calls complete_2021 ++ cs)%list
    ∧ Forall (benign "D") cs
    ∧ Forall (λ c, ¬ selects c) cs.
Proof.
  apply (rerun_selects_nothing (portal "DIST") "/data" [2021] ["GRAD"] "D" "DIST" false
           complete_2021).
  - reflexivity.
  - intros year var Hyear Hvar.
    apply list_elem_of_singleton in Hyear as ->.
    apply list_elem_of_singleton in Hvar as ->.
    vm_compute. reflexivity.
Defined.

(** ** Names the oracle does not know *)





Section Retry.
Context (env : site).

Local Abbreviation anything := (λ _ : call, True).
Local Abbreviation anywhere := (λ _ : world, True).



End Retry.


(** A second run over the folder of a download that was never renamed:
    GRAD is selected and asked for again. *)
Example second_run_selects_again :
  let run := tea_scraper (portal "DIST") "/data" [2021] ["GRAD"] "D" false left_behind in
  already_present left_behind "/data/raw_data2021" "DIST" "D" "GRAD" 2021 = false
  ∧ calls run.2 !! 4%nat = Some (FindElement 0 (setpick_xpath "GRAD"))
  ∧ calls run.2 !! 7%nat = Some (Click 0 continue_xpath).
Proof. cbv zeta. repeat split; vm_compute; reflexivity. Qed.


(** * Further properties of the helper functions *)

(** ** More on [wait_for_downloads] *)

(** X1.  The test of line 101 never fails on the marker: for the names the
    watcher builds, it is the test that every name is in the listing. *)
Theorem marker_test_is_vacuous (variables downloaded_files : list string) (year : Z) :
  all_downloaded (expected_files variables year) downloaded_files
  = forallb (λ file, bool_decide (file ∈ downloaded_files)) (expected_files variables year).
Proof.
  unfold all_downloaded, expected_files.
  induction variables as [|var variables IH]; [done|].
  rewrite fmap_cons. cbn [forallb]. by rewrite IH, expected_file_no_marker, andb_true_r.
Qed.

Lemma os_listdir_raise (directory : string) (w w' : world) (e : exn) :
  os_listdir directory w = (Raise e, w') → w' = w.
Proof.
  unfold os_listdir. destruct (root w) as [r|]; [|by intros [= <-]].
  destruct (r !! directory) as [[?|?]|]; by intros [= <-].
Qed.

Lemma os_listdir_fuel (directory : string) (w w' : world) :
  os_listdir directory w ≠ (OutOfFuel, w').
Proof.
  unfold os_listdir. destruct (root w) as [r|]; [|done].
  by destruct (r !! directory) as [[?|?]|].
Qed.

Lemma wait_loop_clock (fuel : nat) (start_time timeout : Z) (expected : list string)
    (year : Z) (directory : string) (check : Z) (w : world) (r : res bool) (w' : world) :
  wait_loop fuel start_time timeout expected year directory check w = (r, w') →
  (now w ≤ now w')%Z ∧ (now w' = now w ∨ now w' - start_time < timeout + 5).
Proof.
  revert check w. induction fuel as [|fuel IH]; intros check w.
  - intros [= <- <-]. lia.
  - simpl. unfold bind at 1. unfold time_time.
    destruct (Z.ltb_spec (now w - start_time) timeout) as [Hlt|Hge];
      [|intros [= <- <-]; lia].
    unfold bind at 1. destruct (os_listdir directory w) as [[names|e|] w1] eqn:Hls.
    + apply os_listdir_inv in Hls as [-> _].
      destruct (all_downloaded expected names); [intros [= <- <-]; simpl; lia|].
      unfold bind at 1.
      destruct (check =? 1)%Z; unfold bind at 1; simpl;
        intros Hrun; apply IH in Hrun; simpl in Hrun; lia.
    + apply os_listdir_raise in Hls as ->. intros [= <- <-]. lia.
    + by apply os_listdir_fuel in Hls.
Qed.

(** X2.  The watcher always comes back: the loop ends, the clock has not
    gone backwards, and unless no time has passed at all, less than the
    timeout and one sleep of five seconds have passed since the call. *)
Theorem wait_for_downloads_returns_in_time (variables : list string) (year : Z)
    (directory : string) (timeout : Z) (w : world) :
  let run := wait_for_downloads variables year directory timeout w in
  run.1 ≠ OutOfFuel
  ∧ (now w ≤ now run.2)%Z
  ∧ (now run.2 = now w ∨ now run.2 - now w < timeout + 5).
Proof.
  cbv zeta. split.
  - unfold wait_for_downloads. unfold bind, time_time. apply wait_loop_fuel. lia.
  - destruct (wait_for_downloads variables year directory timeout w) as [r w'] eqn:Hrun.
    unfold wait_for_downloads in Hrun. unfold bind, time_time in Hrun.
    apply wait_loop_clock in Hrun. simpl. lia.
Qed.

Lemma wait_loop_false (fuel : nat) (start_time timeout : Z) (expected : list string)
    (year : Z) (directory : string) (check : Z) (w w' : world) :
  wait_loop fuel start_time timeout expected year directory check w = (Ok false, w') →
  (timeout ≤ now w' - start_time)%Z.
Proof.
  revert check w. induction fuel as [|fuel IH]; intros check w; [done|].
  simpl. unfold bind at 1. unfold time_time.
  destruct (Z.ltb_spec (now w - start_time) timeout) as [Hlt|Hge].
  - unfold bind at 1. destruct (os_listdir directory w) as [[names|e|] w1] eqn:Hls; try done.
    destruct (all_downloaded expected names); [done|].
    unfold bind at 1. destruct (check =? 1)%Z; (unfold bind at 1; simpl; apply IH).
  - by intros [= <-].
Qed.

(** X3.  The watcher answers [False] only when the timeout has fully
    elapsed since the call. *)
Theorem wait_for_downloads_false_after_timeout (variables : list string) (year : Z)
    (directory : string) (timeout : Z) (w w' : world) :
  wait_for_downloads variables year directory timeout w = (Ok false, w') →
  (timeout ≤ now w' - now w)%Z.
Proof. unfold wait_for_downloads. unfold bind, time_time. apply wait_loop_false. Qed.

Lemma wait_for_downloads_false_after_timeout_witness :
  (default_timeout ≤
   now (wait_for_downloads ["GRAD"] 2021 "/data/raw_data2021" default_timeout complete_2021).2
   - now complete_2021)%Z.
Proof.
  apply (wait_for_downloads_false_after_timeout ["GRAD"] 2021 "/data/raw_data2021"
           default_timeout complete_2021).
  vm_compute. reflexivity.
Defined.

(** X4.  Without time to wait -- a timeout of zero or less -- the watcher
    answers [False] at once and looks at nothing, whether or not the files
    are there and even when nothing is expected. *)
Theorem wait_for_downloads_needs_time (variables : list string) (year : Z)
    (directory : string) (timeout : Z) (w : world) :
  (timeout ≤ 0)%Z →
  wait_for_downloads variables year directory timeout w = (Ok false, w).
Proof.
  intros Htimeout. unfold wait_for_downloads. unfold bind, time_time. simpl.
  unfold bind, time_time. by rewrite (proj2 (Z.ltb_ge _ _)) by lia.
Qed.

Lemma wait_for_downloads_needs_time_witness :
  wait_for_downloads [] 2021 "/data/raw_data2021" 0 left_behind = (Ok false, left_behind).
Proof.
  apply (wait_for_downloads_needs_time [] 2021 "/data/raw_data2021" 0 left_behind). lia.
Defined.

(** X5.  With time to wait, a directory that does not exist makes the first
    poll raise [FileNotFoundError], as the docstring announces; nothing has
    been written or changed by then. *)
Theorem wait_for_downloads_missing_directory (variables : list string) (year : Z)
    (directory : string) (timeout : Z) (w : world) :
  0 < timeout →
  folder w directory = None →
  (∀ r content, root w = Some r → r !! directory ≠ Some (File content)) →
  wait_for_downloads variables year directory timeout w = (Raise FileNotFoundError, w).
Proof.
  intros Htimeout Hdir Hfile. unfold wait_for_downloads. unfold bind, time_time. simpl.
  unfold bind, time_time. rewrite (proj2 (Z.ltb_lt _ _)) by lia.
  unfold os_listdir. unfold folder in Hdir. destruct (root w) as [r|]; [|done].
  destruct (r !! directory) as [[content|entries]|] eqn:Hr; [|done|done].
  by destruct (Hfile r content).
Qed.

Lemma wait_for_downloads_missing_directory_witness :
  wait_for_downloads ["GRAD"] 2021 "/data/raw_data2021" default_timeout empty_disk
  = (Raise FileNotFoundError, empty_disk).
Proof.
  apply (wait_for_downloads_missing_directory ["GRAD"] 2021 "/data/raw_data2021"
           default_timeout empty_disk).
  - reflexivity.
  - reflexivity.
  - intros r content [= <-]. by rewrite lookup_empty.
Defined.

Lemma wait_loop_console (fuel : nat) (start_time timeout : Z) (expected : list string)
    (year : Z) (directory : string) (check : Z) (w : world) (r : res bool) (w' : world) :
  (1 ≤ check)%Z →
  wait_loop fuel start_time timeout expected year directory check w = (r, w') →
  ∃ first : bool,
    (check ≠ 1 → first = false)
    ∧ console w'
      = (console w ++ (if first then [waiting] else [])
         ++ (match r with Ok true => [completed year] | _ => [] end))%list.
Proof.
  revert check w. induction fuel as [|fuel IH]; intros check w Hcheck.
  - intros [= <- <-]. exists false. simpl. by rewrite app_nil_r.
  - simpl. unfold bind at 1. unfold time_time.
    destruct (now w - start_time <? timeout)%Z;
      [|intros [= <- <-]; exists false; simpl; by rewrite app_nil_r].
    unfold bind at 1. destruct (os_listdir directory w) as [[names|e|] w1] eqn:Hls.
    + apply os_listdir_inv in Hls as [-> _].
      destruct (all_downloaded expected names); [intros [= <- <-]; by exists false|].
      unfold bind at 1. destruct (Z.eqb_spec check 1) as [->|Hne].
      * unfold bind at 1. simpl. intros Hrun.
        apply IH in Hrun as (first & Hfirst & Hconsole); [|lia].
        rewrite (Hfirst ltac:(lia)) in Hconsole. exists true. split; [done|].
        rewrite Hconsole. simpl. by rewrite <- app_assoc.
      * unfold bind at 1. simpl. intros Hrun.
        apply IH in Hrun as (first & Hfirst & Hconsole); [|lia].
        rewrite (Hfirst ltac:(lia)) in Hconsole. exists false. split; [done|].
        by rewrite Hconsole.
    + apply os_listdir_raise in Hls as ->. intros [= <- <-].
      exists false. simpl. by rewrite app_nil_r.
    + by apply os_listdir_fuel in Hls.
Qed.

(** X6.  What the watcher writes: the waiting line at most once, before
    anything else, and the success line exactly when it answers [True];
    nothing is written on a timeout. *)
Theorem wait_for_downloads_console (variables : list string) (year : Z)
    (directory : string) (timeout : Z) (w : world) :
  let run := wait_for_downloads variables year directory timeout w in
  ∃ first : bool,
    console run.2
    = (console w ++ (if first then [waiting] else [])
       ++ (match run.1 with Ok true => [completed year] | _ => [] end))%list.
Proof.
  cbv zeta.
  destruct (wait_for_downloads variables year directory timeout w) as [r w'] eqn:Hrun.
  unfold wait_for_downloads in Hrun. unfold bind, time_time in Hrun.
  apply wait_loop_console in Hrun as (first & _ & Hconsole); [|lia].
  by exists first.
Qed.

(** ** More on [file_renamer] *)

Lemma folder_inv (w : world) (directory : string) (entries : gmap string string) :
  folder w directory = Some entries ↔
  ∃ r, root w = Some r ∧ r !! directory = Some (Dir entries).
Proof.
  unfold folder. split.
  - destruct (root w) as [r|]; [|done].
    destruct (r !! directory) as [[?|?]|] eqn:Hdir; try done. intros [= ->]. eauto.
  - intros (r & -> & ->). done.
Qed.

Lemma folder_replaced (w : world) (r : gmap string node) (cs : list call)
    (directory d : string) (entries : gmap string string) :
  folder (set_calls cs (set_root (Some (<[directory := Dir entries]> r)) w)) d
  = if decide (directory = d) then Some entries
    else match r !! d with Some (Dir e) => Some e | _ => None end.
Proof.
  unfold folder. simpl. rewrite lookup_insert. by case_decide.
Qed.

(** One pass of the inner loop, on the entries of the folder. *)
Lemma rename_pass_entries (directory : string) (year : Z) (prefix var level ext : string)
    (w : world) (entries : gmap string string) :
  folder w directory = Some entries →
  ∃ w',
    for_break (old_patterns prefix level var ext) (λ old_pattern,
      found <- os_path_exists directory old_pattern ;;
      if found : bool then
        os_rename directory old_pattern (new_pattern prefix level var year ext) ;;;
        ret true
      else ret false) w = (Ok tt, w')
    ∧ folder w' directory = Some (rename_step prefix level var year ext entries)
    ∧ (∀ d, d ≠ directory → folder w' d = folder w d)
    ∧ console w' = console w.
Proof.
  intros Hdir. pose proof Hdir as (r & Hr & Hlookup)%folder_inv.
  unfold old_patterns, rename_step. simpl.
  unfold bind at 1. unfold bind at 1. unfold os_path_exists at 1. unfold is_file at 1.
  rewrite Hdir.
  destruct (entries !! (prefix ++ var ++ ext)) as [content|] eqn:Hfirst.
  - rewrite bool_decide_eq_true_2 by eauto.
    unfold bind at 1. unfold os_rename. rewrite Hr, Hdir, Hfirst.
    eexists. split; [reflexivity|]. split; [|split; [|done]].
    + rewrite folder_replaced. by rewrite decide_True.
    + intros d Hd. rewrite folder_replaced. rewrite decide_False by done.
      unfold folder. by rewrite Hr.
  - rewrite bool_decide_eq_false_2 by (by intros [? ?]).
    unfold ret at 1. unfold bind at 1. unfold bind at 1. unfold os_path_exists at 1.
    unfold is_file at 1. rewrite Hdir.
    destruct (entries !! (level ++ var ++ ext)) as [content|] eqn:Hsecond.
    + rewrite bool_decide_eq_true_2 by eauto.
      unfold bind at 1. unfold os_rename. rewrite Hr, Hdir, Hsecond.
      eexists. split; [reflexivity|]. split; [|split; [|done]].
      * rewrite folder_replaced. by rewrite decide_True.
      * intros d Hd. rewrite folder_replaced. rewrite decide_False by done.
        unfold folder. by rewrite Hr.
    + rewrite bool_decide_eq_false_2 by (by intros [? ?]).
      exists w. done.
Qed.

(** [file_renamer] on the entries of the folder: the pass for [.csv], then
    the pass for [.dat]; no other folder and no line of the console changes. *)
Lemma file_renamer_entries (directory : string) (year : Z) (prefix var level : string)
    (w : world) (entries : gmap string string) :
  folder w directory = Some entries →
  ∃ w',
    file_renamer directory year prefix var level w = (Ok tt, w')
    ∧ folder w' directory = Some (renamed prefix level var year entries)
    ∧ (∀ d, d ≠ directory → folder w' d = folder w d)
    ∧ console w' = console w.
Proof.
  intros Hdir. unfold file_renamer. cbn [for_each].
  destruct (rename_pass_entries directory year prefix var level ".csv" w entries Hdir)
    as (w1 & Hcsv & Hdir1 & Hother1 & Hconsole1).
  destruct (rename_pass_entries directory year prefix var level ".dat" w1 _ Hdir1)
    as (w2 & Hdat & Hdir2 & Hother2 & Hconsole2).
  exists w2. split; [|split; [done|split]].
  - unfold bind at 1. rewrite Hcsv. unfold bind at 1. by rewrite Hdat.
  - intros d Hd. by rewrite Hother2, Hother1.
  - by rewrite Hconsole2.
Qed.

(** Names with different extensions are different names. *)
Lemma endings_differ (stem stem' ext ext' : string) :
  ext ∈ [".csv"; ".dat"] → ext' ∈ [".csv"; ".dat"] → ext ≠ ext' →
  stem ++ ext ≠ stem' ++ ext'.
Proof.
  intros Hext Hext' Hne Heq.
  assert (String.get (String.length ext - 1) ext = String.get (String.length ext' - 1) ext')
    as Hlast.
  { apply (endings_agree stem stem' ext ext' 0 Heq).
    - apply elem_of_cons in Hext as [->|Hext]; [simpl; lia|].
      apply list_elem_of_singleton in Hext as ->. simpl. lia.
    - apply elem_of_cons in Hext' as [->|Hext']; [simpl; lia|].
      apply list_elem_of_singleton in Hext' as ->. simpl. lia. }
  apply elem_of_cons in Hext as [->|Hext];
    [|apply list_elem_of_singleton in Hext as ->];
    (apply elem_of_cons in Hext' as [->|Hext'];
     [|apply list_elem_of_singleton in Hext' as ->]);
    try done; discriminate Hlast.
Qed.

Lemma new_pattern_ending (prefix level var : string) (year : Z) (ext : string) :
  ∃ stem, new_pattern prefix level var year ext = stem ++ ext.
Proof.
  unfold new_pattern. destruct (String.eqb var "REF").
  - exists (level ++ var ++ "_" ++ str_int year). by rewrite !append_assoc.
  - exists (prefix ++ var ++ "_" ++ str_int year). by rewrite !append_assoc.
Qed.

Lemma new_pattern_in_patterns (prefix level var : string) (year : Z) (ext : string) :
  ext ∈ [".csv"; ".dat"] →
  new_pattern prefix level var year ext ∈ file_patterns prefix level var year.
Proof.
  intros Hext. unfold new_pattern, file_patterns. rewrite !elem_of_cons.
  apply elem_of_cons in Hext as [->|Hext];
    [|apply list_elem_of_singleton in Hext as ->];
    destruct (String.eqb var "REF"); auto 6.
Qed.

Section RenameStep.
Context (prefix level var : string) (year : Z).

(** A pass leaves the names with the other extension alone. *)
Lemma rename_step_other_extension (ext ext' stem : string) (entries : gmap string string) :
  ext ∈ [".csv"; ".dat"] → ext' ∈ [".csv"; ".dat"] → ext ≠ ext' →
  rename_step prefix level var year ext entries !! (stem ++ ext') = entries !! (stem ++ ext').
Proof.
  intros Hext Hext' Hne. unfold rename_step.
  destruct (new_pattern_ending prefix level var year ext) as [new Hnew].
  assert (new ++ ext ≠ stem ++ ext') as Hn by by apply endings_differ.
  assert ((prefix ++ var) ++ ext ≠ stem ++ ext') as H1 by by apply endings_differ.
  assert ((level ++ var) ++ ext ≠ stem ++ ext') as H2 by by apply endings_differ.
  rewrite append_assoc in H1, H2. rewrite Hnew.
  destruct (entries !! (prefix ++ var ++ ext)).
  - rewrite lookup_insert_ne by done. by rewrite lookup_delete_ne.
  - destruct (entries !! (level ++ var ++ ext)); [|done].
    rewrite lookup_insert_ne by done. by rewrite lookup_delete_ne.
Qed.

(** A pass puts the content of the first candidate under the new name. *)
Lemma rename_step_content (ext content : string) (entries : gmap string string) :
  entries !! (prefix ++ var ++ ext) = Some content
  ∨ (entries !! (prefix ++ var ++ ext) = None
     ∧ entries !! (level ++ var ++ ext) = Some content) →
  rename_step prefix level var year ext entries !! new_pattern prefix level var year ext
  = Some content.
Proof.
  unfold rename_step. intros [-> | [-> ->]]; by rewrite lookup_insert_eq.
Qed.

Lemma renamed_content (ext content : string) (entries : gmap string string) :
  ext ∈ [".csv"; ".dat"] →
  entries !! (prefix ++ var ++ ext) = Some content
  ∨ (entries !! (prefix ++ var ++ ext) = None
     ∧ entries !! (level ++ var ++ ext) = Some content) →
  renamed prefix level var year entries !! new_pattern prefix level var year ext
  = Some content.
Proof.
  intros Hext Hfirst. unfold renamed.
  assert (".csv" ∈ [".csv"; ".dat"]) as Hcsv by (rewrite !elem_of_cons; auto).
  assert (".dat" ∈ [".csv"; ".dat"]) as Hdat by (rewrite !elem_of_cons; auto).
  apply elem_of_cons in Hext as [->|Hext];
    [|apply list_elem_of_singleton in Hext as ->].
  - destruct (new_pattern_ending prefix level var year ".csv") as [new Hnew].
    rewrite Hnew, rename_step_other_extension by done. rewrite <- Hnew.
    by apply rename_step_content.
  - apply rename_step_content.
    rewrite <- !(append_assoc prefix var ".dat"), <- !(append_assoc level var ".dat").
    rewrite !rename_step_other_extension by done.
    by rewrite !append_assoc.
Qed.

End RenameStep.

(** X8.  Whatever the prefix and the level token: when a file sits in the
    folder under one of the names the site may have given it, then after
    [file_renamer] the test of line 297 finds the variable -- the next run
    will not download it again. *)
Theorem file_renamer_makes_present (directory : string) (year : Z)
    (prefix var level ext name : string) (w : world) (entries : gmap string string) :
  folder w directory = Some entries →
  ext ∈ [".csv"; ".dat"] →
  name ∈ old_patterns prefix level var ext →
  is_Some (entries !! name) →
  already_present (file_renamer directory year prefix var level w).2
    directory prefix level var year = true.
Proof.
  intros Hdir Hext Hname [content Hcontent].
  destruct (file_renamer_entries directory year prefix var level w entries Hdir)
    as (w' & -> & Hdir' & _). simpl.
  assert (∃ c, entries !! (prefix ++ var ++ ext) = Some c
               ∨ (entries !! (prefix ++ var ++ ext) = None
                  ∧ entries !! (level ++ var ++ ext) = Some c)) as [c Hfirst].
  { destruct (entries !! (prefix ++ var ++ ext)) as [c|] eqn:Hp; [eauto|].
    exists content. right. split; [done|].
    unfold old_patterns in Hname. apply elem_of_cons in Hname as [->|Hname]; [congruence|].
    by apply list_elem_of_singleton in Hname as ->. }
  unfold already_present. apply existsb_exists.
  exists (new_pattern prefix level var year ext). split.
  - apply list_elem_of_In. by apply new_pattern_in_patterns.
  - unfold is_file. rewrite Hdir'. apply bool_decide_eq_true.
    rewrite (renamed_content prefix level var year ext c entries Hext Hfirst). eauto.
Qed.

Lemma file_renamer_makes_present_witness :
  already_present (file_renamer "/data/raw_data2021" 2021 "DIST" "GRAD" "D" left_behind).2
    "/data/raw_data2021" "DIST" "D" "GRAD" 2021 = true.
Proof.
  apply (file_renamer_makes_present "/data/raw_data2021" 2021 "DIST" "GRAD" "D" ".csv"
           "DISTGRAD.csv" left_behind {[ "DISTGRAD.csv" := "DISTRICT,GRAD" ]}).
  - vm_compute. reflexivity.
  - by left.
  - by left.
  - vm_compute. eauto.
Defined.

(** X9.  The first match wins and the content moves with the name: for
    each extension, the new name holds what the prefix-named candidate held,
    or, if there was none, what the level-named candidate held. *)
Theorem file_renamer_keeps_content (directory : string) (year : Z)
    (prefix var level ext content : string) (w : world) (entries : gmap string string) :
  folder w directory = Some entries →
  ext ∈ [".csv"; ".dat"] →
  entries !! (prefix ++ var ++ ext) = Some content
  ∨ (entries !! (prefix ++ var ++ ext) = None
     ∧ entries !! (level ++ var ++ ext) = Some content) →
  (file_renamer directory year prefix var level w).1 = Ok tt
  ∧ ∃ entries', folder (file_renamer directory year prefix var level w).2 directory
                = Some entries'
                ∧ entries' !! new_pattern prefix level var year ext = Some content.
Proof.
  intros Hdir Hext Hfirst.
  destruct (file_renamer_entries directory year prefix var level w entries Hdir)
    as (w' & -> & Hdir' & _). simpl. split; [done|].
  eexists. split; [exact Hdir'|]. by apply renamed_content.
Qed.

Lemma file_renamer_keeps_content_witness :
  (file_renamer "/data/raw_data2021" 2021 "DIST" "GRAD" "D" two_eras).1 = Ok tt
  ∧ ∃ entries', folder (file_renamer "/data/raw_data2021" 2021 "DIST" "GRAD" "D" two_eras).2
                  "/data/raw_data2021" = Some entries'
                ∧ entries' !! new_pattern "DIST" "D" "GRAD" 2021 ".dat" = Some "DISTRICT|GRAD".
Proof.
  apply (file_renamer_keeps_content "/data/raw_data2021" 2021 "DIST" "GRAD" "D" ".dat"
           "DISTRICT|GRAD" two_eras
           {[ "DISTGRAD.csv" := "DISTRICT,GRAD"; "DISTGRAD.dat" := "DISTRICT|GRAD" ]}).
  - vm_compute. reflexivity.
  - by right; left.
  - left. vm_compute. reflexivity.
Defined.

(** X10.  With none of the four candidate names in the folder -- or no
    folder at all -- [file_renamer] returns and leaves the world as it is. *)
Theorem file_renamer_nothing_to_rename (directory : string) (year : Z)
    (prefix var level : string) (w : world) :
  (∀ ext name, ext ∈ [".csv"; ".dat"] → name ∈ old_patterns prefix level var ext →
     is_file w directory name = false) →
  file_renamer directory year prefix var level w = (Ok tt, w).
Proof.
  intros Hnone. unfold file_renamer. simpl.
  unfold bind, os_path_exists, ret.
  rewrite (Hnone ".csv" (prefix ++ var ++ ".csv")),
    (Hnone ".csv" (level ++ var ++ ".csv")),
    (Hnone ".dat" (prefix ++ var ++ ".dat")),
    (Hnone ".dat" (level ++ var ++ ".dat"));
    first done; unfold old_patterns; rewrite ?elem_of_cons; auto.
Qed.

Lemma file_renamer_nothing_to_rename_witness :
  file_renamer "/data/raw_data2021" 2021 "DIST" "GRAD" "D" complete_2021
  = (Ok tt, complete_2021).
Proof.
  apply (file_renamer_nothing_to_rename "/data/raw_data2021" 2021 "DIST" "GRAD" "D"
           complete_2021).
  intros ext name Hext Hname.
  apply elem_of_cons in Hext as [->|Hext];
    [|apply list_elem_of_singleton in Hext as ->];
    (apply elem_of_cons in Hname as [->|Hname];
     [|apply list_elem_of_singleton in Hname as ->]);
    vm_compute; reflexivity.
Defined.

(** ** [convert_dat_to_csv] *)

Section Convert.
Context (env : site).

(** [endswith] on a string that begins with a known character. *)
Lemma endswith_cons (c : ascii) (s suffix : string) :
  endswith (String c s) suffix = String.eqb (String c s) suffix || endswith s suffix.
Proof. reflexivity. Qed.

(** A first character of the result that is not a dot was copied from
    the name. *)
Lemma replace_dat_head (c : ascii) (s t : string) :
  replace_from ".dat" ".csv" 0 s = String c t → c ≠ "."%char →
  ∃ s', s = String c s' ∧ t = replace_from ".dat" ".csv" 0 s'.
Proof.
  destruct s as [|c' s']; [done|]. cbn [replace_from].
  destruct (String.prefix ".dat" (String c' s')).
  - change (String "." (String "c" (String "s" (String "v"
              (replace_from ".dat" ".csv" (Nat.pred (String.length ".dat")) s'))))
            = String c t → c ≠ "."%char →
            ∃ s'0, String c' s' = String c s'0 ∧ t = replace_from ".dat" ".csv" 0 s'0).
    intros [= <- _] Hc. by destruct Hc.
  - intros [= <- <-] _. eauto.
Qed.

(** The name of the converted file never ends in [.dat]: a conversion
    cannot overwrite a legacy file. *)
Lemma replace_dat_not_dat (k : nat) (s : string) :
  endswith (replace_from ".dat" ".csv" k s) ".dat" = false.
Proof.
  revert k. induction s as [|c s IH]; intros k; [reflexivity|].
  destruct k as [|k]; cbn [replace_from]; [|apply IH].
  destruct (String.prefix ".dat" (String c s)) eqn:Hprefix.
  - change (endswith (String "." (String "c" (String "s" (String "v"
              (replace_from ".dat" ".csv" (Nat.pred (String.length ".dat")) s))))) ".dat"
            = false).
    rewrite !endswith_cons, IH. reflexivity.
  - rewrite endswith_cons, IH, orb_false_r.
    destruct (String.eqb (String c (replace_from ".dat" ".csv" 0 s)) ".dat") eqn:Heq; [|done].
    apply String.eqb_eq in Heq. injection Heq as -> Ht.
    apply replace_dat_head in Ht as (s1 & -> & Ht); [|done]. symmetry in Ht.
    apply replace_dat_head in Ht as (s2 & -> & Ht); [|done]. symmetry in Ht.
    apply replace_dat_head in Ht as (s3 & -> & Ht); [|done].
    assert (String.prefix ".dat" (String "." (String "d" (String "a" (String "t" s3)))) = true)
      as Htrue by (apply String.prefix_correct; by destruct s3).
    congruence.
Qed.

Section ConversionPass.
Context (directory : string) (entries : gmap string string).

(** Conversions only write converted files, under converted names. *)
Lemma conversion_of_insert (cur : gmap string string) (csv df name : string) :
  conversion_of env entries csv df →
  (cur !! name = entries !! name
   ∨ ∃ df', conversion_of env entries name df' ∧ cur !! name = Some df') →
  <[csv := df]> cur !! name = entries !! name
  ∨ ∃ df', conversion_of env entries name df' ∧ <[csv := df]> cur !! name = Some df'.
Proof.
  intros Hconv Hname. destruct (decide (csv = name)) as [<-|Hne].
  - right. exists df. by rewrite lookup_insert_eq.
  - by rewrite lookup_insert_ne.
Qed.

(** The body of the loop for a legacy file of the listing. *)
Lemma convert_step (r : gmap string node) (w : world) (cur : gmap string string)
    (lines : list line) (file_name content : string) :
  root w = Some r →
  entries !! file_name = Some content →
  endswith file_name ".dat" = true →
  (∀ name, endswith name ".dat" = true → cur !! name = entries !! name) →
  try_except
    (df <- pd_read_csv env directory file_name ;;
     write_file directory (replace ".dat" ".csv" file_name) df ;;;
     st_write ("Converted: " ++ file_name ++ " -> "
               ++ path_join directory (replace ".dat" ".csv" file_name)))
    "Exception"
    (λ e, st_write ("Error converting " ++ file_name ++ ": " ++ str_exn e))
    (folder_rewritten r directory cur lines w)
  = match read_dat env content with
    | inr df =>
        (Ok tt,
         folder_rewritten r directory (<[replace ".dat" ".csv" file_name := df]> cur)
           (lines ++ [StWrite ("Converted: " ++ file_name ++ " -> "
                               ++ path_join directory (replace ".dat" ".csv" file_name))]) w)
    | inl msg =>
        (Ok tt,
         folder_rewritten r directory cur
           (lines ++ [StWrite ("Error converting " ++ file_name ++ ": " ++ msg)]) w)
    end.
Proof.
  intros Hr Hfile Hdat Hkept. unfold try_except.
  unfold bind at 1. unfold pd_read_csv. unfold bind at 1. unfold read_file.
  unfold folder_rewritten at 1 2. unfold folder at 1. cbn [root set_console set_root].
  rewrite lookup_insert_eq, (Hkept _ Hdat), Hfile.
  destruct (read_dat env content) as [msg|df].
  - unfold raise, st_write, folder_rewritten. simpl. by rewrite <- app_assoc.
  - unfold ret at 1. unfold bind at 1. unfold write_file. unfold folder.
    cbn [root set_console set_root]. rewrite lookup_insert_eq.
    unfold st_write, folder_rewritten. simpl. by rewrite insert_insert_eq, <- app_assoc.
Qed.

(** The loop of lines 173-187 over a part of the listing, from a folder in
    which the legacy files are as they were at the call. *)
Lemma convert_loop (r : gmap string node) (w : world) (file_names : list string) :
  root w = Some r →
  (∀ file_name, file_name ∈ file_names → is_Some (entries !! file_name)) →
  ∀ (cur : gmap string string) (lines : list line),
    (∀ name, endswith name ".dat" = true → cur !! name = entries !! name) →
    (∀ name, cur !! name = entries !! name
             ∨ ∃ df, conversion_of env entries name df ∧ cur !! name = Some df) →
    ∃ cur' lines',
      for_each file_names (λ file_name,
        if endswith file_name ".dat" then
          try_except
            (df <- pd_read_csv env directory file_name ;;
             write_file directory (replace ".dat" ".csv" file_name) df ;;;
             st_write ("Converted: " ++ file_name ++ " -> "
                       ++ path_join directory (replace ".dat" ".csv" file_name)))
            "Exception"
            (λ e, st_write ("Error converting " ++ file_name ++ ": " ++ str_exn e))
        else ret tt) (folder_rewritten r directory cur lines w)
      = (Ok tt, folder_rewritten r directory cur' (lines ++ lines') w)
      ∧ (∀ name, cur' !! name = entries !! name
                 ∨ ∃ df, conversion_of env entries name df ∧ cur' !! name = Some df)
      ∧ (∀ name, (∃ df, conversion_of env entries name df ∧ cur !! name = Some df) →
                 ∃ df, conversion_of env entries name df ∧ cur' !! name = Some df)
      ∧ (∀ file_name content,
           file_name ∈ file_names → entries !! file_name = Some content →
           endswith file_name ".dat" = true →
           match read_dat env content with
           | inr _ =>
               (∃ df, conversion_of env entries (replace ".dat" ".csv" file_name) df
                      ∧ cur' !! replace ".dat" ".csv" file_name = Some df)
               ∧ StWrite ("Converted: " ++ file_name ++ " -> "
                          ++ path_join directory (replace ".dat" ".csv" file_name)) ∈ lines'
           | inl msg => StWrite ("Error converting " ++ file_name ++ ": " ++ msg) ∈ lines'
           end).
Proof.
  intros Hr. induction file_names as [|file_name file_names IH];
    intros Hlisted cur lines Hkept Hcur.
  - exists cur, []. rewrite app_nil_r. split; [done|]. split; [done|]. split; [done|].
    intros f content Hin. by apply elem_of_nil in Hin.
  - assert (∀ f, f ∈ file_names → is_Some (entries !! f)) as Hrest
      by (intros f Hf; apply Hlisted; by right).
    cbn [for_each]. unfold bind at 1.
    destruct (endswith file_name ".dat") eqn:Hdat.
    + destruct (Hlisted file_name) as [content Hfile]; [by left|].
      rewrite (convert_step r w cur lines file_name content Hr Hfile Hdat Hkept).
      destruct (read_dat env content) as [msg|df] eqn:Hread.
      * destruct (IH Hrest cur
                    (lines ++ [StWrite ("Error converting " ++ file_name ++ ": " ++ msg)])%list
                    Hkept Hcur) as (cur' & lines' & Hrun & Hcur' & Hstays & Hall).
        exists cur', ([StWrite ("Error converting " ++ file_name ++ ": " ++ msg)] ++ lines')%list.
        rewrite app_assoc. split; [done|]. split; [done|]. split; [done|].
        intros f c [->|Hin]%elem_of_cons Hf Hfdat.
        -- rewrite Hfile in Hf. injection Hf as <-. rewrite Hread.
           apply elem_of_app. left. by left.
        -- specialize (Hall f c Hin Hf Hfdat). destruct (read_dat env c).
           ++ apply elem_of_app. by right.
           ++ destruct Hall as [Hconv Hline]. split; [done|]. apply elem_of_app. by right.
      * assert (conversion_of env entries (replace ".dat" ".csv" file_name) df) as Hconv
          by (by exists file_name, content).
        destruct (IH Hrest (<[replace ".dat" ".csv" file_name := df]> cur)
                    (lines ++ [StWrite ("Converted: " ++ file_name ++ " -> "
                                        ++ path_join directory
                                             (replace ".dat" ".csv" file_name))])%list)
          as (cur' & lines' & Hrun & Hcur' & Hstays & Hall).
        { intros name Hname. rewrite lookup_insert_ne; [by apply Hkept|].
          intros <-. unfold replace in Hname. by rewrite replace_dat_not_dat in Hname. }
        { intros name. by apply conversion_of_insert. }
        exists cur', ([StWrite ("Converted: " ++ file_name ++ " -> "
                                ++ path_join directory (replace ".dat" ".csv" file_name))]
                      ++ lines')%list.
        rewrite app_assoc. split; [done|]. split; [done|]. split.
        { intros name [df' [Hconv' Hname]]. apply Hstays.
          destruct (conversion_of_insert cur _ df name Hconv) as [Heq|Hdone];
            [right; eauto | | done].
          destruct (decide (replace ".dat" ".csv" file_name = name)) as [<-|Hne].
          - exists df. by rewrite lookup_insert_eq.
          - exists df'. by rewrite lookup_insert_ne. }
        intros f c [->|Hin]%elem_of_cons Hf Hfdat.
        -- rewrite Hfile in Hf. injection Hf as <-. rewrite Hread. split.
           ++ apply Hstays. exists df. by rewrite lookup_insert_eq.
           ++ apply elem_of_app. left. by left.
        -- specialize (Hall f c Hin Hf Hfdat). destruct (read_dat env c).
           ++ apply elem_of_app. by right.
           ++ destruct Hall as [Hconv' Hline]. split; [done|]. apply elem_of_app. by right.
    + unfold ret at 1.
      destruct (IH Hrest cur lines Hkept Hcur) as (cur' & lines' & Hrun & Hcur' & Hstays & Hall).
      exists cur', lines'. split; [done|]. split; [done|]. split; [done|].
      intros f c [->|Hin]%elem_of_cons Hf Hfdat; [congruence | by apply Hall].
Qed.

End ConversionPass.

(** X11.  [convert_dat_to_csv] does not fail on a file: whenever the path is
    a folder it returns normally, whatever pandas makes of the files, and
    nothing but the console and that folder has changed.  Every name of the
    folder holds what it held (or is still absent), unless it is the [.csv]
    name of a legacy file of the listing that pandas could read: then it
    holds the table read from such a file -- a file that was there under
    that name has been overwritten.  No legacy file is changed.  For every
    legacy file of the listing there is the line that announces its
    conversion, with the converted file in the folder, when pandas could
    read it, and the line that reports the error when it could not. *)
Theorem convert_dat_to_csv_per_file (directory : string) (w : world)
    (entries : gmap string string) :
  folder w directory = Some entries →
  ∃ r entries' lines,
    root w = Some r
    ∧ convert_dat_to_csv env directory w
      = (Ok tt, folder_rewritten r directory entries' lines w)
    ∧ (∀ name, entries' !! name = entries !! name
               ∨ ∃ df, conversion_of env entries name df ∧ entries' !! name = Some df)
    ∧ (∀ file_name content,
         entries !! file_name = Some content → endswith file_name ".dat" = true →
         entries' !! file_name = Some content
         ∧ match read_dat env content with
           | inr _ =>
               (∃ df, conversion_of env entries (replace ".dat" ".csv" file_name) df
                      ∧ entries' !! replace ".dat" ".csv" file_name = Some df)
               ∧ StWrite ("Converted: " ++ file_name ++ " -> "
                          ++ path_join directory (replace ".dat" ".csv" file_name)) ∈ lines
           | inl msg => StWrite ("Error converting " ++ file_name ++ ": " ++ msg) ∈ lines
           end).
Proof.
  intros Hdir. pose proof Hdir as (r & Hr & Hlookup)%folder_inv.
  unfold convert_dat_to_csv. unfold bind at 1. unfold os_path_exists_dir.
  rewrite Hr, Hlookup. rewrite bool_decide_eq_true_2 by eauto. cbn [negb].
  unfold bind at 1. rewrite (os_listdir_folder _ _ _ Hdir).
  assert (w = folder_rewritten r directory entries [] w) as Hw.
  { unfold folder_rewritten. rewrite app_nil_r, (insert_id r directory (Dir entries) Hlookup).
    destruct w. simpl in *. by rewrite Hr. }
  destruct (convert_loop directory entries r w (elements (dom entries)) Hr) with
    (cur := entries) (lines := @nil line) as (entries' & lines & Hrun & Hcur & _ & Hall).
  - intros file_name Hin. by apply elem_of_dom, elem_of_elements.
  - done.
  - intros name. by left.
  - exists r, entries', lines. split; [done|]. rewrite <- Hw in Hrun. split; [done|].
    split; [done|]. intros file_name content Hfile Hdat. split.
    + destruct (Hcur file_name) as [->|(df & (f & c & _ & _ & Hname & _) & _)]; [done|].
      rewrite Hname in Hdat. unfold replace in Hdat. by rewrite replace_dat_not_dat in Hdat.
    + apply Hall; [|done|done]. apply elem_of_elements, elem_of_dom. eauto.
Qed.

(** X12.  A folder without legacy files is left exactly as it is, console
    included. *)
Theorem convert_dat_to_csv_nothing_to_convert (directory : string) (w : world)
    (entries : gmap string string) :
  folder w directory = Some entries →
  (∀ file_name, is_Some (entries !! file_name) → endswith file_name ".dat" = false) →
  convert_dat_to_csv env directory w = (Ok tt, w).
Proof.
  intros Hdir Hnone. pose proof Hdir as (r & Hr & Hlookup)%folder_inv.
  unfold convert_dat_to_csv. unfold bind at 1. unfold os_path_exists_dir.
  rewrite Hr, Hlookup. rewrite bool_decide_eq_true_2 by eauto. cbn [negb].
  unfold bind at 1. rewrite (os_listdir_folder _ _ _ Hdir).
  assert (∀ file_name, file_name ∈ elements (dom entries) →
            endswith file_name ".dat" = false) as Hlist.
  { intros file_name Hin. apply Hnone. by apply elem_of_dom, elem_of_elements. }
  induction (elements (dom entries)) as [|file_name l IH]; [done|].
  simpl. unfold bind at 1. rewrite (Hlist file_name) by by left.
  unfold ret at 1. apply IH. intros f Hf. apply Hlist. by right.
Qed.

(** X13.  A path that does not exist is reported on the page and nothing
    else happens. *)
Theorem convert_dat_to_csv_missing_directory (directory : string) (w : world) :
  (∀ r, root w = Some r → r !! directory = None) →
  convert_dat_to_csv env directory w
  = (Ok tt,
     set_console (console w ++ [StWrite ("Directory '" ++ directory ++ "' does not exist.")]) w).
Proof.
  intros Hmissing. unfold convert_dat_to_csv. unfold bind at 1. unfold os_path_exists_dir.
  destruct (root w) as [r|]; [|done].
  rewrite (Hmissing r eq_refl). by rewrite bool_decide_eq_false_2 by (by intros [? ?]).
Qed.

End Convert.

Lemma convert_dat_to_csv_per_file_witness :
  ∃ r entries' lines,
    root second_run_2019 = Some r
    ∧ convert_dat_to_csv (portal "DIST") "/data/raw_data2019" second_run_2019
      = (Ok tt, folder_rewritten r "/data/raw_data2019" entries' lines second_run_2019)
    ∧ (∀ name,
         entries' !! name
         = ({[ "DISTGRAD_2019.dat" := "DISTRICT|GRAD";
               "district_type2019.csv" := "District,Type" ]} : gmap string string) !! name
         ∨ ∃ df,
             conversion_of (portal "DIST")
               {[ "DISTGRAD_2019.dat" := "DISTRICT|GRAD";
                  "district_type2019.csv" := "District,Type" ]} name df
             ∧ entries' !! name = Some df)
    ∧ (∀ file_name content,
         ({[ "DISTGRAD_2019.dat" := "DISTRICT|GRAD";
             "district_type2019.csv" := "District,Type" ]} : gmap string string) !! file_name
         = Some content →
         endswith file_name ".dat" = true →
         entries' !! file_name = Some content
         ∧ match read_dat (portal "DIST") content with
           | inr _ =>
               (∃ df,
                  conversion_of (portal "DIST")
                    {[ "DISTGRAD_2019.dat" := "DISTRICT|GRAD";
                       "district_type2019.csv" := "District,Type" ]}
                    (replace ".dat" ".csv" file_name) df
                  ∧ entries' !! replace ".dat" ".csv" file_name = Some df)
               ∧ StWrite ("Converted: " ++ file_name ++ " -> "
                          ++ path_join "/data/raw_data2019" (replace ".dat" ".csv" file_name))
                 ∈ lines
           | inl msg => StWrite ("Error converting " ++ file_name ++ ": " ++ msg) ∈ lines
           end).
Proof.
  apply (convert_dat_to_csv_per_file (portal "DIST") "/data/raw_data2019" second_run_2019).
  vm_compute. reflexivity.
Defined.

Lemma convert_dat_to_csv_nothing_to_convert_witness :
  convert_dat_to_csv (portal "DIST") "/data/raw_data2021" complete_2021 = (Ok tt, complete_2021).
Proof.
  apply (convert_dat_to_csv_nothing_to_convert (portal "DIST") "/data/raw_data2021"
           complete_2021 {[ "DISTGRAD_2021.csv" := "DISTRICT,GRAD" ]}).
  - vm_compute. reflexivity.
  - intros file_name [content Hfile].
    apply lookup_singleton_Some in Hfile as [<- _]. vm_compute. reflexivity.
Defined.

Lemma convert_dat_to_csv_missing_directory_witness :
  convert_dat_to_csv (portal "DIST") "/data/raw_data2021" empty_disk
  = (Ok tt,
     set_console (console empty_disk
                  ++ [StWrite ("Directory '" ++ "/data/raw_data2021" ++ "' does not exist.")])
       empty_disk).
Proof.
  apply (convert_dat_to_csv_missing_directory (portal "DIST") "/data/raw_data2021" empty_disk).
  intros r [= <-]. apply lookup_empty.
Defined.

(** ** [district_type_scraper] *)

(** X14.  What the pattern of line 52 accepts: the link must end in [xlsx]
    (or in [xlsx] and one newline) and have at least one more character
    before that, which may be any character but a newline -- the dot of the
    pattern is not a literal dot. *)
Theorem search_xlsx_spec (s : string) :
  search_xlsx s = true ↔
  ∃ p c, c ≠ newline_char
         ∧ (s = p ++ String c "xlsx" ∨ s = p ++ String c ("xlsx" ++ newline)).
Proof.
  induction s as [|a s IH].
  - split; [done|]. intros (p & c & _ & [H|H]); destruct p; discriminate H.
  - change (search_xlsx (String a s)) with
      (negb (Ascii.eqb a (ascii_of_nat 10))
         && (String.eqb s "xlsx" || String.eqb s ("xlsx" ++ newline))
       || search_xlsx s).
    rewrite orb_true_iff, andb_true_iff, negb_true_iff, orb_true_iff, IH.
    rewrite Ascii.eqb_neq, !String.eqb_eq. split.
    + intros [[Ha [-> | ->]] | (p & c & Hc & [-> | ->])].
      * exists "", a. split; [done|]. by left.
      * exists "", a. split; [done|]. by right.
      * exists (String a p), c. split; [done|]. by left.
      * exists (String a p), c. split; [done|]. by right.
    + intros (p & c & Hc & H). destruct p as [|a' p].
      * left. destruct H as [H|H]; injection H as -> ->; split; auto.
      * right. exists p, c. split; [done|].
        destruct H as [H|H]; injection H as -> ->; auto.
Qed.

Section DistrictType.
Context (env : site).

Lemma first_workbook_none (links : list string) (w : world) :
  (∀ link, link ∈ links → search_xlsx link = false) →
  first_workbook env links w = (Ok None, w).
Proof.
  induction links as [|link links IH]; intros Hnone; [done|].
  simpl. rewrite (Hnone link) by by left. rewrite andb_false_r.
  apply IH. intros l Hl. apply Hnone. by right.
Qed.

Lemma search_xlsx_not_empty (s : string) : search_xlsx s = true → String.eqb s "" = false.
Proof. by destruct s. Qed.

Lemma first_workbook_first (before after : list string) (file_url : string) (w : world) :
  (∀ link, link ∈ before → search_xlsx link = false) →
  search_xlsx file_url = true →
  first_workbook env (before ++ file_url :: after) w
  = (match read_excel env (workbook_url file_url) with
     | Some df => Ok (Some (Some df))
     | None => Raise (PandasError "cannot read the workbook")
     end,
     set_calls (calls w ++ [ReadExcel (workbook_url file_url)])
       (set_console (console w ++ [Print ("Found Excel file: " ++ workbook_url file_url)]) w)).
Proof.
  induction before as [|link before IH]; intros Hbefore Hmatch.
  - simpl. rewrite Hmatch, (search_xlsx_not_empty _ Hmatch). simpl.
    unfold bind, print, pd_read_excel, bind, record, workbook_url. simpl.
    by destruct (read_excel env _).
  - simpl. rewrite (Hbefore link) by by left. rewrite andb_false_r.
    apply IH; [|done]. intros l Hl. apply Hbefore. by right.
Qed.

(** Every list of links has a first workbook link or none. *)
Lemma first_match (links : list string) :
  (∀ link, link ∈ links → search_xlsx link = false)
  ∨ ∃ before file_url after,
      links = (before ++ file_url :: after)%list
      ∧ (∀ link, link ∈ before → search_xlsx link = false)
      ∧ search_xlsx file_url = true.
Proof.
  induction links as [|link links IH].
  - left. intros link Hlink. by apply elem_of_nil in Hlink.
  - destruct (search_xlsx link) eqn:Hlink.
    + right. exists [], link, links. split; [done|]. split; [|done].
      intros l Hl. by apply elem_of_nil in Hl.
    + destruct IH as [Hnone | (before & file_url & after & -> & Hbefore & Hmatch)].
      * left. intros l [->|Hl]%elem_of_cons; auto.
      * right. exists (link :: before), file_url, after. split; [done|]. split; [|done].
        intros l [->|Hl]%elem_of_cons; auto.
Qed.

(** X15.  The request fails softly: on a transport error, and on any status
    but 200, the result is [None]; one request was made, one line printed,
    no workbook read and nothing else touched. *)
Theorem district_type_scraper_request_fails (year : Z) (w : world) :
  let run := district_type_scraper env year w in
  (http_get env (district_type_url year) = None →
     run = (Ok None,
            set_console
              (console w ++ [Print ("Error fetching district type data for " ++ str_int year
                                    ++ ": " ++ str_exn RequestException)])
              (set_calls (calls w ++ [HttpGet (district_type_url year)]) w)))
  ∧ (∀ status_code links,
       http_get env (district_type_url year) = Some (status_code, links) →
       status_code ≠ 200 →
       run = (Ok None,
              set_console
                (console w ++ [Print ("Warning: Could not access " ++ district_type_url year
                                      ++ " (Status Code: " ++ str_int status_code ++ ")")])
                (set_calls (calls w ++ [HttpGet (district_type_url year)]) w))).
Proof.
  cbv zeta. split.
  - intros Hget. unfold district_type_scraper, try_except, bind, requests_get, bind, record.
    fold (district_type_url year). by rewrite Hget.
  - intros status_code links Hget Hstatus.
    unfold district_type_scraper, try_except, bind, requests_get, bind, record.
    fold (district_type_url year). rewrite Hget. simpl.
    by rewrite (proj2 (Z.eqb_neq _ _) Hstatus).
Qed.

(** X16.  On status 200 the links are tried in document order and the first
    one the pattern accepts decides: its workbook is read (a link that
    starts with a slash is taken relative to the site) and no later link is
    looked at; the result is the sheet, or the reading error.  With no such
    link the result is [None] and a warning is printed. *)
Theorem district_type_scraper_first_link (year : Z) (w : world) (links : list string) :
  http_get env (district_type_url year) = Some (200, links) →
  let run := district_type_scraper env year w in
  (∀ before file_url after,
     links = (before ++ file_url :: after)%list →
     (∀ link, link ∈ before → search_xlsx link = false) →
     search_xlsx file_url = true →
     run.1 = match read_excel env (workbook_url file_url) with
             | Some df => Ok (Some df)
             | None => Raise (PandasError "cannot read the workbook")
             end
     ∧ calls run.2 = (calls w ++ [HttpGet (district_type_url year);
                                  ReadExcel (workbook_url file_url)])%list
     ∧ console run.2
       = (console w ++ [Print ("Found Excel file: " ++ workbook_url file_url)])%list)
  ∧ ((∀ link, link ∈ links → search_xlsx link = false) →
     run.1 = Ok None
     ∧ calls run.2 = (calls w ++ [HttpGet (district_type_url year)])%list
     ∧ console run.2
       = (console w ++ [Print ("Warning: No Excel file found on " ++ district_type_url year)])%list).
Proof.
  intros Hget. cbv zeta. split.
  - intros before file_url after -> Hbefore Hmatch.
    unfold district_type_scraper, try_except. unfold bind at 1.
    unfold requests_get, bind, record. fold (district_type_url year). rewrite Hget. simpl.
    rewrite (first_workbook_first before after file_url _ Hbefore Hmatch).
    destruct (read_excel env (workbook_url file_url)); simpl;
      by rewrite <- app_assoc.
  - intros Hnone.
    unfold district_type_scraper, try_except. unfold bind at 1.
    unfold requests_get, bind, record. fold (district_type_url year). rewrite Hget. simpl.
    by rewrite (first_workbook_none links _ Hnone).
Qed.

(** X17.  The only exception that leaves [district_type_scraper] is the one
    of reading the workbook; a failed request never does.  The directory is
    not touched. *)
Theorem district_type_scraper_raises_only_on_workbook (year : Z) (w : world) :
  let run := district_type_scraper env year w in
  match run.1 with
  | Ok _ => True
  | Raise (PandasError _) =>
      ∃ status_links, http_get env (district_type_url year) = Some status_links
  | _ => False
  end
  ∧ root run.2 = root w.
Proof.
  cbv zeta.
  unfold district_type_scraper, try_except. unfold bind at 1 3.
  unfold requests_get, bind, record. fold (district_type_url year).
  destruct (http_get env (district_type_url year)) as [[status_code links]|] eqn:Hget;
    [|done].
  simpl. destruct (status_code =? 200)%Z; [|done]. simpl.
  destruct (first_match links)
    as [Hnone | (before & file_url & after & -> & Hbefore & Hmatch)].
  - by rewrite (first_workbook_none links _ Hnone).
  - rewrite (first_workbook_first before after file_url _ Hbefore Hmatch).
    destruct (read_excel env (workbook_url file_url)); simpl; eauto.
Qed.

End DistrictType.

Lemma district_type_scraper_request_fails_witness :
  district_type_scraper legacy_portal 2019 empty_disk
  = (Ok None,
     set_console
       (console empty_disk ++ [Print ("Warning: Could not access " ++ district_type_url 2019
                                     ++ " (Status Code: " ++ str_int 404 ++ ")")])
       (set_calls (calls empty_disk ++ [HttpGet (district_type_url 2019)]) empty_disk)).
Proof.
  apply (district_type_scraper_request_fails legacy_portal 2019 empty_disk) with (links := []).
  - reflexivity.
  - discriminate.
Defined.

Lemma district_type_scraper_first_link_witness :
  (district_type_scraper (portal "DIST") 2021 empty_disk).1 = Ok (Some "District,Type")
  ∧ calls (district_type_scraper (portal "DIST") 2021 empty_disk).2
    = (calls empty_disk
       ++ [HttpGet (district_type_url 2021);
           ReadExcel (workbook_url "/sites/default/files/district-type.xlsx")])%list
  ∧ console (district_type_scraper (portal "DIST") 2021 empty_disk).2
    = (console empty_disk
       ++ [Print ("Found Excel file: "
                  ++ workbook_url "/sites/default/files/district-type.xlsx")])%list.
Proof.
  destruct (district_type_scraper_first_link (portal "DIST") 2021 empty_disk
              ["/sites/default/files/district-type.xlsx"] eq_refl) as [Hfirst _].
  apply (Hfirst [] "/sites/default/files/district-type.xlsx" []).
  - reflexivity.
  - intros link Hlink. by apply elem_of_nil in Hlink.
  - vm_compute. reflexivity.
Defined.

(** * Invariants of a run *)

(** ** Rules *)

Section KeepsRules.
Context (I : world → Prop).

Lemma keeps_ret {A} (a : A) : keeps I (ret a).
Proof. by intros w r w' Hw [= <- <-]. Qed.

Lemma keeps_raise {A} (e : exn) : keeps I (@raise A e).
Proof. by intros w r w' Hw [= <- <-]. Qed.

Lemma keeps_bind {A B} (m : M A) (k : A → M B) :
  keeps I m → (∀ a, keeps I (k a)) → keeps I (bind m k).
Proof.
  intros Hm Hk w r w' Hw Hrun.
  apply bind_inv in Hrun as [(a & w1 & Hm1 & Hk1) | [(e & Hm1 & ->) | [Hm1 ->]]]; eauto.
  eapply Hk; [|done]. eauto.
Qed.

Lemma keeps_try_except {A} (body : M A) (cls : string) (handler : exn → M A) :
  keeps I body → (∀ e, keeps I (handler e)) → keeps I (try_except body cls handler).
Proof.
  intros Hbody Hhandler w r w' Hw. unfold try_except.
  destruct (body w) as [[a|e|] w1] eqn:Hrun; pose proof (Hbody _ _ _ Hw Hrun) as Hw1.
  - by intros [= <- <-].
  - destruct (resolve_class exception_classes cls) as [is_cls|]; [|by intros [= <- <-]].
    destruct (is_cls e); [|by intros [= <- <-]]. by apply Hhandler.
  - by intros [= <- <-].
Qed.

Lemma keeps_for_each {A} (l : list A) (body : A → M unit) :
  (∀ x, x ∈ l → keeps I (body x)) → keeps I (for_each l body).
Proof.
  induction l as [|x l IH]; intros Hbody; simpl; [apply keeps_ret|].
  apply keeps_bind; [apply Hbody; by left|]. intros _. apply IH.
  intros y Hy. apply Hbody. by right.
Qed.

Lemma keeps_for_break {A} (l : list A) (body : A → M bool) :
  (∀ x, x ∈ l → keeps I (body x)) → keeps I (for_break l body).
Proof.
  induction l as [|x l IH]; intros Hbody; simpl; [apply keeps_ret|].
  apply keeps_bind; [apply Hbody; by left|]. intros [|]; [apply keeps_ret|].
  apply IH. intros y Hy. apply Hbody. by right.
Qed.

(** A state transformer that always returns. *)
Lemma keeps_total {A} (m : M A) : (∀ w, I w → I (m w).2) → keeps I m.
Proof. intros H w r w' Hw Hrun. specialize (H w Hw). by rewrite Hrun in H. Qed.

End KeepsRules.

(** ** The operations *)

Section Keeps.
Context (env : site) (allowed : call → Prop) (mine : nat → Prop) (I : world → Prop).
Context (HI : closed allowed mine I).

Lemma keeps_st_write (s : string) : keeps I (st_write s).
Proof. apply keeps_total. intros w. apply HI. Qed.

Lemma keeps_print (s : string) : keeps I (print s).
Proof. apply keeps_total. intros w. apply HI. Qed.

Lemma keeps_record (c : call) : allowed c → keeps I (record c).
Proof. intros Hc. apply keeps_total. intros w. by apply HI. Qed.

Lemma keeps_time_time : keeps I time_time.
Proof. by apply keeps_total. Qed.

Lemma keeps_time_sleep (n : Z) : keeps I (time_sleep n).
Proof.
  apply keeps_total. intros w Hw. simpl. unfold settle.
  apply HI, HI. by apply HI.
Qed.

Lemma keeps_os_path_isdir_root : keeps I os_path_isdir_root.
Proof. by apply keeps_total. Qed.

Lemma keeps_os_makedirs (name : string) : keeps I (os_makedirs name).
Proof.
  apply keeps_total. intros w Hw. unfold os_makedirs.
  destruct (root w) as [r|]; [destruct (r !! name) as [[?|?]|]|]; simpl; try done;
    by apply HI.
Qed.

Lemma keeps_os_path_exists_dir (name : string) : keeps I (os_path_exists_dir name).
Proof. by apply keeps_total. Qed.

Lemma keeps_os_listdir (name : string) : keeps I (os_listdir name).
Proof.
  apply keeps_total. intros w Hw. unfold os_listdir.
  destruct (root w) as [r|]; [destruct (r !! name) as [[?|?]|]|]; done.
Qed.

Lemma keeps_os_path_isfile (name file : string) : keeps I (os_path_isfile name file).
Proof. by apply keeps_total. Qed.

Lemma keeps_os_path_exists (name file : string) : keeps I (os_path_exists name file).
Proof. by apply keeps_total. Qed.

Lemma keeps_any_isfile (directory : string) (names : list string) :
  keeps I (any_isfile directory names).
Proof. by apply keeps_total. Qed.

Lemma keeps_os_rename (name src dst : string) :
  allowed (Rename name src dst) → keeps I (os_rename name src dst).
Proof.
  intros Hc. apply keeps_total. intros w Hw. unfold os_rename.
  destruct (root w) as [r|]; [|done].
  destruct (folder w name) as [entries|]; [|done].
  destruct (entries !! src); [|done]. simpl.
  apply (closed_calls _ _ _ HI (set_root _ w)); [done|]. by apply HI.
Qed.

Lemma keeps_read_file (name file : string) : keeps I (read_file name file).
Proof.
  apply keeps_total. intros w Hw. unfold read_file.
  destruct (folder w name) as [entries|]; [destruct (entries !! file)|]; done.
Qed.

Lemma keeps_write_file (name file content : string) : keeps I (write_file name file content).
Proof.
  apply keeps_total. intros w Hw. unfold write_file.
  destruct (root w) as [r|]; [|done].
  destruct (folder w name) as [entries|]; [|done]. simpl. by apply HI.
Qed.

Lemma keeps_get_driver : keeps I get_driver.
Proof.
  apply keeps_total. intros w Hw. unfold get_driver. by destruct (driver w).
Qed.

Lemma keeps_the_session (sid : nat) : keeps I (the_session sid).
Proof.
  apply keeps_total. intros w Hw. unfold the_session. by destruct (browsers w !! sid).
Qed.

(** The operations on a session change it only if it is open. *)
Lemma keeps_with_session {A} (sid : nat) (k : session → M A) :
  (∀ s w, I w → browsers w !! sid = Some s → ∀ r w', k s w = (r, w') → I w') →
  keeps I (bind (the_session sid) k).
Proof.
  intros Hk w r w' Hw. unfold bind, the_session.
  destruct (browsers w !! sid) as [s|] eqn:Hs; [|by intros [= <- <-]].
  by apply Hk.
Qed.

Lemma keeps_driver_get (sid : nat) (url : string) :
  allowed (Get sid url) → mine sid → keeps I (driver_get env sid url).
Proof.
  intros Hc Hmine. unfold driver_get. apply keeps_with_session.
  intros s w Hw Hs r w'. unfold bind, record.
  destruct (load_fails env url).
  - intros [= <- <-]. by apply HI.
  - intros [= <- <-].
    apply (closed_session _ _ _ HI (set_calls _ w)); [done | simpl; rewrite Hs; by eexists |]. by apply HI.
Qed.

Lemma keeps_driver_page_source (sid : nat) : keeps I (driver_page_source env sid).
Proof.
  unfold driver_page_source. apply keeps_bind; [apply keeps_the_session|].
  intros s. apply keeps_ret.
Qed.

Lemma keeps_find_element (sid : nat) (xpath : string) :
  allowed (FindElement sid xpath) → keeps I (find_element env sid xpath).
Proof.
  intros Hc. unfold find_element. apply keeps_bind; [apply keeps_the_session|].
  intros s. apply keeps_bind; [by apply keeps_record|]. intros _.
  destruct (has_element env (page s) xpath); [apply keeps_ret | apply keeps_raise].
Qed.

(** [element = driver.find_element(...)] followed by a use of the element *)
Lemma keeps_bind_find_element {B} (sid : nat) (xpath : string) (k : string → M B) :
  allowed (FindElement sid xpath) →
  keeps I (k xpath) →
  keeps I (bind (find_element env sid xpath) k).
Proof.
  intros Hc Hk w r w' Hw Hrun.
  apply bind_inv in Hrun as [(a & w1 & Hm1 & Hk1) | [(e & Hm1 & ->) | [Hm1 ->]]].
  - assert (a = xpath) as ->.
    { unfold find_element, bind, the_session, record in Hm1.
      destruct (browsers w !! sid); [|done].
      destruct (has_element env _ xpath); by inversion Hm1. }
    eapply Hk; [|done]. by eapply keeps_find_element.
  - by eapply keeps_find_element.
  - by eapply keeps_find_element.
Qed.

Lemma keeps_click (sid : nat) (element : string) :
  allowed (Click sid element) → mine sid → keeps I (click env sid element).
Proof.
  intros Hc Hmine. unfold click. apply keeps_with_session.
  intros s w Hw Hs r w'. unfold bind, record.
  assert (I (set_browsers
               (<[sid := Session (page s) (element :: clicked s) (download_dir s)]>
                  (browsers (set_calls (calls w ++ [Click sid element]) w)))
               (set_calls (calls w ++ [Click sid element]) w))) as Hw'.
  { apply (closed_session _ _ _ HI (set_calls _ w)); [done | simpl; rewrite Hs; by eexists |]. by apply HI. }
  destruct (String.eqb element continue_xpath).
  - destruct (submit env (page s) (clicked s)) as [[[delay name] content]|];
      intros [= <- <-]; [|done]. by apply HI.
  - by intros [= <- <-].
Qed.

Lemma keeps_requests_get (url : string) :
  allowed (HttpGet url) → keeps I (requests_get env url).
Proof.
  intros Hc. unfold requests_get. apply keeps_bind; [by apply keeps_record|].
  intros _. destruct (http_get env url); [apply keeps_ret | apply keeps_raise].
Qed.

Lemma keeps_pd_read_excel (url : string) :
  allowed (ReadExcel url) → keeps I (pd_read_excel env url).
Proof.
  intros Hc. unfold pd_read_excel. apply keeps_bind; [by apply keeps_record|].
  intros _. destruct (read_excel env url); [apply keeps_ret | apply keeps_raise].
Qed.

Lemma keeps_pd_read_csv (directory file_name : string) :
  keeps I (pd_read_csv env directory file_name).
Proof.
  unfold pd_read_csv. apply keeps_bind; [apply keeps_read_file|].
  intros content. destruct (read_dat env content); [apply keeps_raise | apply keeps_ret].
Qed.

Lemma keeps_first_workbook (links : list string) :
  (∀ url, allowed (ReadExcel url)) → keeps I (first_workbook env links).
Proof.
  intros Hc. induction links as [|file_url links IH]; simpl; [apply keeps_ret|].
  destruct (negb (String.eqb file_url "") && search_xlsx file_url); [|done].
  apply keeps_bind; [apply keeps_print|]. intros _.
  apply keeps_bind; [by apply keeps_pd_read_excel|]. intros df. apply keeps_ret.
Qed.

Lemma keeps_district_type_scraper (year : Z) :
  allowed (HttpGet (district_type_url year)) →
  (∀ url, allowed (ReadExcel url)) →
  keeps I (district_type_scraper env year).
Proof.
  intros Hget Hread. unfold district_type_scraper. fold (district_type_url year).
  apply keeps_try_except.
  - apply keeps_bind; [by apply keeps_requests_get|]. intros [status_code links].
    destruct (negb (status_code =? 200)%Z).
    + apply keeps_bind; [apply keeps_print|]. intros _. apply keeps_ret.
    + apply keeps_bind; [by apply keeps_first_workbook|]. intros [df|]; [apply keeps_ret|].
      apply keeps_bind; [apply keeps_print|]. intros _. apply keeps_ret.
  - intros e. apply keeps_bind; [apply keeps_print|]. intros _. apply keeps_ret.
Qed.

Lemma keeps_wait_loop (fuel : nat) (start_time timeout : Z) (expected : list string)
    (year : Z) (directory : string) (check : Z) :
  keeps I (wait_loop fuel start_time timeout expected year directory check).
Proof.
  revert check. induction fuel as [|fuel IH]; intros check; simpl.
  - by apply keeps_total.
  - apply keeps_bind; [apply keeps_time_time|]. intros t.
    destruct (t - start_time <? timeout)%Z; [|apply keeps_ret].
    apply keeps_bind; [apply keeps_os_listdir|]. intros downloaded_files.
    destruct (all_downloaded expected downloaded_files).
    + apply keeps_bind; [apply keeps_st_write|]. intros _. apply keeps_ret.
    + apply keeps_bind.
      { destruct (check =? 1)%Z; [apply keeps_st_write | apply keeps_ret]. }
      intros _. apply keeps_bind; [apply keeps_time_sleep|]. intros _. apply IH.
Qed.

Lemma keeps_wait_for_downloads (variables : list string) (year : Z) (directory : string)
    (timeout : Z) :
  keeps I (wait_for_downloads variables year directory timeout).
Proof.
  unfold wait_for_downloads. apply keeps_bind; [apply keeps_time_time|].
  intros start_time. apply keeps_wait_loop.
Qed.

Lemma keeps_file_renamer (directory : string) (year : Z) (prefix var level : string) :
  (∀ ext src, ext ∈ [".csv"; ".dat"] → src ∈ old_patterns prefix level var ext →
     allowed (Rename directory src (new_pattern prefix level var year ext))) →
  keeps I (file_renamer directory year prefix var level).
Proof.
  intros Hc. unfold file_renamer. apply keeps_for_each. intros ext Hext.
  apply keeps_for_break. intros old_pattern Hold.
  apply keeps_bind; [apply keeps_os_path_exists|]. intros [|]; [|apply keeps_ret].
  apply keeps_bind; [by apply keeps_os_rename, Hc|]. intros _. apply keeps_ret.
Qed.

Lemma keeps_convert_dat_to_csv (directory : string) :
  keeps I (convert_dat_to_csv env directory).
Proof.
  unfold convert_dat_to_csv. apply keeps_bind; [apply keeps_os_path_exists_dir|].
  intros found. destruct (negb found); [apply keeps_st_write|].
  apply keeps_bind; [apply keeps_os_listdir|]. intros file_names.
  apply keeps_for_each. intros file_name _.
  destruct (endswith file_name ".dat"); [|apply keeps_ret].
  apply keeps_try_except.
  - apply keeps_bind; [apply keeps_pd_read_csv|]. intros df.
    apply keeps_bind; [apply keeps_write_file|]. intros _. apply keeps_st_write.
  - intros e. apply keeps_st_write.
Qed.

Lemma keeps_district_type_step (full_dir_path level : string) (dist_type : bool) (year : Z) :
  (String.eqb level "D" && dist_type = true →
     allowed (HttpGet (district_type_url year)) ∧ ∀ url, allowed (ReadExcel url)) →
  keeps I (district_type_step env full_dir_path level dist_type year).
Proof.
  intros Hc. unfold district_type_step.
  destruct (String.eqb level "D" && dist_type); [|apply keeps_ret].
  destruct (Hc eq_refl) as [Hget Hread].
  apply keeps_bind; [apply keeps_st_write|]. intros _.
  apply keeps_bind; [apply keeps_os_path_isfile|]. intros [|].
  - apply keeps_bind; [apply keeps_st_write|]. intros _.
    apply keeps_bind; [apply keeps_st_write|]. intros _. apply keeps_ret.
  - apply keeps_bind; [by apply keeps_district_type_scraper|]. intros [df|].
    + apply keeps_bind; [apply keeps_write_file|]. intros _.
      apply keeps_bind; [apply keeps_st_write|]. intros _.
      apply keeps_bind; [apply keeps_st_write|]. intros _. apply keeps_ret.
    + apply keeps_bind; [apply keeps_st_write|]. intros _. apply keeps_ret.
Qed.

(** From here on the variable [driver] is read: the session it names has to
    be one the invariant lets change. *)
Context (drives : ∀ w sid, I w → driver w = Some sid → mine sid).

(** [driver.method(...)]: what follows is run for the session of [driver]. *)
Lemma keeps_bind_get_driver {B} (k : nat → M B) :
  (∀ sid, mine sid → keeps I (k sid)) → keeps I (bind get_driver k).
Proof.
  intros Hk w r w' Hw. unfold bind, get_driver.
  destruct (driver w) as [sid|] eqn:Hdriver; [|by intros [= <- <-]].
  apply Hk; [|done]. by eapply drives.
Qed.

Lemma keeps_download_variable (full_dir_path file_prefix level : string) (year : Z)
    (unavailable : list string) (var : string) :
  (∀ sid, allowed (FindElement sid (setpick_xpath var))) →
  (∀ sid, allowed (Click sid (setpick_xpath var))) →
  (∀ sid, allowed (FindElement sid continue_xpath)) →
  (∀ sid, allowed (Click sid continue_xpath)) →
  keeps I (download_variable env full_dir_path file_prefix level year unavailable var).
Proof.
  intros Hfind Hclick Hfind' Hclick'. unfold download_variable.
  apply keeps_bind; [apply keeps_st_write|]. intros _.
  apply keeps_bind; [apply keeps_any_isfile|]. intros [|].
  - apply keeps_bind; [apply keeps_st_write|]. intros _. apply keeps_ret.
  - apply keeps_try_except.
    + apply keeps_bind_get_driver. intros d Hd.
      apply keeps_bind_find_element; [done|].
      apply keeps_bind; [by apply keeps_click|]. intros _.
      apply keeps_bind; [apply keeps_time_sleep|]. intros _.
      apply keeps_bind_find_element; [done|].
      apply keeps_bind; [by apply keeps_click|]. intros _.
      apply keeps_bind; [apply keeps_st_write|]. intros _. apply keeps_ret.
    + intros e. apply keeps_bind; [apply keeps_st_write|]. intros _. apply keeps_ret.
Qed.

Lemma keeps_download_variables (full_dir_path file_prefix level : string) (year : Z)
    (variables : list string) (unavailable : list string) :
  (∀ var sid, var ∈ variables → allowed (FindElement sid (setpick_xpath var))) →
  (∀ var sid, var ∈ variables → allowed (Click sid (setpick_xpath var))) →
  (∀ sid, allowed (FindElement sid continue_xpath)) →
  (∀ sid, allowed (Click sid continue_xpath)) →
  keeps I (download_variables env full_dir_path file_prefix level year unavailable variables).
Proof.
  intros Hfind Hclick Hfind' Hclick'. revert unavailable.
  induction variables as [|var variables IH]; intros unavailable; simpl; [apply keeps_ret|].
  apply keeps_bind.
  - apply keeps_download_variable; auto; intros sid; [apply Hfind | apply Hclick]; by left.
  - intros unavailable'. apply IH.
    + intros v sid Hv. apply Hfind. by right.
    + intros v sid Hv. apply Hclick. by right.
Qed.

End Keeps.

(** ** The calls of a run *)

Section CallsOfARun.
Context (env : site) (before : list call) (allowed : call → Prop).

Local Abbreviation I := (calls_since before allowed).

Lemma calls_since_same (w w' : world) : calls w' = calls w → I w → I w'.
Proof. intros Hcalls (cs & Hcs & Hok). exists cs. by rewrite Hcalls. Qed.

Lemma calls_since_one (w w' : world) (c : call) :
  calls w' = (calls w ++ [c])%list → allowed c → I w → I w'.
Proof.
  intros Hcalls Hc (cs & Hcs & Hok). exists (cs ++ [c])%list.
  rewrite Hcalls, Hcs, app_assoc. split; [done|]. apply Forall_app. split; [done|].
  by constructor.
Qed.

Lemma calls_since_closed : closed allowed (λ _, True) I.
Proof.
  split; intros; first [ by eapply calls_since_one | by eapply calls_since_same ].
Qed.

Lemma keeps_calls_webdriver_Chrome (download_directory : string) :
  (∀ sid, allowed (Launch sid)) → keeps I (webdriver_Chrome env download_directory).
Proof.
  intros Hc. apply keeps_total. intros w Hw. unfold webdriver_Chrome.
  destruct (chrome_fails env (next_sid w)); [done|]. simpl.
  by eapply calls_since_one.
Qed.

Lemma keeps_calls_driver_quit (sid : nat) : allowed (Quit sid) → keeps I (driver_quit sid).
Proof.
  intros Hc. unfold driver_quit. apply keeps_bind.
  - by apply (keeps_record allowed (λ _, True) I calls_since_closed).
  - intros _. apply keeps_total. intros w Hw. by eapply calls_since_same.
Qed.

Lemma keeps_calls_open_year_page (full_dir_path level : string) (year : Z) :
  (∀ sid, allowed (Launch sid)) →
  (∀ sid, allowed (Quit sid)) →
  (∀ sid, allowed (Get sid (tapr_url year))) →
  (∀ sid, allowed (FindElement sid (level_xpath level))) →
  (∀ sid, allowed (Click sid (level_xpath level))) →
  keeps I (open_year_page env full_dir_path level year).
Proof.
  intros Hlaunch Hquit Hget Hfind Hclick.
  pose proof calls_since_closed as HI.
  unfold open_year_page. fold (tapr_url year). apply keeps_try_except.
  - apply keeps_bind; [by apply keeps_calls_webdriver_Chrome|]. intros _.
    apply (keeps_bind_get_driver (λ _, True)); [done|]. intros d _.
    apply keeps_bind; [by eapply keeps_driver_get|]. intros _.
    apply keeps_bind.
    { apply keeps_bind; [by eapply keeps_driver_page_source|]. intros source.
      destruct (contains "Page Not Found" source); [apply keeps_ret|].
      apply keeps_bind; [by eapply keeps_driver_page_source|]. intros source'.
      apply keeps_ret. }
    intros [|].
    + apply keeps_bind; [by eapply keeps_st_write|]. intros _.
      apply keeps_bind; [by apply keeps_calls_driver_quit|]. intros _. apply keeps_ret.
    + eapply keeps_bind_find_element; [done | done |].
      apply keeps_bind; [by eapply keeps_click|]. intros _. apply keeps_ret.
  - intros e. apply keeps_bind; [by eapply keeps_print|]. intros _.
    apply (keeps_bind_get_driver (λ _, True)); [done|]. intros d _.
    apply keeps_bind; [by apply keeps_calls_driver_quit|]. intros _. apply keeps_ret.
Qed.

End CallsOfARun.

Section Footprint.
Context (env : site) (directory_path : string) (years : list Z) (variables : list string).
Context (level file_prefix : string) (dist_type : bool) (before : list call).

Local Abbreviation allowed :=
  (footprint directory_path years variables level file_prefix dist_type).
Local Abbreviation I := (calls_since before allowed).

Lemma keeps_calls_process_year (level_name : string) (year : Z) :
  year ∈ years →
  keeps I (process_year env directory_path variables level level_name file_prefix
             dist_type year).
Proof.
  intros Hyear. pose proof (calls_since_closed before allowed) as HI.
  unfold process_year. fold (year_folder directory_path year).
  apply keeps_bind; [by eapply keeps_os_makedirs|]. intros _.
  apply keeps_bind.
  { apply keeps_calls_open_year_page; simpl; eauto. }
  intros [|]; [|apply keeps_ret]. simpl.
  apply keeps_bind; [by eapply keeps_st_write|]. intros _.
  apply keeps_bind.
  { eapply keeps_download_variables; [exact HI | done | simpl; eauto 6..]. }
  intros unavailable.
  apply keeps_bind; [by eapply keeps_wait_for_downloads|]. intros [|].
  - apply keeps_bind.
    { apply keeps_for_each. intros a_var Ha_var.
      eapply keeps_file_renamer; [exact HI|]. intros ext src Hext Hsrc. simpl.
      exists year, a_var, ext. repeat split; try done.
      apply elem_of_elements, elem_of_difference in Ha_var as [Ha_var _].
      by apply elem_of_list_to_set in Ha_var. }
    intros _. apply (keeps_bind_get_driver (λ _, True)); [done|]. intros d _.
    apply keeps_bind; [by apply keeps_calls_driver_quit|]. intros _.
    apply keeps_bind.
    { eapply keeps_district_type_step; [exact HI|].
      intros [Hlevel ->]%andb_true_iff. apply String.eqb_eq in Hlevel as ->.
      simpl. eauto 8. }
    intros [|]; [by eapply keeps_convert_dat_to_csv | apply keeps_ret].
  - apply keeps_bind; [apply keeps_ret|].
    intros _. apply (keeps_bind_get_driver (λ _, True)); [done|]. intros d _.
    apply keeps_bind; [by apply keeps_calls_driver_quit|]. intros _.
    apply keeps_bind.
    { eapply keeps_district_type_step; [exact HI|].
      intros [Hlevel ->]%andb_true_iff. apply String.eqb_eq in Hlevel as ->.
      simpl. eauto 8. }
    intros [|]; [by eapply keeps_convert_dat_to_csv | apply keeps_ret].
Qed.

Lemma keeps_calls_tea_scraper :
  dict_get file_prefixes level = Some file_prefix →
  keeps I (tea_scraper env directory_path years variables level dist_type).
Proof.
  intros Hprefix. pose proof (calls_since_closed before allowed) as HI.
  unfold tea_scraper. rewrite Hprefix.
  apply keeps_bind; [by eapply keeps_os_path_isdir_root|]. intros is_dir.
  destruct (negb is_dir); [by eapply keeps_print|].
  apply keeps_bind; [by eapply keeps_print|]. intros _.
  destruct (dict_get valid_levels level) as [level_name|]; [|apply keeps_raise].
  apply keeps_bind; [|intros _; by eapply keeps_st_write].
  apply keeps_for_each. intros year Hyear. by apply keeps_calls_process_year.
Qed.

End Footprint.

Lemma tea_scraper_footprint (env : site) (directory_path : string) (years : list Z)
    (variables : list string) (level file_prefix : string) (dist_type : bool) (w : world) :
  dict_get file_prefixes level = Some file_prefix →
  ∃ cs,
    calls (tea_scraper env directory_path years variables level dist_type w).2
      = (calls w ++ cs)%list
    ∧ Forall (footprint directory_path years variables level file_prefix dist_type) cs.
Proof.
  intros Hprefix.
  destruct (tea_scraper env directory_path years variables level dist_type w)
    as [r w'] eqn:Hrun.
  apply (keeps_calls_tea_scraper env directory_path years variables level file_prefix
           dist_type (calls w) Hprefix w r w'); [|done].
  exists []. by rewrite app_nil_r.
Qed.

(** X18.  A run stays with the years and variables it was given: it
    navigates only to the download pages of requested years; the only
    elements it looks up or clicks are the radio button of the level, the
    radio buttons of requested variables and the Continue button; and it
    renames only inside the folder of a requested year, from a name the
    site gives a requested variable to the name of that variable with that
    year. *)
Theorem tea_scraper_stays_with_its_arguments (env : site) (directory_path : string)
    (years : list Z) (variables : list string) (level file_prefix : string)
    (dist_type : bool) (w : world) :
  dict_get file_prefixes level = Some file_prefix →
  ∃ cs,
    calls (tea_scraper env directory_path years variables level dist_type w).2
      = (calls w ++ cs)%list
    ∧ (∀ sid url, Get sid url ∈ cs → ∃ year, year ∈ years ∧ url = tapr_url year)
    ∧ (∀ sid xpath, FindElement sid xpath ∈ cs ∨ Click sid xpath ∈ cs →
         xpath = level_xpath level ∨ xpath = continue_xpath
         ∨ ∃ var, var ∈ variables ∧ xpath = setpick_xpath var)
    ∧ (∀ directory src dst, Rename directory src dst ∈ cs →
         ∃ year var ext,
           year ∈ years ∧ var ∈ variables ∧ ext ∈ [".csv"; ".dat"]
           ∧ directory = year_folder directory_path year
           ∧ src ∈ old_patterns file_prefix level var ext
           ∧ dst = new_pattern file_prefix level var year ext).
Proof.
  intros Hprefix.
  destruct (tea_scraper_footprint env directory_path years variables level file_prefix
              dist_type w Hprefix) as (cs & Hcs & Hok).
  exists cs. split; [done|]. rewrite Forall_forall in Hok. repeat split.
  - intros sid url Hin. exact (Hok _ Hin).
  - intros sid xpath [Hin|Hin]; exact (Hok _ Hin).
  - intros directory src dst Hin. exact (Hok _ Hin).
Qed.

Lemma tea_scraper_stays_with_its_arguments_witness :
  ∃ cs,
    calls (tea_scraper (portal "DIST") "/data" [2021] ["GRAD"] "D" true left_behind).2
      = (calls left_behind ++ cs)%list
    ∧ (∀ sid url, Get sid url ∈ cs → ∃ year, year ∈ [2021] ∧ url = tapr_url year)
    ∧ (∀ sid xpath, FindElement sid xpath ∈ cs ∨ Click sid xpath ∈ cs →
         xpath = level_xpath "D" ∨ xpath = continue_xpath
         ∨ ∃ var, var ∈ ["GRAD"] ∧ xpath = setpick_xpath var)
    ∧ (∀ directory src dst, Rename directory src dst ∈ cs →
         ∃ year var ext,
           year ∈ [2021] ∧ var ∈ ["GRAD"] ∧ ext ∈ [".csv"; ".dat"]
           ∧ directory = year_folder "/data" year
           ∧ src ∈ old_patterns "DIST" "D" var ext
           ∧ dst = new_pattern "DIST" "D" var year ext).
Proof.
  apply (tea_scraper_stays_with_its_arguments (portal "DIST") "/data" [2021] ["GRAD"] "D"
           "DIST" true left_behind).
  reflexivity.
Defined.

(** X19.  The district type page is left alone unless the level is D and
    the district type data is wanted: otherwise a run makes no request to it
    and reads no workbook. *)
Theorem district_type_only_for_districts (env : site) (directory_path : string)
    (years : list Z) (variables : list string) (level : string) (dist_type : bool)
    (w : world) :
  level ≠ "D" ∨ dist_type = false →
  ∃ cs,
    calls (tea_scraper env directory_path years variables level dist_type w).2
      = (calls w ++ cs)%list
    ∧ ∀ url, (HttpGet url ∉ cs) ∧ (ReadExcel url ∉ cs).
Proof.
  intros Hnot.
  destruct (dict_get file_prefixes level) as [file_prefix|] eqn:Hprefix.
  - destruct (tea_scraper_footprint env directory_path years variables level file_prefix
                dist_type w Hprefix) as (cs & Hcs & Hok).
    exists cs. split; [done|]. rewrite Forall_forall in Hok.
    intros url. split; intros Hin; apply Hok in Hin; simpl in Hin;
      destruct Hnot as [Hlevel | ->]; destruct Hin as [Hlevel' Hdist];
      try done; by destruct Hdist.
  - exists []. rewrite app_nil_r. split; [|intros url; split; apply not_elem_of_nil].
    unfold tea_scraper, bind, os_path_isdir_root, print.
    destruct (negb (bool_decide (is_Some (root w)))); [done|].
    destruct (dict_get valid_levels level); [|done]. by rewrite Hprefix.
Qed.

Lemma district_type_only_for_districts_witness :
  ∃ cs,
    calls (tea_scraper (portal "CAMP") "/data" [2021] ["GRAD"] "C" true empty_disk).2
      = (calls empty_disk ++ cs)%list
    ∧ ∀ url, (HttpGet url ∉ cs) ∧ (ReadExcel url ∉ cs).
Proof.
  apply (district_type_only_for_districts (portal "CAMP") "/data" [2021] ["GRAD"] "C" true
           empty_disk).
  left. discriminate.
Defined.

(** ** The browser sessions of a run *)

(** From [bind m k w = (Ok b, w')]: [m] returned and [k] went on. *)
Ltac bind_ok H a w1 H1 :=
  apply bind_inv in H as [(a & w1 & H1 & H) | [(? & _ & [=]) | [_ [=]]]].

Lemma session_of_year_closed (others : gmap nat session) (sid : nat) :
  closed (λ _, True) (λ s, s = sid) (session_of_year others sid).
Proof.
  split; try (by intros w ? (? & ? & ?)); try (by intros w ? ? (? & ? & ?)).
  intros w sid' s -> _ (Hdriver & Hothers & Hnext). split; [done|]. split; [|done].
  simpl. by rewrite delete_insert_eq.
Qed.

Lemma session_of_year_drives (others : gmap nat session) (sid : nat) (w : world)
    (sid' : nat) :
  session_of_year others sid w → driver w = Some sid' → sid' = sid.
Proof. intros (Hdriver & _) Hdriver'. congruence. Qed.

Lemma sessions_settled_closed (others : gmap nat session) (n : nat) :
  closed (λ _, True) (λ _, False) (sessions_settled others n).
Proof. split; try done; by intros w ? ? []. Qed.

Section Sessions.
Context (env : site).

(** The [try] of lines 263-280, when it does not raise: either the year is
    skipped and its session is quit, or the session of the year is open and
    is the one of [driver]. *)
Lemma open_year_page_sessions (full_dir_path level : string) (year : Z) (w : world)
    (loaded : bool) (w' : world) :
  browsers w !! next_sid w = None →
  open_year_page env full_dir_path level year w = (Ok loaded, w') →
  if loaded then session_of_year (browsers w) (next_sid w) w'
  else sessions_settled (browsers w) (S (next_sid w)) w'.
Proof.
  intros Hfresh. unfold open_year_page, try_except.
  match goal with |- context [match ?body w with _ => _ end] =>
    destruct (body w) as [[a|e|] w1] eqn:Hbody end; [|done|done].
  intros [= -> ->].
  pose proof (session_of_year_closed (browsers w) (next_sid w)) as HI.
  pose proof (session_of_year_drives (browsers w) (next_sid w)) as Hdrives.
  bind_ok Hbody u wa Hchrome.
  assert (session_of_year (browsers w) (next_sid w) wa) as Hwa.
  { unfold webdriver_Chrome in Hchrome. destruct (chrome_fails env (next_sid w)); [done|].
    injection Hchrome as _ <-. split; [done|]. split; [|done]. simpl.
    by apply delete_insert_id. }
  bind_ok Hbody d wb Hdriver.
  assert (d = next_sid w ∧ wb = wa) as [-> ->].
  { unfold get_driver in Hdriver. destruct Hwa as (Hd & _). rewrite Hd in Hdriver.
    by injection Hdriver as <- <-. }
  bind_ok Hbody u' wc Hget.
  assert (session_of_year (browsers w) (next_sid w) wc) as Hwc
    by (eapply (keeps_driver_get env _ _ _ HI); [done | done | exact Hwa | exact Hget]).
  bind_ok Hbody not_found wd Hsource.
  assert (session_of_year (browsers w) (next_sid w) wd) as Hwd.
  { revert Hsource. apply keeps_bind; [by eapply keeps_driver_page_source | | exact Hwc].
    intros source. destruct (contains "Page Not Found" source); [apply keeps_ret|].
    apply keeps_bind; [by eapply keeps_driver_page_source|]. intros source'. apply keeps_ret. }
  destruct not_found.
  - bind_ok Hbody u'' we Hwrite.
    assert (session_of_year (browsers w) (next_sid w) we) as (_ & Hothers & Hnext)
      by (eapply (keeps_st_write _ _ _ HI); [exact Hwd | exact Hwrite]).
    bind_ok Hbody u''' wf Hquit.
    injection Hbody as <- <-.
    unfold driver_quit, bind, record in Hquit. injection Hquit as _ <-.
    split; [|done]. exact Hothers.
  - assert (session_of_year (browsers w) (next_sid w) w') as Hw'.
    { revert Hbody. eapply keeps_bind_find_element; [exact HI | done | | exact Hwd].
      apply keeps_bind; [by eapply keeps_click|]. intros _. apply keeps_ret. }
    bind_ok Hbody level_select we Hfind. bind_ok Hbody u'' wf Hclick.
    by injection Hbody as <- <-.
Qed.

(** One year, when nothing is raised: the open sessions are afterwards what
    they were before, and one session number has been used. *)
Lemma process_year_sessions (directory_path : string) (variables : list string)
    (level level_name file_prefix : string) (dist_type : bool) (year : Z) (w w' : world) :
  browsers w !! next_sid w = None →
  process_year env directory_path variables level level_name file_prefix dist_type year w
  = (Ok tt, w') →
  sessions_settled (browsers w) (S (next_sid w)) w'.
Proof.
  intros Hfresh Hrun. unfold process_year in Hrun.
  pose proof (sessions_settled_closed (browsers w) (next_sid w)) as Hsettled.
  bind_ok Hrun u w1 Hmk.
  assert (sessions_settled (browsers w) (next_sid w) w1) as [Hb1 Hn1]
    by (eapply (keeps_os_makedirs _ _ _ Hsettled); [|exact Hmk]; done).
  bind_ok Hrun loaded w2 Hopen.
  apply open_year_page_sessions in Hopen; [|by rewrite Hb1, Hn1].
  rewrite Hb1, Hn1 in Hopen.
  destruct loaded; simpl in Hrun; [|by injection Hrun as <-].
  pose proof (session_of_year_closed (browsers w) (next_sid w)) as HI.
  pose proof (session_of_year_drives (browsers w) (next_sid w)) as Hdrives.
  bind_ok Hrun u' w3 Hwrite.
  assert (session_of_year (browsers w) (next_sid w) w3) as Hw3
    by (eapply (keeps_st_write _ _ _ HI); [exact Hopen | exact Hwrite]).
  bind_ok Hrun unavailable w4 Hvars.
  assert (session_of_year (browsers w) (next_sid w) w4) as Hw4
    by (eapply (keeps_download_variables env _ _ _ HI Hdrives); [done.. | exact Hw3 | exact Hvars]).
  bind_ok Hrun downloaded w5 Hwait.
  assert (session_of_year (browsers w) (next_sid w) w5) as Hw5
    by (eapply (keeps_wait_for_downloads _ _ _ HI); [exact Hw4 | exact Hwait]).
  bind_ok Hrun u'' w6 Hrename.
  assert (session_of_year (browsers w) (next_sid w) w6) as (Hd6 & Hothers6 & Hn6).
  { revert Hrename. destruct downloaded; [|by intros [= _ <-]].
    apply keeps_for_each; [|exact Hw5]. intros a_var _.
    by eapply (keeps_file_renamer _ _ _ HI). }
  bind_ok Hrun d w7 Hdriver.
  unfold get_driver in Hdriver. rewrite Hd6 in Hdriver. injection Hdriver as <- <-.
  bind_ok Hrun u''' w8 Hquit.
  assert (sessions_settled (browsers w) (S (next_sid w)) w8) as Hw8.
  { unfold driver_quit, bind, record in Hquit. injection Hquit as _ <-. by split. }
  pose proof (sessions_settled_closed (browsers w) (S (next_sid w))) as Hsettled'.
  bind_ok Hrun go_on w9 Hdistrict.
  assert (sessions_settled (browsers w) (S (next_sid w)) w9) as Hw9
    by (eapply (keeps_district_type_step env _ _ _ Hsettled'); [done | exact Hw8 | exact Hdistrict]).
  destruct go_on; [|by injection Hrun as <-].
  by eapply (keeps_convert_dat_to_csv env _ _ _ Hsettled').
Qed.

Lemma years_sessions (directory_path : string) (variables : list string)
    (level level_name file_prefix : string) (dist_type : bool) (years : list Z)
    (w w' : world) :
  sessions_numbered w →
  for_each years
    (process_year env directory_path variables level level_name file_prefix dist_type) w
  = (Ok tt, w') →
  browsers w' = browsers w ∧ (next_sid w ≤ next_sid w')%nat.
Proof.
  revert w. induction years as [|year years IH]; intros w Hnumbered Hrun.
  - by injection Hrun as <-.
  - simpl in Hrun. bind_ok Hrun u w1 Hyear. destruct u.
    apply process_year_sessions in Hyear as [Hb1 Hn1].
    + apply IH in Hrun as [Hb Hn].
      * split; [congruence | lia].
      * intros sid Hsid. rewrite Hb1 in Hsid. apply Hnumbered in Hsid. lia.
    + destruct (browsers w !! next_sid w) eqn:Hlookup; [|done].
      assert (next_sid w < next_sid w)%nat; [|lia]. apply Hnumbered. by rewrite Hlookup.
Qed.

(** X20.  A run that returns normally has quit every session it opened:
    the sessions open afterwards are exactly those that were open before --
    whichever years were skipped, whatever was downloaded or timed out. *)
Theorem tea_scraper_quits_its_sessions (directory_path : string) (years : list Z)
    (variables : list string) (level : string) (dist_type : bool) (w w' : world) :
  sessions_numbered w →
  tea_scraper env directory_path years variables level dist_type w = (Ok tt, w') →
  browsers w' = browsers w.
Proof.
  intros Hnumbered Hrun. unfold tea_scraper in Hrun.
  bind_ok Hrun is_dir w1 Hdir. injection Hdir as <- <-.
  destruct (negb _); [by injection Hrun as <-|].
  bind_ok Hrun u w2 Hprint. injection Hprint as _ <-.
  destruct (dict_get valid_levels level) as [level_name|]; [|done].
  destruct (dict_get file_prefixes level) as [file_prefix|]; [|done].
  bind_ok Hrun u' w3 Hyears. injection Hrun as <-. destruct u'.
  apply years_sessions in Hyears as [Hb _]; [|exact Hnumbered]. exact Hb.
Qed.

End Sessions.

Lemma tea_scraper_quits_its_sessions_witness :
  browsers (tea_scraper (portal "DIST") "/data" [2021; 2022] ["GRAD"; "REF"] "D" true
              empty_disk).2
  = browsers empty_disk.
Proof.
  apply (tea_scraper_quits_its_sessions (portal "DIST") "/data" [2021; 2022] ["GRAD"; "REF"]
           "D" true empty_disk).
  - intros sid [s Hs]. simpl in Hs. by rewrite lookup_empty in Hs.
  - vm_compute. reflexivity.
Defined.

(** ** A year without a page, a folder that cannot be made *)

Lemma os_makedirs_ok (name : string) (w : world) :
  (∀ r content, root w = Some r → r !! name ≠ Some (File content)) →
  ∃ w1,
    os_makedirs name w = (Ok tt, w1)
    ∧ is_Some (folder w1 name)
    ∧ (∀ directory file, is_file w1 directory file = is_file w directory file)
    ∧ w1 = set_root (root w1) w.
Proof.
  intros Hfile. unfold os_makedirs. destruct (root w) as [r|] eqn:Hr.
  - destruct (r !! name) as [[content|entries]|] eqn:Hname.
    + by destruct (Hfile r content).
    + exists w. split; [done|]. split; [|split; [done|]].
      * unfold folder. rewrite Hr, Hname. eauto.
      * destruct w. simpl in *. by rewrite Hr.
    + eexists. split; [reflexivity|]. split; [|split; [|done]].
      * unfold folder. simpl. rewrite lookup_insert_eq. eauto.
      * intros directory file. unfold is_file, folder. simpl. rewrite Hr.
        destruct (decide (name = directory)) as [<-|Hne].
        -- rewrite lookup_insert_eq, Hname. simpl.
           apply bool_decide_eq_false_2. rewrite lookup_empty. by intros [? ?].
        -- by rewrite lookup_insert_ne.
  - eexists. split; [reflexivity|]. split; [|split; [|done]].
    + unfold folder. simpl. rewrite lookup_singleton_eq. eauto.
    + intros directory file. unfold is_file, folder. simpl. rewrite Hr.
      destruct (decide (name = directory)) as [<-|Hne].
      * rewrite lookup_singleton_eq. simpl.
        apply bool_decide_eq_false_2. rewrite lookup_empty. by intros [? ?].
      * by rewrite lookup_singleton_ne.
Qed.

Section SkippedYear.
Context (env : site).

Lemma open_year_page_not_found (full_dir_path level : string) (year : Z) (w : world) :
  chrome_fails env (next_sid w) = false →
  load_fails env (tapr_url year) = false →
  contains "Page Not Found" (page_source env (tapr_url year))
  || contains "404" (page_source env (tapr_url year)) = true →
  ∃ w',
    open_year_page env full_dir_path level year w = (Ok false, w')
    ∧ calls w'
      = (calls w ++ [Launch (next_sid w); Get (next_sid w) (tapr_url year);
                     Quit (next_sid w)])%list
    ∧ console w'
      = (console w
         ++ [StWrite ("Year " ++ str_int year ++ " does not exist. Skipping...")])%list
    ∧ root w' = root w
    ∧ now w' = now w.
Proof.
  intros Hchrome Hload Hnot_found.
  unfold open_year_page, try_except. fold (tapr_url year).
  unfold bind at 1. unfold webdriver_Chrome. rewrite Hchrome.
  unfold bind at 1. unfold get_driver at 1. cbn [driver set_driver].
  unfold bind at 1. unfold driver_get, bind at 1, the_session at 1.
  cbn [browsers set_driver set_next_sid set_browsers]. rewrite lookup_insert_eq.
  unfold bind at 1. unfold record at 1. rewrite Hload.
  unfold bind at 1. unfold bind at 1. unfold driver_page_source at 1.
  unfold bind at 1. unfold the_session at 1.
  cbn [browsers set_driver set_next_sid set_browsers set_calls]. rewrite lookup_insert_eq.
  unfold ret at 1. cbn [page].
  destruct (contains "Page Not Found" (page_source env (tapr_url year))) eqn:Hpnf.
  - unfold ret at 1. unfold bind, st_write, driver_quit, bind, record, ret.
    eexists. split; [reflexivity|]. simpl. by rewrite <- !app_assoc.
  - simpl in Hnot_found. unfold driver_page_source, bind at 1, bind at 1, the_session at 1.
    cbn [browsers set_driver set_next_sid set_browsers set_calls]. rewrite lookup_insert_eq.
    unfold ret at 1. unfold ret at 1. cbn [page]. rewrite Hnot_found.
    unfold bind, st_write, driver_quit, bind, record, ret.
    eexists. split; [reflexivity|]. simpl. by rewrite <- !app_assoc.
Qed.

(** X21.  A year whose page says "Page Not Found", or has "404" anywhere in
    its source, is skipped: its folder is made all the same, one session is
    launched, sent to the page and quit, one line is written, and neither a
    file nor the clock has changed; the iteration returns normally, so the
    loop goes on with the next year. *)
Theorem year_without_page_is_skipped (directory_path : string) (variables : list string)
    (level level_name file_prefix : string) (dist_type : bool) (year : Z) (w : world) :
  (∀ r content, root w = Some r →
     r !! year_folder directory_path year ≠ Some (File content)) →
  chrome_fails env (next_sid w) = false →
  load_fails env (tapr_url year) = false →
  contains "Page Not Found" (page_source env (tapr_url year))
  || contains "404" (page_source env (tapr_url year)) = true →
  let run := process_year env directory_path variables level level_name file_prefix
               dist_type year w in
  run.1 = Ok tt
  ∧ calls run.2
    = (calls w ++ [Launch (next_sid w); Get (next_sid w) (tapr_url year);
                   Quit (next_sid w)])%list
  ∧ console run.2
    = (console w ++ [StWrite ("Year " ++ str_int year ++ " does not exist. Skipping...")])%list
  ∧ is_Some (folder run.2 (year_folder directory_path year))
  ∧ (∀ directory file, is_file run.2 directory file = is_file w directory file)
  ∧ now run.2 = now w.
Proof.
  intros Hfile Hchrome Hload Hnot_found. cbv zeta.
  destruct (os_makedirs_ok _ w Hfile) as (w1 & Hmk & Hfolder & Hfiles & Hw1).
  assert (next_sid w1 = next_sid w) as Hn by (by rewrite Hw1).
  assert (calls w1 = calls w) as Hc by (by rewrite Hw1).
  assert (console w1 = console w) as Ho by (by rewrite Hw1).
  assert (now w1 = now w) as Ht by (by rewrite Hw1).
  rewrite <- Hn in Hchrome.
  destruct (open_year_page_not_found (year_folder directory_path year) level year w1
              Hchrome Hload Hnot_found) as (w2 & Hopen & Hcalls & Hconsole & Hroot & Hnow).
  assert (process_year env directory_path variables level level_name file_prefix dist_type
            year w = (Ok tt, w2)) as ->.
  { unfold process_year. fold (year_folder directory_path year).
    unfold bind at 1. rewrite Hmk. unfold bind at 1. by rewrite Hopen. }
  cbn [fst snd]. rewrite Hcalls, Hconsole, Hnow, Hn, Hc, Ho, Ht.
  repeat split; try done.
  - unfold folder in *. by rewrite Hroot.
  - intros directory file. rewrite <- Hfiles. unfold is_file, folder. by rewrite Hroot.
Qed.

(** X22.  When the name of the folder of a year is taken by a file,
    [os.makedirs] raises [FileExistsError] and the run ends there: nothing is
    caught, no browser is launched for that year and no later year is begun. *)
Theorem folder_name_taken_by_a_file (directory_path : string) (years : list Z)
    (variables : list string) (level file_prefix : string) (dist_type : bool) (year : Z)
    (w : world) (r : gmap string node) (content : string) :
  root w = Some r →
  r !! year_folder directory_path year = Some (File content) →
  dict_get file_prefixes level = Some file_prefix →
  tea_scraper env directory_path (year :: years) variables level dist_type w
  = (Raise FileExistsError,
     set_console (console w ++ [Print ("Processing directory: " ++ directory_path)]) w).
Proof.
  intros Hr Hfile Hprefix. unfold tea_scraper. unfold bind at 1. unfold os_path_isdir_root.
  rewrite Hr. rewrite bool_decide_eq_true_2 by eauto. cbn [negb].
  unfold bind at 1. unfold print.
  assert (is_Some (dict_get valid_levels level)) as [level_name ->].
  { apply dict_get_valid_levels. revert Hprefix. unfold file_prefixes. simpl.
    rewrite !elem_of_cons.
    destruct (String.eqb_spec level "C"); [by auto|].
    destruct (String.eqb_spec level "D"); [by auto|].
    destruct (String.eqb_spec level "R"); [by auto|].
    destruct (String.eqb_spec level "S"); [by auto 6|]. discriminate. }
  rewrite Hprefix. unfold bind at 1. cbn [for_each]. unfold bind at 1.
  unfold process_year. fold (year_folder directory_path year).
  unfold bind at 1. unfold os_makedirs. cbn [root set_console]. by rewrite Hr, Hfile.
Qed.

End SkippedYear.

Lemma year_without_page_is_skipped_witness :
  let env := Site (λ _, false) (λ _, false) (λ _, "<h1>Page Not Found</h1>") (λ _ _, true)
               (λ _ _, None) (λ _, None) (λ _, None) (λ content, inr content) in
  let run := process_year env "/data" ["GRAD"] "D" "District" "DIST" true 2031 empty_disk in
  run.1 = Ok tt
  ∧ calls run.2
    = (calls empty_disk ++ [Launch (next_sid empty_disk);
                            Get (next_sid empty_disk) (tapr_url 2031);
                            Quit (next_sid empty_disk)])%list
  ∧ console run.2
    = (console empty_disk
       ++ [StWrite ("Year " ++ str_int 2031 ++ " does not exist. Skipping...")])%list
  ∧ is_Some (folder run.2 (year_folder "/data" 2031))
  ∧ (∀ directory file, is_file run.2 directory file = is_file empty_disk directory file)
  ∧ now run.2 = now empty_disk.
Proof.
  cbv zeta.
  apply (year_without_page_is_skipped
           (Site (λ _, false) (λ _, false) (λ _, "<h1>Page Not Found</h1>") (λ _ _, true)
              (λ _ _, None) (λ _, None) (λ _, None) (λ content, inr content))
           "/data" ["GRAD"] "D" "District" "DIST" true 2031 empty_disk).
  - intros r content [= <-]. by rewrite lookup_empty.
  - reflexivity.
  - reflexivity.
  - vm_compute. reflexivity.
Defined.

Lemma folder_name_taken_by_a_file_witness :
  tea_scraper (portal "DIST") "/data" [2021; 2022] ["GRAD"] "D" true
    (on_disk {[ "/data/raw_data2021" := File "not a folder" ]})
  = (Raise FileExistsError,
     set_console (console (on_disk {[ "/data/raw_data2021" := File "not a folder" ]})
                  ++ [Print ("Processing directory: " ++ "/data")])
       (on_disk {[ "/data/raw_data2021" := File "not a folder" ]})).
Proof.
  apply (folder_name_taken_by_a_file (portal "DIST") "/data" [2022] ["GRAD"] "D" "DIST" true
           2021 (on_disk {[ "/data/raw_data2021" := File "not a folder" ]})
           {[ "/data/raw_data2021" := File "not a folder" ]} "not a folder").
  - reflexivity.
  - vm_compute. reflexivity.
  - reflexivity.
Defined.

(** ** The levels the page offers *)

(** X23.  Every level of the dropdown is one [tea_scraper] takes: its code
    is a key of both dictionaries, so neither the [ValueError] of line 225
    nor a [KeyError] at line 232 can come from the page, and the name the
    scraper writes for the level is the name that was chosen.  With a
    directory that exists the run goes straight on to the years. *)
Theorem offered_level_is_accepted (env : site) (selected_level inputted_level : string)
    (directory_path : string) (years : list Z) (variables : list string)
    (dist_type : bool) (w : world) :
  dict_get LEVEL_MAPPING selected_level = Some inputted_level →
  is_Some (root w) →
  ∃ file_prefix,
    dict_get valid_levels inputted_level = Some selected_level
    ∧ dict_get file_prefixes inputted_level = Some file_prefix
    ∧ tea_scraper env directory_path years variables inputted_level dist_type w
      = (print ("Processing directory: " ++ directory_path) ;;;
         for_each years
           (process_year env directory_path variables inputted_level selected_level
              file_prefix dist_type) ;;;
         st_write "All Data Downloaded!") w.
Proof.
  intros Hlevel Hroot. unfold LEVEL_MAPPING in Hlevel. cbn [dict_get] in Hlevel.
  unfold tea_scraper. unfold bind at 1. unfold os_path_isdir_root.
  rewrite bool_decide_eq_true_2 by done. cbn [negb].
  destruct (String.eqb_spec selected_level "Campus") as [->|_];
    [injection Hlevel as <-; by eexists|].
  destruct (String.eqb_spec selected_level "District") as [->|_];
    [injection Hlevel as <-; by eexists|].
  destruct (String.eqb_spec selected_level "Region") as [->|_];
    [injection Hlevel as <-; by eexists|].
  destruct (String.eqb_spec selected_level "State") as [->|_];
    [injection Hlevel as <-; by eexists|].
  discriminate.
Qed.

Lemma offered_level_is_accepted_witness :
  ∃ file_prefix,
    dict_get valid_levels "R" = Some "Region"
    ∧ dict_get file_prefixes "R" = Some file_prefix
    ∧ tea_scraper (portal "REGN") "/data" [2021] ["GRAD"] "R" true empty_disk
      = (print ("Processing directory: " ++ "/data") ;;;
         for_each [2021%Z]
           (process_year (portal "REGN") "/data" ["GRAD"] "R" "Region" file_prefix true) ;;;
         st_write "All Data Downloaded!") empty_disk.
Proof.
  apply (offered_level_is_accepted (portal "REGN") "Region" "R" "/data" [2021%Z] ["GRAD"]
           true empty_disk).
  - reflexivity.
  - by eexists.
Defined.
